(** * ArthurDex backend (server.js): a shallow embedding and its properties

    The Express handlers of [server.js] are written as state-passing
    functions over a [World] holding the mongoose collections, the
    in-process [memoryStore] and the log of calls made through the Hedera
    client.  What the outside world answers (the ledger, the CoinGecko
    oracle, the clock) is an argument of the handler that asks for it.

    Modelling conventions:
    - a JavaScript number is NaN, an infinity, or a double, kept as the
      rational it denotes; [Number] of a string rounds the literal to the
      nearest double, ties to even, and overflows to Infinity; the sign of
      zero is not kept;
    - request fields the handlers only treat as text (user names, account
      and token ids, keys) are optional strings, [None] standing for an
      absent field; the fields the handlers convert ([amount], [decimals],
      [initialSupply]) are arbitrary JSON scalars;
    - arrays and objects as field values, and repeated query parameters,
      are outside the model;
    - strings are ASCII; only ASCII white space is trimmed by the numeric
      conversions;
    - an SDK setter records its arguments, and [addTokenTransfer] keeps its
      list of legs as the SDK does (one leg per token and account, amounts
      of 64 bits); what the SDK does with a transaction later is part of
      the stubbed ledger;
    - a mongoose operation throws when the connection is not open
      ([readyState <> 1]) and otherwise behaves as documented by MongoDB;
      [Transaction.create] casts [amount] as the schema type Number does. *)

From Stdlib Require Import String Ascii ZArith QArith List Sorted Bool Lia.
Import ListNotations.

Close Scope Q_scope.
Open Scope string_scope.
Open Scope Z_scope.

(** ** JavaScript values and the conversions the handlers rely on *)

Module Js.

Inductive JsNumber : Type :=
| NaN
| Infinity (negative : bool)
| Finite (q : Q).

Inductive JsValue : Type :=
| VUndefined
| VNull
| VBool (b : bool)
| VNumber (n : JsNumber)
| VString (s : string).

(** What a [throw] carries.  [err.message] of a built-in error is kept
    symbolic; SDK and driver errors carry their text. *)
Inductive Exn : Type :=
| TypeError (what : string)
| RangeError (what : string)
| SyntaxError (what : string)
| SdkError (message : string)
| DbError (message : string).

Inductive outcome (A : Type) : Type :=
| Ok (a : A)
| Throw (e : Exn).
Arguments Ok {A} a.
Arguments Throw {A} e.

Definition of_int (z : Z) : JsNumber := Finite (inject_Z z).

Definition is_zero (q : Q) : bool := Qnum q =? 0.

(** [!!v] *)
Definition truthy (v : JsValue) : bool :=
  match v with
  | VUndefined | VNull => false
  | VBool b => b
  | VNumber NaN => false
  | VNumber (Infinity _) => true
  | VNumber (Finite q) => negb (is_zero q)
  | VString s => negb (String.eqb s "")
  end.

(** [v == null] *)
Definition loosely_null (v : JsValue) : bool :=
  match v with
  | VUndefined | VNull => true
  | _ => false
  end.

(** A destructuring default [{ x = d }] applies to [undefined] only. *)
Definition default_to (d v : JsValue) : JsValue :=
  match v with
  | VUndefined => d
  | _ => v
  end.

(** *** Numeric literals in strings *)

Definition is_ws (c : ascii) : bool :=
  let n := nat_of_ascii c in
  ((n =? 9) || (n =? 10) || (n =? 11) || (n =? 12) || (n =? 13) || (n =? 32))%nat.

Fixpoint trim_left (l : list ascii) : list ascii :=
  match l with
  | c :: r => if is_ws c then trim_left r else l
  | [] => []
  end.

Definition trim (l : list ascii) : list ascii :=
  rev (trim_left (rev (trim_left l))).

Definition digit_of (base : Z) (c : ascii) : option Z :=
  let n := Z.of_nat (nat_of_ascii c) in
  let d :=
    if (48 <=? n) && (n <=? 57) then Some (n - 48)
    else if (97 <=? n) && (n <=? 102) then Some (n - 87)
    else if (65 <=? n) && (n <=? 70) then Some (n - 55)
    else None in
  match d with
  | Some v => if v <? base then Some v else None
  | None => None
  end.

(** Value of a run of digits, [None] when a character is not a digit. *)
Fixpoint digits_from (base acc : Z) (l : list ascii) : option Z :=
  match l with
  | [] => Some acc
  | c :: r =>
      match digit_of base c with
      | Some d => digits_from base (acc * base + d) r
      | None => None
      end
  end.

(** A non-empty run of digits. *)
Definition digits (base : Z) (l : list ascii) : option Z :=
  match l with
  | [] => None
  | _ => digits_from base 0 l
  end.

Definition is_char (c : ascii) (lower upper : ascii) : bool :=
  Ascii.eqb c lower || Ascii.eqb c upper.

(** [NonDecimalIntegerLiteral]: 0x, 0o and 0b prefixes, no sign. *)
Definition non_decimal (l : list ascii) : option (option Z) :=
  match l with
  | z :: p :: r =>
      if Ascii.eqb z "0" then
        if is_char p "x" "X" then Some (digits 16 r)
        else if is_char p "o" "O" then Some (digits 8 r)
        else if is_char p "b" "B" then Some (digits 2 r)
        else None
      else None
  | _ => None
  end.

Definition split_sign (l : list ascii) : bool * list ascii :=
  match l with
  | c :: r =>
      if Ascii.eqb c "-" then (true, r)
      else if Ascii.eqb c "+" then (false, r)
      else (false, l)
  | [] => (false, [])
  end.

Definition signed (neg : bool) (z : Z) : Z := if neg then - z else z.

(** [StringToBigInt]: [None] is the SyntaxError of [BigInt(string)]. *)
Definition string_to_bigint (s : string) : option Z :=
  let l := trim (list_ascii_of_string s) in
  match l with
  | [] => Some 0
  | _ =>
      match non_decimal l with
      | Some r => r
      | None =>
          let (neg, r) := split_sign l in
          option_map (signed neg) (digits 10 r)
      end
  end.

(** Longest prefix of decimal digits, and the rest. *)
Fixpoint span_digits (l : list ascii) : list ascii * list ascii :=
  match l with
  | c :: r =>
      match digit_of 10 c with
      | Some _ => let (d, rest) := span_digits r in (c :: d, rest)
      | None => ([], l)
      end
  | [] => ([], [])
  end.

(** [ExponentPart], or nothing: the power of ten it denotes. *)
Definition exponent (l : list ascii) : option Z :=
  match l with
  | [] => Some 0
  | c :: r =>
      if is_char c "e" "E" then
        let (neg, ds) := split_sign r in
        option_map (signed neg) (digits 10 ds)
      else None
  end.

(** [m * 10^k] as a rational. *)
Definition scale10 (m k : Z) : Q :=
  if 0 <=? k then inject_Z (m * 10 ^ k)
  else Qred (Qmake m (Z.to_pos (10 ^ (- k)))).

Definition infinity_text : list ascii := list_ascii_of_string "Infinity".

Definition negate (n : JsNumber) : JsNumber :=
  match n with
  | NaN => NaN
  | Infinity b => Infinity (negb b)
  | Finite q => Finite (Qopp q)
  end.

(** [n / d] rounded to an integer, ties to even ([d] is positive). *)
Definition round_half_even (n d : Z) : Z :=
  let q := n / d in
  let r := n mod d in
  if 2 * r <? d then q
  else if d <? 2 * r then q + 1
  else if Z.even q then q else q + 1.

(** The double nearest to the positive rational [n / d], ties to even: 53
    significant bits, the last of them of weight [2 ^ e] with [e] no lower
    than -1074, and Infinity when the rounded value reaches [2 ^ 1024]. *)
Definition nearest_double (n : Z) (d : positive) : JsNumber :=
  let e0 := Z.log2 n - Z.log2 (Z.pos d) in
  let above :=
    if 0 <=? e0 then Z.pos d * 2 ^ e0 <=? n else Z.pos d <=? n * 2 ^ (- e0) in
  let l := if above then e0 else e0 - 1 in
  let e := Z.max (l - 52) (-1074) in
  if 0 <=? e then
    let v := round_half_even n (Z.pos d * 2 ^ e) * 2 ^ e in
    if 2 ^ 1024 <=? v then Infinity false else Finite (inject_Z v)
  else
    Finite (Qred (Qmake (round_half_even (n * 2 ^ (- e)) (Z.pos d))
                        (Z.to_pos (2 ^ (- e))))).

(** The Number value of a literal that denotes the rational [q]. *)
Definition to_double (q : Q) : JsNumber :=
  match Qnum q with
  | 0 => of_int 0
  | Z.pos _ => nearest_double (Qnum q) (Qden q)
  | Z.neg p => negate (nearest_double (Z.pos p) (Qden q))
  end.

Fixpoint ascii_list_eqb (a b : list ascii) : bool :=
  match a, b with
  | [], [] => true
  | x :: a', y :: b' => Ascii.eqb x y && ascii_list_eqb a' b'
  | _, _ => false
  end.

(** [StrUnsignedDecimalLiteral] *)
Definition unsigned_decimal (l : list ascii) : option JsNumber :=
  if ascii_list_eqb l infinity_text then Some (Infinity false)
  else
    let (ip, r1) := span_digits l in
    let '(fp, r2) :=
      match r1 with
      | c :: r => if Ascii.eqb c "." then span_digits r else ([], r1)
      | [] => ([], [])
      end in
    match ip, fp with
    | [], [] => None
    | _, _ =>
        match digits_from 10 0 (ip ++ fp), exponent r2 with
        | Some m, Some e => Some (to_double (scale10 m (e - Z.of_nat (List.length fp))))
        | _, _ => None
        end
    end.

(** [StringToNumber]: what [Number(string)] evaluates to. *)
Definition string_to_number (s : string) : JsNumber :=
  let l := trim (list_ascii_of_string s) in
  match l with
  | [] => of_int 0
  | _ =>
      match non_decimal l with
      | Some (Some z) => to_double (inject_Z z)
      | Some None => NaN
      | None =>
          let (neg, r) := split_sign l in
          match unsigned_decimal r with
          | Some n => if neg then negate n else n
          | None => NaN
          end
      end
  end.

(** [Number(v)] *)
Definition Number (v : JsValue) : JsNumber :=
  match v with
  | VUndefined => NaN
  | VNull => of_int 0
  | VBool b => of_int (if b then 1 else 0)
  | VNumber n => n
  | VString s => string_to_number s
  end.

Definition integral (q : Q) : bool :=
  Z.rem (Qnum q) (Z.pos (Qden q)) =? 0.

Definition integer_part (q : Q) : Z :=
  Z.quot (Qnum q) (Z.pos (Qden q)).

(** [BigInt(v)] *)
Definition BigInt (v : JsValue) : outcome Z :=
  match v with
  | VUndefined => Throw (TypeError "Cannot convert undefined to a BigInt")
  | VNull => Throw (TypeError "Cannot convert null to a BigInt")
  | VBool b => Ok (if b then 1 else 0)
  | VNumber (Finite q) =>
      if integral q then Ok (integer_part q)
      else Throw (RangeError "not an integer")
  | VNumber _ => Throw (RangeError "not an integer")
  | VString s =>
      match string_to_bigint s with
      | Some z => Ok z
      | None => Throw (SyntaxError "Cannot convert string to a BigInt")
      end
  end.

(** [ToIntegerOrInfinity], as [Array.prototype.slice] applies it. *)
Inductive IntOrInf : Type :=
| MinusInf
| PlusInf
| Int (z : Z).

Definition to_integer_or_infinity (n : JsNumber) : IntOrInf :=
  match n with
  | NaN => Int 0
  | Infinity true => MinusInf
  | Infinity false => PlusInf
  | Finite q => Int (integer_part q)
  end.

(** [arr.slice(0, end)] *)
Definition slice0 {A : Type} (arr : list A) (finish : JsNumber) : list A :=
  let len := Z.of_nat (List.length arr) in
  let final :=
    match to_integer_or_infinity finish with
    | MinusInf => 0
    | PlusInf => len
    | Int e => if e <? 0 then Z.max (len + e) 0 else Z.min e len
    end in
  firstn (Z.to_nat final) arr.

(** [a.split(" ")[1]] *)
Fixpoint split_on (sep : ascii) (l : list ascii) (cur : list ascii) : list (list ascii) :=
  match l with
  | [] => [rev cur]
  | c :: r =>
      if Ascii.eqb c sep then rev cur :: split_on sep r []
      else split_on sep r (c :: cur)
  end.

Definition split_space_second (s : string) : option string :=
  match split_on " " (list_ascii_of_string s) [] with
  | _ :: t :: _ => Some (string_of_list_ascii t)
  | _ => None
  end.

End Js.
Import Js.

(** ** Documents, stores and the world *)

(** An entry of [userSchema.accounts]. *)
Record Account : Type := {
  acc_accountId : option string;
  acc_privateKeyEncrypted : option string;
  acc_passphrase : option string;
  acc_hbar : Z
}.

(** [userSchema]; the memory store keeps the same fields but [createdAt]. *)
Record User : Type := {
  username : string;
  passwordHash : string;
  passphrase : string;
  accounts : list Account;
  user_createdAt : option Z
}.

(** [txSchema].  A field the handler leaves out is [None] / [VUndefined]. *)
Record Tx : Type := {
  tx_accountId : option string;
  tx_type : option string;
  tx_tokenId : option string;
  tx_amount : JsValue;
  tx_status : option string;
  tx_transactionId : option string;
  tx_metadata : JsValue;
  tx_createdAt : option Z
}.

(** [priceSchema], also the shape of the objects [fetchCoinGecko] builds. *)
Record Price : Type := {
  coinId : string;
  usd : JsValue;
  change_24h : JsValue;
  updatedAt : Z
}.

(** The three mongoose collections and [mongoose.connection.readyState]. *)
Record Mongo : Type := {
  readyState : Z;
  Users : list User;
  Transactions : list Tx;
  Prices : list Price
}.

(** [const memoryStore = { users: new Map(), txs: [] }]; the [prices]
    property does not exist until [priceUpdaterOnce] assigns it.  The Map is
    kept as its entries in insertion order. *)
Record MemoryStore : Type := {
  users : list (string * User);
  txs : list Tx;
  prices : option (list Price)
}.

(** *** The Hedera SDK, as far as the handlers use it *)

Record AccountId : Type := { shard : Z; realm : Z; num : Z }.

Inductive TokenId : Type := TokId (shard realm num : Z).

Inductive PrivateKey : Type := PrivKey (raw : string).
Inductive PublicKey : Type := PubKey (raw : string).

Inductive TokenType : Type := FungibleCommon | NonFungibleUnique.
Inductive TokenSupplyType : Type := Infinite | FiniteSupply.

(** One [addTokenTransfer(tokenId, accountId, amount)]. *)
Record TokenTransfer : Type := {
  tt_tokenId : TokenId;
  tt_accountId : AccountId;
  tt_amount : Z
}.

(** A [TransferTransaction], as the calls made on it. *)
Record TransferTransaction : Type := {
  tokenTransfers : list TokenTransfer;
  transactionMemo : string
}.

(** A [TokenCreateTransaction], as the setters called on it. *)
Record TokenCreateTransaction : Type := {
  tokenName : string;
  tokenSymbol : string;
  decimals : JsNumber;
  initialSupply : Z;
  treasuryAccountId : AccountId;
  tokenType : TokenType;
  supplyType : TokenSupplyType;
  adminKey : PublicKey;
  supplyKey : PublicKey
}.

Record TransactionResponse : Type := { transactionId : string }.

Record TransactionReceipt : Type := {
  status : string;
  tokenId : option string
}.

(** Calls that go through [hederaClient]. *)
Inductive LedgerCall : Type :=
| FreezeWith (tx : TransferTransaction)
| ExecuteTransfer (tx : TransferTransaction) (signer : PrivateKey)
| ExecuteTokenCreate (tx : TokenCreateTransaction)
| GetReceipt (resp : TransactionResponse).

(** What the SDK and the network answer.  Parsing is local (a setter given
    a token id as a string parses it with [TokenId.fromString]);
    [bigint_amounts] tells the installed release apart: releases up to
    2.73.2 throw when [addTokenTransfer] is given a bigint, later ones take
    it; the other fields are the stubbed ledger. *)
Record Sdk : Type := {
  AccountId_fromString : string -> outcome AccountId;
  TokenId_fromString : string -> outcome TokenId;
  PrivateKey_fromString : string -> outcome PrivateKey;
  publicKey : PrivateKey -> PublicKey;
  bigint_amounts : bool;
  freezeWith_sign : TransferTransaction -> PrivateKey -> outcome unit;
  execute_transfer : TransferTransaction -> PrivateKey -> outcome TransactionResponse;
  execute_tokenCreate : TokenCreateTransaction -> outcome TransactionResponse;
  getReceipt : TransactionResponse -> outcome TransactionReceipt
}.

(** bcrypt and jsonwebtoken. *)
Record Crypto : Type := {
  bcrypt_hash : string -> string;
  jwt_sign : string -> Z -> string;
  jwt_verify : string -> outcome string
}.

(** [process.env] after the defaults of lines 30-37. *)
Record Config : Type := {
  JWT_SECRET : string;
  MONGO_URI : string;
  HEDERA_OPERATOR_ID : string;
  HEDERA_OPERATOR_KEY : string;
  COINGECKO_IDS : string
}.

Record World : Type := {
  mongo : Mongo;
  memoryStore : MemoryStore;
  ledgerCalls : list LedgerCall
}.

(** [if (s)] on a string constant. *)
Definition nonempty (s : string) : bool := negb (String.eqb s "").

(** *** Computations that change the world and may throw *)

Definition M (A : Type) : Type := World -> World * outcome A.

Definition ret {A : Type} (a : A) : M A := fun w => (w, Ok a).

Definition throw {A : Type} (e : Exn) : M A := fun w => (w, Throw e).

Definition bind {A B : Type} (c : M A) (k : A -> M B) : M B :=
  fun w =>
    match c w with
    | (w', Ok a) => k a w'
    | (w', Throw e) => (w', Throw e)
    end.

(** [try { c } catch (err) { h(err) }] *)
Definition try_catch {A : Type} (c : M A) (h : Exn -> M A) : M A :=
  fun w =>
    match c w with
    | (w', Ok a) => (w', Ok a)
    | (w', Throw e) => h e w'
    end.

Definition lift {A : Type} (o : outcome A) : M A := fun w => (w, o).

Definition get : M World := fun w => (w, Ok w).

Definition modify (f : World -> World) : M unit := fun w => (f w, Ok tt).

Declare Scope m_scope.
Delimit Scope m_scope with m.
Notation "x <- c ;; k" := (bind c (fun x => k))
  (at level 61, c at next level, right associativity) : m_scope.
Notation "c ;;; k" := (bind c (fun _ => k))
  (at level 61, right associativity) : m_scope.
Open Scope m_scope.

(** Sequencing of conversions that may throw and leave the world alone. *)
Definition obind {A B : Type} (o : outcome A) (k : A -> outcome B) : outcome B :=
  match o with
  | Ok a => k a
  | Throw e => Throw e
  end.

Notation "x <~ c ;; k" := (obind c (fun x => k))
  (at level 61, c at next level, right associativity) : m_scope.

(** *** Responses *)

Inductive Body : Type :=
| BError (error : string)
| BErrorDetails (error : string) (details : Exn)
| BToken (token : string)
| BTransactions (accountId : string) (transactions : list Tx)
| BTx (tx : Tx)
| BTokenCreated (tokenId : option string) (status : string)
| BTransfer (transactionId : string) (status : string)
| BPrices (docs : list Price).

Record Response : Type := { code : Z; body : Body }.

(** [res.status(c).json(b)] and [res.json(b)] *)
Definition res_status (c : Z) (b : Body) : Response := {| code := c; body := b |}.
Definition res_json (b : Body) : Response := res_status 200 b.

(** A handler is [try { ... } catch (err) { ... }] around its body. *)
Definition handler (c : M Response) (on_error : Exn -> Response)
  : World -> World * Response :=
  fun w =>
    match c w with
    | (w', Ok r) => (w', r)
    | (w', Throw e) => (w', on_error e)
    end.

(** A required text field: there and not the empty string. *)
Definition required (s : option string) : option string :=
  match s with
  | Some t => if nonempty t then Some t else None
  | None => None
  end.

(** *** World updates *)

Definition set_mongo (f : Mongo -> Mongo) (w : World) : World :=
  {| mongo := f (mongo w); memoryStore := memoryStore w; ledgerCalls := ledgerCalls w |}.

Definition set_memory (f : MemoryStore -> MemoryStore) (w : World) : World :=
  {| mongo := mongo w; memoryStore := f (memoryStore w); ledgerCalls := ledgerCalls w |}.

(** The handler is about to go through [hederaClient]. *)
Definition call (c : LedgerCall) : M unit :=
  modify (fun w =>
    {| mongo := mongo w; memoryStore := memoryStore w;
       ledgerCalls := ledgerCalls w ++ [c] |}).

(** *** mongoose *)

Module Mongoose.

Definition connected : M unit :=
  w <- get ;;
  if readyState (mongo w) =? 1 then ret tt
  else throw (DbError "not connected").

(** [User.findOne({ username }).exec()] *)
Definition User_findOne (name : string) : M (option User) :=
  connected ;;;
  w <- get ;;
  ret (find (fun u => String.eqb (username u) name) (Users (mongo w))).

(** [new User(u).save()]: [createdAt] defaults to now, and the unique
    index on [username] refuses a second document of that name. *)
Definition User_save (now : Z) (u : User) : M unit :=
  connected ;;;
  w <- get ;;
  if existsb (fun v => String.eqb (username v) (username u)) (Users (mongo w))
  then throw (DbError "E11000 duplicate key")
  else
    let doc := {| username := username u; passwordHash := passwordHash u;
                  passphrase := passphrase u; accounts := accounts u;
                  user_createdAt :=
                    match user_createdAt u with Some t => Some t | None => Some now end |} in
    modify (set_mongo (fun m =>
      {| readyState := readyState m; Users := Users m ++ [doc];
         Transactions := Transactions m; Prices := Prices m |})).

(** The schema default [createdAt: Date.now]. *)
Definition with_createdAt (now : Z) (t : Tx) : Tx :=
  {| tx_accountId := tx_accountId t; tx_type := tx_type t; tx_tokenId := tx_tokenId t;
     tx_amount := tx_amount t; tx_status := tx_status t;
     tx_transactionId := tx_transactionId t; tx_metadata := tx_metadata t;
     tx_createdAt := match tx_createdAt t with Some c => Some c | None => Some now end |}.

(** The cast of the schema type Number (txSchema, [amount: Number]):
    [undefined] and [null] stay, the empty string becomes [null], another
    string or a boolean goes through [Number], and NaN is a cast error. *)
Definition cast_number (v : JsValue) : outcome JsValue :=
  match v with
  | VUndefined => Ok VUndefined
  | VNull => Ok VNull
  | VBool b => Ok (VNumber (Number (VBool b)))
  | VNumber NaN => Throw (DbError "Cast to Number failed")
  | VNumber n => Ok (VNumber n)
  | VString s =>
      if String.eqb s "" then Ok VNull
      else
        match Number (VString s) with
        | NaN => Throw (DbError "Cast to Number failed")
        | n => Ok (VNumber n)
        end
  end.

(** The document [new Transaction(t)] makes of [t]: [amount] is cast; the
    text fields are strings already and [metadata] is Mixed. *)
Definition cast_tx (t : Tx) : outcome Tx :=
  amount <~ cast_number (tx_amount t) ;;
  Ok {| tx_accountId := tx_accountId t; tx_type := tx_type t; tx_tokenId := tx_tokenId t;
        tx_amount := amount; tx_status := tx_status t;
        tx_transactionId := tx_transactionId t; tx_metadata := tx_metadata t;
        tx_createdAt := tx_createdAt t |}.

(** [Transaction.create(t)]: validation rejects a document whose [amount]
    does not cast, before anything is sent to the database. *)
Definition Transaction_create (now : Z) (t : Tx) : M Tx :=
  cast <- lift (cast_tx t) ;;
  connected ;;;
  let doc := with_createdAt now cast in
  modify (set_mongo (fun m =>
    {| readyState := readyState m; Users := Users m;
       Transactions := Transactions m ++ [doc]; Prices := Prices m |})) ;;;
  ret doc.

(** Order of [createdAt] values; a missing one sorts lowest. *)
Definition createdAt_leb (a b : option Z) : bool :=
  match a, b with
  | None, _ => true
  | Some _, None => false
  | Some x, Some y => x <=? y
  end.

(** [sort({ createdAt: -1 })], as a stable insertion sort. *)
Fixpoint insert_desc (t : Tx) (l : list Tx) : list Tx :=
  match l with
  | [] => [t]
  | h :: r =>
      if createdAt_leb (tx_createdAt t) (tx_createdAt h)
      then h :: insert_desc t r
      else t :: l
  end.

Definition sort_desc (l : list Tx) : list Tx :=
  fold_left (fun acc t => insert_desc t acc) l [].

(** [limit(n)]: zero means no limit, a negative value limits to its size;
    a value that is not an integer is refused. *)
Definition limit {A : Type} (n : JsNumber) (l : list A) : outcome (list A) :=
  match n with
  | Finite q =>
      if integral q then
        let k := integer_part q in
        if k =? 0 then Ok l else Ok (firstn (Z.to_nat (Z.abs k)) l)
      else Throw (DbError "limit must be an integer")
  | _ => Throw (DbError "limit must be an integer")
  end.

Definition accountId_is (a : string) (t : Tx) : bool :=
  match tx_accountId t with
  | Some b => String.eqb b a
  | None => false
  end.

(** [Transaction.find({ accountId }).sort({ createdAt: -1 }).limit(n).exec()] *)
Definition Transaction_find_sort_limit (a : string) (n : JsNumber) : M (list Tx) :=
  connected ;;;
  w <- get ;;
  lift (limit n (sort_desc (filter (accountId_is a) (Transactions (mongo w))))).

(** [Price.find({}).exec()] *)
Definition Price_find : M (list Price) :=
  connected ;;;
  w <- get ;;
  ret (Prices (mongo w)).

(** Replace the first document of that [coinId], or add one. *)
Fixpoint upsert (p : Price) (l : list Price) : list Price :=
  match l with
  | [] => [p]
  | h :: r => if String.eqb (coinId h) (coinId p) then p :: r else h :: upsert p r
  end.

(** [Price.findOneAndUpdate({ coinId }, p, { upsert: true })] *)
Definition Price_findOneAndUpdate (p : Price) : M unit :=
  connected ;;;
  modify (set_mongo (fun m =>
    {| readyState := readyState m; Users := Users m;
       Transactions := Transactions m; Prices := upsert p (Prices m) |})).

End Mongoose.

(** ** server.js *)

(** [hederaClient] after lines 88-100: set when both operator variables are
    there and parse, [null] otherwise. *)
Definition hederaClient (cfg : Config) (sdk : Sdk) : bool :=
  if nonempty (HEDERA_OPERATOR_ID cfg) && nonempty (HEDERA_OPERATOR_KEY cfg) then
    match AccountId_fromString sdk (HEDERA_OPERATOR_ID cfg),
          PrivateKey_fromString sdk (HEDERA_OPERATOR_KEY cfg) with
    | Ok _, Ok _ => true
    | _, _ => false
    end
  else false.

(** [genToken] *)
Definition genToken (cr : Crypto) (now : Z) (name : string) : string :=
  jwt_sign cr name now.

(** [hashPassword] *)
Definition hashPassword (cr : Crypto) (pw : string) : string := bcrypt_hash cr pw.

(** [authMiddleware]: [inl] is the response that ends the request, [inr] the
    verified user the handler then runs for. *)
Definition authMiddleware (cr : Crypto) (authorization : option string)
  : Response + string :=
  match required authorization with
  | None => inl (res_status 401 (BError "Missing Authorization header"))
  | Some a =>
      match required (split_space_second a) with
      | None => inl (res_status 401 (BError "Malformed Authorization header"))
      | Some token =>
          match jwt_verify cr token with
          | Ok data => inr data
          | Throw _ => inl (res_status 401 (BError "Invalid token"))
          end
      end
  end.

(** A route registered behind [authMiddleware]. *)
Definition protected (cr : Crypto) (authorization : option string)
    (h : World -> World * Response) : World -> World * Response :=
  fun w =>
    match authMiddleware cr authorization with
    | inl r => (w, r)
    | inr _ => h w
    end.

(** *** The memory store *)

Definition users_has (name : string) (m : MemoryStore) : bool :=
  existsb (fun kv => String.eqb (fst kv) name) (users m).

(** [Map.prototype.set]: an existing key keeps its place. *)
Fixpoint entries_set (name : string) (u : User) (l : list (string * User))
  : list (string * User) :=
  match l with
  | [] => [(name, u)]
  | kv :: r =>
      if String.eqb (fst kv) name then (name, u) :: r
      else kv :: entries_set name u r
  end.

Definition users_set (name : string) (u : User) (m : MemoryStore) : MemoryStore :=
  {| users := entries_set name u (users m); txs := txs m; prices := prices m |}.

(** [memoryStore.txs.unshift(t)] *)
Definition txs_unshift (t : Tx) (m : MemoryStore) : MemoryStore :=
  {| users := users m; txs := t :: txs m; prices := prices m |}.

(** [memoryStore.prices = data] *)
Definition prices_assign (data : list Price) (m : MemoryStore) : MemoryStore :=
  {| users := users m; txs := txs m; prices := Some data |}.

(** *** POST /api/auth/register *)

Record RegisterBody : Type := {
  reg_username : option string;
  reg_password : option string;
  reg_passphrase : option string
}.

Definition register (cfg : Config) (cr : Crypto) (now : Z) (b : RegisterBody)
  : World -> World * Response :=
  handler
    (match required (reg_username b), required (reg_password b),
           required (reg_passphrase b) with
     | Some username, Some password, Some passphrase =>
         if nonempty (MONGO_URI cfg) then
           exists_ <- Mongoose.User_findOne username ;;
           match exists_ with
           | Some _ => ret (res_status 400 (BError "User exists"))
           | None =>
               let hash := hashPassword cr password in
               Mongoose.User_save now
                 {| username := username; passwordHash := hash;
                    passphrase := passphrase; accounts := [];
                    user_createdAt := None |} ;;;
               ret (res_json (BToken (genToken cr now username)))
           end
         else
           w <- get ;;
           if users_has username (memoryStore w) then
             ret (res_status 400 (BError "User exists"))
           else
             let hash := hashPassword cr password in
             modify (set_memory (users_set username
               {| username := username; passwordHash := hash;
                  passphrase := passphrase; accounts := [];
                  user_createdAt := None |})) ;;;
             ret (res_json (BToken (genToken cr now username)))
     | _, _, _ => ret (res_status 400 (BError "Missing fields"))
     end)
    (fun _ => res_status 500 (BError "Server error")).

(** *** GET /api/transactions/:accountId *)

(** [Number(req.query.limit || 50)] *)
Definition query_limit (q : option string) : JsNumber :=
  match required q with
  | Some s => Number (VString s)
  | None => Number (VNumber (of_int 50))
  end.

Definition list_transactions (cfg : Config) (accountId : string)
    (limit : option string) : World -> World * Response :=
  handler
    (let limit := query_limit limit in
     if nonempty (MONGO_URI cfg) then
       txs <- Mongoose.Transaction_find_sort_limit accountId limit ;;
       ret (res_json (BTransactions accountId txs))
     else
       w <- get ;;
       let txs :=
         slice0 (filter (Mongoose.accountId_is accountId) (txs (memoryStore w))) limit in
       ret (res_json (BTransactions accountId txs)))
    (fun _ => res_status 500 (BError "Server error")).

(** *** POST /api/transactions *)

Record TxBody : Type := {
  txb_accountId : option string;
  txb_type : option string;
  txb_tokenId : option string;
  txb_amount : JsValue;
  txb_status : option string;
  txb_transactionId : option string;
  txb_metadata : JsValue
}.

Definition post_transaction (cfg : Config) (now : Z) (b : TxBody)
  : World -> World * Response :=
  handler
    (let status := match txb_status b with Some s => Some s | None => Some "PENDING" end in
     let tx := {| tx_accountId := txb_accountId b; tx_type := txb_type b;
                  tx_tokenId := txb_tokenId b; tx_amount := txb_amount b;
                  tx_status := status; tx_transactionId := txb_transactionId b;
                  tx_metadata := txb_metadata b; tx_createdAt := Some now |} in
     if nonempty (MONGO_URI cfg) then
       created <- Mongoose.Transaction_create now tx ;;
       ret (res_json (BTx created))
     else
       modify (set_memory (txs_unshift tx)) ;;;
       ret (res_json (BTx tx)))
    (fun _ => res_status 500 (BError "Server error")).

(** *** POST /api/token/create *)

Record TokenCreateBody : Type := {
  tc_name : option string;
  tc_symbol : option string;
  tc_decimals : JsValue;
  tc_initialSupply : JsValue;
  tc_treasuryAccountId : option string
}.

(** Lines 282-298: the destructuring defaults, the field check and the
    transaction built from the request; [inl] is the 400 response. *)
Definition tokenCreate (cfg : Config) (sdk : Sdk) (b : TokenCreateBody)
  : outcome (Response + TokenCreateTransaction) :=
  let decimals := default_to (VNumber (of_int 0)) (tc_decimals b) in
  let initialSupply := default_to (VNumber (of_int 0)) (tc_initialSupply b) in
  match required (tc_name b), required (tc_symbol b) with
  | Some name, Some symbol =>
      treasury <~
        match required (tc_treasuryAccountId b) with
        | Some t => AccountId_fromString sdk t
        | None => AccountId_fromString sdk (HEDERA_OPERATOR_ID cfg)
        end ;;
      adminKey <~ PrivateKey_fromString sdk (HEDERA_OPERATOR_KEY cfg) ;;
      supplyKey <~ PrivateKey_fromString sdk (HEDERA_OPERATOR_KEY cfg) ;;
      supply <~ BigInt initialSupply ;;
      Ok (inr {| tokenName := name;
                 tokenSymbol := symbol;
                 decimals := Number decimals;
                 initialSupply := supply;
                 treasuryAccountId := treasury;
                 tokenType := FungibleCommon;
                 supplyType := Infinite;
                 adminKey := publicKey sdk adminKey;
                 supplyKey := publicKey sdk supplyKey |})
  | _, _ => Ok (inl (res_status 400 (BError "Missing name or symbol")))
  end.

Definition token_create (cfg : Config) (sdk : Sdk) (b : TokenCreateBody)
  : World -> World * Response :=
  handler
    (if negb (hederaClient cfg sdk) then
       ret (res_status 500 (BError "Hedera client not configured on server"))
     else
       built <- lift (tokenCreate cfg sdk b) ;;
       match built with
       | inl r => ret r
       | inr tx =>
           call (ExecuteTokenCreate tx) ;;;
           txResponse <- lift (execute_tokenCreate sdk tx) ;;
           call (GetReceipt txResponse) ;;;
           receipt <- lift (getReceipt sdk txResponse) ;;
           ret (res_json (BTokenCreated (tokenId receipt) (status receipt)))
       end)
    (fun err => res_status 500 (BErrorDetails "Token creation failed" err)).

(** *** POST /api/token/transfer *)

Record TransferBody : Type := {
  tr_tokenId : option string;
  tr_fromAccountId : option string;
  tr_fromPrivateKey : option string;
  tr_toAccountId : option string;
  tr_amount : JsValue
}.

Definition AccountId_eqb (a b : AccountId) : bool :=
  (shard a =? shard b) && (realm a =? realm b) && (num a =? num b).

Definition TokenId_eqb (a b : TokenId) : bool :=
  match a, b with
  | TokId s r n, TokId s' r' n' => (s =? s') && (r =? r') && (n =? n')
  end.

(** The value of a [Long]: a signed integer of 64 bits, wrapping around. *)
Definition to_int64 (z : Z) : Z := (z + 2 ^ 63) mod 2 ^ 64 - 2 ^ 63.

(** The amount of a leg as the SDK keeps it, given a bigint. *)
Definition Long_fromBigInt (sdk : Sdk) (z : Z) : outcome Z :=
  if bigint_amounts sdk then Ok (to_int64 z)
  else Throw (TypeError "Cannot convert a BigInt value to a number").

(** The loop of [addTokenTransfer]: the leg of that token and account, if
    there is one, takes the value on top of its amount. *)
Fixpoint merge_transfer (token : TokenId) (account : AccountId) (value : Z)
    (l : list TokenTransfer) : option (list TokenTransfer) :=
  match l with
  | [] => None
  | t :: r =>
      if TokenId_eqb (tt_tokenId t) token && AccountId_eqb (tt_accountId t) account
      then Some ({| tt_tokenId := tt_tokenId t; tt_accountId := tt_accountId t;
                    tt_amount := to_int64 (tt_amount t + value) |} :: r)
      else option_map (cons t) (merge_transfer token account value r)
  end.

(** [tx.addTokenTransfer(tokenId, accountId, amount)]: a second transfer of
    a token for an account is added to the first, any other is a new leg. *)
Definition addTokenTransfer (sdk : Sdk) (tx : TransferTransaction)
    (tokenId : string) (account : AccountId) (amount : Z)
  : outcome TransferTransaction :=
  token <~ TokenId_fromString sdk tokenId ;;
  value <~ Long_fromBigInt sdk amount ;;
  Ok {| tokenTransfers :=
          match merge_transfer token account value (tokenTransfers tx) with
          | Some merged => merged
          | None =>
              tokenTransfers tx ++
              [{| tt_tokenId := token; tt_accountId := account; tt_amount := value |}]
          end;
        transactionMemo := transactionMemo tx |}.

Definition setTransactionMemo (memo : string) (tx : TransferTransaction)
  : TransferTransaction :=
  {| tokenTransfers := tokenTransfers tx; transactionMemo := memo |}.

(** Lines 373-376 *)
Definition transferTx (sdk : Sdk) (tokenId fromAccountId toAccountId : string)
    (amount : JsValue) : outcome TransferTransaction :=
  let tx0 := {| tokenTransfers := []; transactionMemo := "" |} in
  from <~ AccountId_fromString sdk fromAccountId ;;
  debit <~ BigInt amount ;;
  tx1 <~ addTokenTransfer sdk tx0 tokenId from (- debit) ;;
  to <~ AccountId_fromString sdk toAccountId ;;
  credit <~ BigInt amount ;;
  tx2 <~ addTokenTransfer sdk tx1 tokenId to credit ;;
  Ok (setTransactionMemo "ArthurDex token transfer" tx2).

Definition token_transfer (cfg : Config) (sdk : Sdk) (now : Z) (b : TransferBody)
  : World -> World * Response :=
  handler
    (if negb (hederaClient cfg sdk) then
       ret (res_status 500 (BError "Hedera client not configured"))
     else
       match required (tr_tokenId b), required (tr_fromAccountId b),
             required (tr_toAccountId b), loosely_null (tr_amount b) with
       | Some tokenId, Some fromAccountId, Some toAccountId, false =>
           let amount := tr_amount b in
           transferTx <- lift (transferTx sdk tokenId fromAccountId toAccountId amount) ;;
           match required (tr_fromPrivateKey b) with
           | Some fromPrivateKey =>
               senderKey <- lift (PrivateKey_fromString sdk fromPrivateKey) ;;
               call (FreezeWith transferTx) ;;;
               lift (freezeWith_sign sdk transferTx senderKey) ;;;
               call (ExecuteTransfer transferTx senderKey) ;;;
               resp <- lift (execute_transfer sdk transferTx senderKey) ;;
               call (GetReceipt resp) ;;;
               receipt <- lift (getReceipt sdk resp) ;;
               let txDoc := {| tx_accountId := Some fromAccountId;
                               tx_type := Some "TRANSFER";
                               tx_tokenId := Some tokenId;
                               tx_amount := amount;
                               tx_status := Some (status receipt);
                               tx_transactionId := Some (transactionId resp);
                               tx_metadata := VUndefined;
                               tx_createdAt := None |} in
               (if nonempty (MONGO_URI cfg)
                then Mongoose.Transaction_create now txDoc ;;; ret tt
                else modify (set_memory (txs_unshift txDoc))) ;;;
               ret (res_json (BTransfer (transactionId resp) (status receipt)))
           | None =>
               ret (res_status 400 (BError
                 "fromPrivateKey required for server-side transfer. Use client-side signing for non-custodial flows."))
           end
       | _, _, _, _ => ret (res_status 400 (BError "Missing fields"))
       end)
    (fun err => res_status 500 (BErrorDetails "Transfer failed" err)).

(** *** CoinGecko *)

(** One value of the object CoinGecko answers with. *)
Inductive CoinJson : Type :=
| DNull
| DObject (usd usd_24h_change : JsValue).

(** What [fetch(url)] resolves to, or what it throws. *)
Inductive FetchReply : Type :=
| FetchThrows (e : Exn)
| FetchResponse (ok : bool) (status : Z) (text : outcome string)
    (json : outcome (list (string * CoinJson))).

(** The object [fetchCoinGecko] returns. *)
Inductive FetchResult : Type :=
| FetchOk (data : list Price)
| FetchNotOk (status : Z) (message : string)
| FetchError (error : Exn).

(** [v || 0] *)
Definition or_zero (v : JsValue) : JsValue :=
  if truthy v then v else VNumber (of_int 0).

(** The arrow function of line 474; reading [d.usd] of [null] throws. *)
Definition transform (now : Z) (entry : string * CoinJson) : outcome Price :=
  match snd entry with
  | DNull => Throw (TypeError "Cannot read properties of null")
  | DObject u c =>
      Ok {| coinId := fst entry; usd := u; change_24h := or_zero c; updatedAt := now |}
  end.

Fixpoint map_outcome {A B : Type} (f : A -> outcome B) (l : list A) : outcome (list B) :=
  match l with
  | [] => Ok []
  | a :: r =>
      b <~ f a ;;
      bs <~ map_outcome f r ;;
      Ok (b :: bs)
  end.

Definition fetchCoinGecko (reply : FetchReply) (now : Z) : FetchResult :=
  let attempt : outcome FetchResult :=
    match reply with
    | FetchThrows e => Throw e
    | FetchResponse ok status text json =>
        if negb ok then
          message <~ text ;;
          Ok (FetchNotOk status message)
        else
          j <~ json ;;
          out <~ map_outcome (transform now) j ;;
          Ok (FetchOk out)
    end in
  match attempt with
  | Ok r => r
  | Throw err => FetchError err
  end.

(** *** GET /api/prices *)

Definition get_prices (cfg : Config) (reply : FetchReply) (now : Z)
  : World -> World * Response :=
  handler
    (if nonempty (MONGO_URI cfg) then
       docs <- Mongoose.Price_find ;;
       ret (res_json (BPrices docs))
     else
       match fetchCoinGecko reply now with
       | FetchOk data => ret (res_json (BPrices data))
       | _ => ret (res_status 502 (BError "Coingecko fetch failed"))
       end)
    (fun _ => res_status 500 (BError "Server error")).

(** *** priceUpdaterOnce *)

Fixpoint for_of {A : Type} (l : list A) (f : A -> M unit) : M unit :=
  match l with
  | [] => ret tt
  | a :: r => f a ;;; for_of r f
  end.

Definition with_updatedAt (now : Z) (p : Price) : Price :=
  {| coinId := coinId p; usd := usd p; change_24h := change_24h p; updatedAt := now |}.

Definition priceUpdaterOnce (cfg : Config) (reply : FetchReply) (now : Z) : M unit :=
  try_catch
    (match fetchCoinGecko reply now with
     | FetchOk data =>
         if nonempty (MONGO_URI cfg) then
           for_of data (fun p => Mongoose.Price_findOneAndUpdate (with_updatedAt now p))
         else
           modify (set_memory (prices_assign data))
     | _ => ret tt
     end)
    (fun _ => ret tt).

(** *** The server as a transition system *)

(** A request, or a tick of the price timer, with what the outside world
    answers while it is served. *)
Inductive Event : Type :=
| PostRegister (now : Z) (b : RegisterBody)
| GetTransactions (authorization : option string) (accountId : string)
    (limit : option string)
| PostTransaction (authorization : option string) (now : Z) (b : TxBody)
| PostTokenCreate (authorization : option string) (b : TokenCreateBody)
| PostTokenTransfer (authorization : option string) (now : Z) (b : TransferBody)
| GetPrices (reply : FetchReply) (now : Z)
| PriceTimer (reply : FetchReply) (now : Z).

Definition step (cfg : Config) (sdk : Sdk) (cr : Crypto) (ev : Event) (w : World)
  : World * option Response :=
  let served (x : World * Response) := (fst x, Some (snd x)) in
  match ev with
  | PostRegister now b => served (register cfg cr now b w)
  | GetTransactions a accountId limit =>
      served (protected cr a (list_transactions cfg accountId limit) w)
  | PostTransaction a now b => served (protected cr a (post_transaction cfg now b) w)
  | PostTokenCreate a b => served (protected cr a (token_create cfg sdk b) w)
  | PostTokenTransfer a now b => served (protected cr a (token_transfer cfg sdk now b) w)
  | GetPrices reply now => served (get_prices cfg reply now w)
  | PriceTimer reply now => (fst (priceUpdaterOnce cfg reply now w), None)
  end.

Fixpoint run (cfg : Config) (sdk : Sdk) (cr : Crypto) (evs : list Event) (w : World)
  : World :=
  match evs with
  | [] => w
  | ev :: r => run cfg sdk cr r (fst (step cfg sdk cr ev w))
  end.

(** ** Properties stated over the model *)




(** The Prices collection after the updates of lines 487-489, [f] being
    what the loop does to a fetched snapshot before it stores it. *)
Definition upsert_all (f : Price -> Price) (data l : list Price) : list Price :=
  fold_left (fun acc p => Mongoose.upsert (f p) acc) data l.



(** The user name is taken in the backend in use. *)
Definition user_exists (cfg : Config) (name : string) (w : World) : bool :=
  if nonempty (MONGO_URI cfg)
  then existsb (fun u => String.eqb (username u) name) (Users (mongo w))
  else users_has name (memoryStore w).

(** The refresh got no snapshot set out of the oracle. *)
Definition failed (r : FetchResult) : bool :=
  match r with
  | FetchOk _ => false
  | _ => true
  end.

(** The property names of the object the oracle answered with are distinct,
    as they are in any JavaScript object. *)
Definition keys_distinct (reply : FetchReply) : Prop :=
  match reply with
  | FetchResponse _ _ _ (Ok j) => NoDup (map fst j)
  | _ => True
  end.

(** The kind of an error response: its status code and its [error] text. *)
Definition error_kind (r : Response) : option (Z * string) :=
  match body r with
  | BError e => Some (code r, e)
  | BErrorDetails e _ => Some (code r, e)
  | _ => None
  end.

(** The record the transfer handler writes (line 384). *)
Definition txDoc (b : TransferBody) (from tokenId status transactionId : string) : Tx :=
  {| tx_accountId := Some from; tx_type := Some "TRANSFER"; tx_tokenId := Some tokenId;
     tx_amount := tr_amount b; tx_status := Some status;
     tx_transactionId := Some transactionId; tx_metadata := VUndefined;
     tx_createdAt := None |}.

(** Newest first by [createdAt]. *)
Definition newer_or_same (a b : Tx) : Prop :=
  Mongoose.createdAt_leb (tx_createdAt b) (tx_createdAt a) = true.

(** ** Fixtures: configurations, stubs and worlds used in the examples *)

Module Fixtures.

Definition cfg_memory : Config :=
  {| JWT_SECRET := "change_me"; MONGO_URI := "";
     HEDERA_OPERATOR_ID := "0.0.2"; HEDERA_OPERATOR_KEY := "302e";
     COINGECKO_IDS := "hedera-hashgraph" |}.

Definition cfg_durable : Config :=
  {| JWT_SECRET := "change_me"; MONGO_URI := "mongodb://db/arthurdex";
     HEDERA_OPERATOR_ID := "0.0.2"; HEDERA_OPERATOR_KEY := "302e";
     COINGECKO_IDS := "hedera-hashgraph" |}.

(** No operator in the environment: [hederaClient] stays [null]. *)
Definition cfg_no_operator : Config :=
  {| JWT_SECRET := "change_me"; MONGO_URI := "";
     HEDERA_OPERATOR_ID := ""; HEDERA_OPERATOR_KEY := "";
     COINGECKO_IDS := "hedera-hashgraph" |}.

(** "shard.realm.num" *)
Definition parse_entity (s : string) : option (Z * Z * Z) :=
  match map (digits 10) (split_on "." (list_ascii_of_string s) []) with
  | [Some a; Some b; Some c] => Some (a, b, c)
  | _ => None
  end.

Definition stub_account (s : string) : outcome AccountId :=
  match parse_entity s with
  | Some (a, b, c) => Ok {| shard := a; realm := b; num := c |}
  | None => Throw (SdkError "invalid account id")
  end.

Definition stub_token (s : string) : outcome TokenId :=
  match parse_entity s with
  | Some (a, b, c) => Ok (TokId a b c)
  | None => Throw (SdkError "invalid token id")
  end.

Definition stub_key (s : string) : outcome PrivateKey :=
  if nonempty s then Ok (PrivKey s) else Throw (SdkError "invalid private key").

Definition stub_public (k : PrivateKey) : PublicKey :=
  match k with PrivKey s => PubKey ("pub:" ++ s) end.

(** A ledger that accepts everything. *)
Definition sdk_success : Sdk :=
  {| AccountId_fromString := stub_account;
     TokenId_fromString := stub_token;
     PrivateKey_fromString := stub_key;
     publicKey := stub_public;
     bigint_amounts := true;
     freezeWith_sign := fun _ _ => Ok tt;
     execute_transfer := fun _ _ => Ok {| transactionId := "0.0.1@123" |};
     execute_tokenCreate := fun _ => Ok {| transactionId := "0.0.2@456" |};
     getReceipt := fun _ => Ok {| status := "SUCCESS"; tokenId := Some "0.0.100" |} |}.

(** The submission goes through, the wait for the receipt times out. *)
Definition sdk_receipt_timeout : Sdk :=
  {| AccountId_fromString := stub_account;
     TokenId_fromString := stub_token;
     PrivateKey_fromString := stub_key;
     publicKey := stub_public;
     bigint_amounts := true;
     freezeWith_sign := fun _ _ => Ok tt;
     execute_transfer := fun _ _ => Ok {| transactionId := "0.0.1@123" |};
     execute_tokenCreate := fun _ => Ok {| transactionId := "0.0.2@456" |};
     getReceipt := fun _ => Throw (SdkError "timeout") |}.

(** The network refuses the transaction when it is submitted. *)
Definition sdk_rejects : Sdk :=
  {| AccountId_fromString := stub_account;
     TokenId_fromString := stub_token;
     PrivateKey_fromString := stub_key;
     publicKey := stub_public;
     bigint_amounts := true;
     freezeWith_sign := fun _ _ => Ok tt;
     execute_transfer := fun _ _ => Throw (SdkError "INSUFFICIENT_TOKEN_BALANCE");
     execute_tokenCreate := fun _ => Throw (SdkError "INSUFFICIENT_PAYER_BALANCE");
     getReceipt := fun _ => Throw (SdkError "unreachable") |}.

Definition crypto : Crypto :=
  {| bcrypt_hash := fun pw => "$2a$12$" ++ pw;
     jwt_sign := fun name _ => "jwt." ++ name;
     jwt_verify := fun t => if String.eqb t "" then Throw (SdkError "jwt malformed") else Ok t |}.

Definition mongo_up : Mongo :=
  {| readyState := 1; Users := []; Transactions := []; Prices := [] |}.

Definition memory_empty : MemoryStore :=
  {| users := []; txs := []; prices := None |}.

Definition world0 : World :=
  {| mongo := mongo_up; memoryStore := memory_empty; ledgerCalls := [] |}.

(** The transfer of the specification's example scenario. *)
Definition transfer_request : TransferBody :=
  {| tr_tokenId := Some "0.0.100"; tr_fromAccountId := Some "0.0.1";
     tr_fromPrivateKey := Some "key"; tr_toAccountId := Some "0.0.2";
     tr_amount := VNumber (of_int 10) |}.

Definition transfer_request_unsigned : TransferBody :=
  {| tr_tokenId := Some "0.0.100"; tr_fromAccountId := Some "0.0.1";
     tr_fromPrivateKey := None; tr_toAccountId := Some "0.0.2";
     tr_amount := VNumber (of_int 10) |}.

Definition acct (n : Z) : AccountId := {| shard := 0; realm := 0; num := n |}.

Definition alice : RegisterBody :=
  {| reg_username := Some "alice"; reg_password := Some "pw123";
     reg_passphrase := Some "passphraseA" |}.

Definition snapshot (id : string) (cents : Z) (at_ : Z) : Price :=
  {| coinId := id; usd := VNumber (Finite (Qmake cents 100));
     change_24h := VNumber (of_int 0); updatedAt := at_ |}.

Definition oracle_down : FetchReply :=
  FetchResponse false 503 (Ok "Service Unavailable") (Throw (SyntaxError "Unexpected token"))%string.

Definition oracle_up (id : string) (cents : Z) : FetchReply :=
  FetchResponse true 200 (Ok "")
    (Ok [(id, DObject (VNumber (Finite (Qmake cents 100))) VUndefined)]).

Definition tx_of (a : string) (id : string) (at_ : option Z) : Tx :=
  {| tx_accountId := Some a; tx_type := Some "TRANSFER"; tx_tokenId := Some "0.0.100";
     tx_amount := VNumber (of_int 1); tx_status := Some "SUCCESS";
     tx_transactionId := Some id; tx_metadata := VUndefined; tx_createdAt := at_ |}.



(** The memory store after one successful refresh that fetched x at 1.23. *)
Definition world_cached : World :=
  fst (priceUpdaterOnce cfg_memory (oracle_up "x" 123) 1000 world0).

Definition bearer : option string := Some "Bearer token".

(** A client report of a transfer by account 0.0.1. *)
Definition report (id : string) : TxBody :=
  {| txb_accountId := Some "0.0.1"; txb_type := Some "TRANSFER";
     txb_tokenId := Some "0.0.100"; txb_amount := VNumber (of_int 1);
     txb_status := Some "SUCCESS"; txb_transactionId := Some id;
     txb_metadata := VUndefined |}.

(** The memory store after three reports, made at times 1000, 2000, 3000. *)
Definition world_three_reports : World :=
  run cfg_memory sdk_success crypto
    [ PostTransaction bearer 1000 (report "tx1");
      PostTransaction bearer 2000 (report "tx2");
      PostTransaction bearer 3000 (report "tx3") ] world0.

(** The Transactions collection after the same three reports. *)
Definition world_three_reports_durable : World :=
  run cfg_durable sdk_success crypto
    [ PostTransaction bearer 1000 (report "tx1");
      PostTransaction bearer 2000 (report "tx2");
      PostTransaction bearer 3000 (report "tx3") ] world0.

End Fixtures.
Import Fixtures.

(** ** The rest of server.js *)

(** *** Password checks, lookups *)

(** [bcrypt.compare] on two strings. *)
Record Bcrypt : Type := {
  bcrypt_compare : string -> string -> bool
}.

(** [comparePassword]: bcryptjs rejects an argument that is not a string. *)
Definition comparePassword (bc : Bcrypt) (pw : option string) (hash : string)
  : outcome bool :=
  match pw with
  | Some p => Ok (bcrypt_compare bc p hash)
  | None => Throw (SdkError "Illegal arguments: undefined, string")
  end.

(** [memoryStore.users.get(name)] *)
Definition users_get (name : string) (m : MemoryStore) : option User :=
  option_map snd (find (fun kv => String.eqb (fst kv) name) (users m)).

(** [User.findOne({ passphrase }).exec()] *)
Definition User_findOne_passphrase (phrase : string) : M (option User) :=
  Mongoose.connected ;;;
  w <- get ;;
  ret (find (fun u => String.eqb (passphrase u) phrase) (Users (mongo w))).

(** The loop of lines 201-205: the first entry, in insertion order, whose
    user has that passphrase. *)
Definition users_find_passphrase (phrase : string) (m : MemoryStore)
  : option (string * User) :=
  find (fun kv => String.eqb (passphrase (snd kv)) phrase) (users m).

(** A handler whose answer is of any type. *)
Definition handler_of {R : Type} (c : M R) (on_error : Exn -> R)
  : World -> World * R :=
  fun w =>
    match c w with
    | (w', Ok r) => (w', r)
    | (w', Throw e) => (w', on_error e)
    end.

(** *** POST /api/auth/login *)

(** The handler does not check its fields: the user name is a string here,
    the password a string or absent. *)
Record LoginBody : Type := {
  lg_username : string;
  lg_password : option string
}.

Definition login (cfg : Config) (cr : Crypto) (bc : Bcrypt) (now : Z) (b : LoginBody)
  : World -> World * Response :=
  handler
    (let username := lg_username b in
     let password := lg_password b in
     if nonempty (MONGO_URI cfg) then
       u <- Mongoose.User_findOne username ;;
       match u with
       | None => ret (res_status 400 (BError "Invalid credentials"))
       | Some u =>
           ok <- lift (comparePassword bc password (passwordHash u)) ;;
           if negb ok then ret (res_status 400 (BError "Invalid credentials"))
           else ret (res_json (BToken (genToken cr now username)))
       end
     else
       w <- get ;;
       match users_get username (memoryStore w) with
       | None => ret (res_status 400 (BError "Invalid credentials"))
       | Some u =>
           ok <- lift (comparePassword bc password (passwordHash u)) ;;
           if negb ok then ret (res_status 400 (BError "Invalid credentials"))
           else ret (res_json (BToken (genToken cr now username)))
       end)
    (fun _ => res_status 500 (BError "Server error")).

(** *** POST /api/auth/recover *)

Record RecoverBody : Type := {
  rc_passphrase : option string
}.

Definition recover (cfg : Config) (cr : Crypto) (now : Z) (b : RecoverBody)
  : World -> World * Response :=
  handler
    (match required (rc_passphrase b) with
     | None => ret (res_status 400 (BError "Missing passphrase"))
     | Some phrase =>
         if nonempty (MONGO_URI cfg) then
           u <- User_findOne_passphrase phrase ;;
           match u with
           | None => ret (res_status 400 (BError "Invalid passphrase"))
           | Some u => ret (res_json (BToken (genToken cr now (username u))))
           end
         else
           w <- get ;;
           match users_find_passphrase phrase (memoryStore w) with
           | Some (k, _) => ret (res_json (BToken (genToken cr now k)))
           | None => ret (res_status 400 (BError "Invalid passphrase"))
           end
     end)
    (fun _ => res_status 500 (BError "Server error")).

(** *** POST /api/auth/verify-password, GET /api/health *)

(** Bodies the handlers above do not answer with. *)
Inductive BodyMore : Type :=
| MBody (b : Body)
| MSuccess (success : bool)
| MHealth (status service hedera db : string) (timestamp : Z).

Record ResponseMore : Type := { m_code : Z; m_body : BodyMore }.

Definition more (r : Response) : ResponseMore :=
  {| m_code := code r; m_body := MBody (body r) |}.

(** [user] is [req.user.username], what [jwt.verify] found in the token. *)
Definition verify_password (cfg : Config) (bc : Bcrypt) (user : string)
    (password : option string) : World -> World * ResponseMore :=
  handler_of
    (match required (Some user) with
     | None => ret (more (res_status 400 (BError "No user")))
     | Some username =>
         if nonempty (MONGO_URI cfg) then
           u <- Mongoose.User_findOne username ;;
           match u with
           | None => ret (more (res_status 400 (BError "User not found")))
           | Some u =>
               ok <- lift (comparePassword bc password (passwordHash u)) ;;
               ret {| m_code := 200; m_body := MSuccess ok |}
           end
         else
           w <- get ;;
           match users_get username (memoryStore w) with
           | None => ret (more (res_status 400 (BError "User not found")))
           | Some u =>
               ok <- lift (comparePassword bc password (passwordHash u)) ;;
               ret {| m_code := 200; m_body := MSuccess ok |}
           end
     end)
    (fun _ => more (res_status 500 (BError "Server error"))).

(** The route: [authMiddleware], then the handler for the verified user. *)
Definition post_verify_password (cfg : Config) (cr : Crypto) (bc : Bcrypt)
    (authorization : option string) (password : option string)
  : World -> World * ResponseMore :=
  fun w =>
    match authMiddleware cr authorization with
    | inl r => (w, more r)
    | inr user => verify_password cfg bc user password w
    end.

Definition health (cfg : Config) (sdk : Sdk) (now : Z) (w : World) : ResponseMore :=
  {| m_code := 200;
     m_body :=
       MHealth "ok" "ArthurDex Backend (HTS + Mongo + Price Cache)"
         (if hederaClient cfg sdk then "enabled" else "disabled")
         (if readyState (mongo w) =? 1 then "connected" else "disconnected")
         now |}.

(** *** POST /api/token/associate, POST /api/token/mint *)

Record TokenAssociateTransaction : Type := {
  assoc_accountId : AccountId;
  assoc_tokenIds : list TokenId
}.

Record TokenMintTransaction : Type := {
  mint_tokenId : TokenId;
  mint_amount : Z
}.

(** What the ledger answers to these two transactions. *)
Record SdkHts : Type := {
  freezeWith_sign_associate : TokenAssociateTransaction -> PrivateKey -> outcome unit;
  execute_tokenAssociate : TokenAssociateTransaction -> PrivateKey ->
                           outcome TransactionResponse;
  execute_tokenMint : TokenMintTransaction -> outcome TransactionResponse
}.

(** Calls these two handlers make through [hederaClient]. *)
Inductive HtsCall : Type :=
| FreezeAssociate (tx : TokenAssociateTransaction)
| ExecuteTokenAssociate (tx : TokenAssociateTransaction) (signer : PrivateKey)
| ExecuteTokenMint (tx : TokenMintTransaction)
| ReceiptOf (resp : TransactionResponse).

(** These handlers use no store: a computation is the calls it made, in
    order, and its result or what it threw. *)
Definition T (A : Type) : Type := list HtsCall * outcome A.

Definition tret {A : Type} (a : A) : T A := ([], Ok a).

Definition tlift {A : Type} (o : outcome A) : T A := ([], o).

Definition tcall (c : HtsCall) : T unit := ([c], Ok tt).

Definition tbind {A B : Type} (c : T A) (k : A -> T B) : T B :=
  match c with
  | (t, Ok a) => let (t', r) := k a in ((t ++ t')%list, r)
  | (t, Throw e) => (t, Throw e)
  end.

Notation "x <-- c ;; k" := (tbind c (fun x => k))
  (at level 61, c at next level, right associativity) : m_scope.

Definition handler_t (c : T Response) (on_error : Exn -> Response)
  : list HtsCall * Response :=
  match c with
  | (t, Ok r) => (t, r)
  | (t, Throw e) => (t, on_error e)
  end.

Record AssociateBody : Type := {
  as_accountId : option string;
  as_accountPrivateKey : option string;
  as_tokenId : option string
}.

Definition token_associate (cfg : Config) (sdk : Sdk) (hts : SdkHts) (b : AssociateBody)
  : list HtsCall * Response :=
  handler_t
    (if negb (hederaClient cfg sdk) then
       tret (res_status 500 (BError "Hedera client not configured"))
     else
       match required (as_accountId b), required (as_accountPrivateKey b),
             required (as_tokenId b) with
       | Some accountId, Some accountPrivateKey, Some tokenId =>
           acctKey <-- tlift (PrivateKey_fromString sdk accountPrivateKey) ;;
           acctId <-- tlift (AccountId_fromString sdk accountId) ;;
           token <-- tlift (TokenId_fromString sdk tokenId) ;;
           let tx := {| assoc_accountId := acctId; assoc_tokenIds := [token] |} in
           _ <-- tcall (FreezeAssociate tx) ;;
           _ <-- tlift (freezeWith_sign_associate hts tx acctKey) ;;
           _ <-- tcall (ExecuteTokenAssociate tx acctKey) ;;
           resp <-- tlift (execute_tokenAssociate hts tx acctKey) ;;
           _ <-- tcall (ReceiptOf resp) ;;
           receipt <-- tlift (getReceipt sdk resp) ;;
           tret (res_json (BTokenCreated (Some tokenId) (status receipt)))
       | _, _, _ => tret (res_status 400 (BError "Missing fields"))
       end)
    (fun err => res_status 500 (BErrorDetails "Association failed" err)).

Record MintBody : Type := {
  mt_tokenId : option string;
  mt_amount : JsValue
}.

Definition token_mint (cfg : Config) (sdk : Sdk) (hts : SdkHts) (b : MintBody)
  : list HtsCall * Response :=
  handler_t
    (if negb (hederaClient cfg sdk) then
       tret (res_status 500 (BError "Hedera client not configured"))
     else
       match required (mt_tokenId b), loosely_null (mt_amount b) with
       | Some tokenId, false =>
           token <-- tlift (TokenId_fromString sdk tokenId) ;;
           amount <-- tlift (BigInt (mt_amount b)) ;;
           let tx := {| mint_tokenId := token; mint_amount := amount |} in
           _ <-- tcall (ExecuteTokenMint tx) ;;
           response <-- tlift (execute_tokenMint hts tx) ;;
           _ <-- tcall (ReceiptOf response) ;;
           receipt <-- tlift (getReceipt sdk response) ;;
           tret (res_json (BTokenCreated (Some tokenId) (status receipt)))
       | _, _ => tret (res_status 400 (BError "Missing tokenId or amount"))
       end)
    (fun err => res_status 500 (BErrorDetails "Mint failed" err)).

(** *** Start-up *)

(** [mongoConnect]; [connect] is what [mongoose.connect] does. *)
Definition mongoConnect (cfg : Config) (connect : outcome unit) : M unit :=
  if negb (nonempty (MONGO_URI cfg)) then ret tt
  else
    lift connect ;;;
    modify (set_mongo (fun m =>
      {| readyState := 1; Users := Users m;
         Transactions := Transactions m; Prices := Prices m |})).

(** [PORT] (line 30); [env] is [process.env.PORT]. *)
Definition PORT (env : option string) : JsNumber :=
  match required env with
  | Some s => Number (VString s)
  | None => Number (VNumber (of_int 8080))
  end.

(** The ports [listen] takes: the integers from 0 to 65535. *)
Definition valid_port (p : JsNumber) : bool :=
  match p with
  | Finite q => integral q && (0 <=? integer_part q) && (integer_part q <=? 65535)
  | _ => false
  end.

(** [app.listen(PORT, ...)] throws on a port it does not take.  [bound] is
    what binding the port gives: when that fails (the port is in use), the
    error comes after [listen] has returned, outside the [try] of
    [startServer], and the process stays up without a listening server. *)
Definition listen (port : JsNumber) (bound : outcome unit) : outcome bool :=
  if valid_port port then
    Ok (match bound with Ok _ => true | Throw _ => false end)
  else Throw (RangeError "ERR_SOCKET_BAD_PORT").

(** The process after [startServer]: gone with exit code 1, or up with the
    price timer of line 510 scheduled, listening or not. *)
Record Process : Type := {
  exited : bool;
  interval : bool;
  listening : bool
}.

(** [startServer] *)
Definition startServer (cfg : Config) (port : option string) (connect : outcome unit)
    (reply : FetchReply) (bound : outcome unit) (now : Z) : World -> World * Process :=
  handler_of
    (mongoConnect cfg connect ;;;
     priceUpdaterOnce cfg reply now ;;;
     listens <- lift (listen (PORT port) bound) ;;
     ret {| exited := false; interval := true; listening := listens |})
    (fun _ => {| exited := true; interval := false; listening := false |}).

(** ** What the further properties speak of *)

(** No two users of the backend in use share a name; in the memory store
    every entry is filed under its user's name. *)
Definition usernames_unique (w : World) : Prop :=
  NoDup (map username (Users (mongo w))) /\
  NoDup (map fst (users (memoryStore w))) /\
  Forall (fun kv => fst kv = username (snd kv)) (users (memoryStore w)).

(** The user records of the backend in use. *)
Definition stored_users (cfg : Config) (w : World) : list User :=
  if nonempty (MONGO_URI cfg) then Users (mongo w)
  else map snd (users (memoryStore w)).

(** The calls a transfer makes, in the order it makes them. *)
Definition transfer_calls (tx : TransferTransaction) (k : PrivateKey)
    (resp : TransactionResponse) : list LedgerCall :=
  [FreezeWith tx; ExecuteTransfer tx k; GetReceipt resp].

(** The world with further ledger calls in its log. *)
Definition logged (cs : list LedgerCall) (w : World) : World :=
  {| mongo := mongo w; memoryStore := memoryStore w;
     ledgerCalls := ledgerCalls w ++ cs |}.

(** The record the report handler builds (lines 256-257). *)
Definition reported (now : Z) (b : TxBody) : Tx :=
  {| tx_accountId := txb_accountId b; tx_type := txb_type b;
     tx_tokenId := txb_tokenId b; tx_amount := txb_amount b;
     tx_status := match txb_status b with Some s => Some s | None => Some "PENDING" end;
     tx_transactionId := txb_transactionId b;
     tx_metadata := txb_metadata b; tx_createdAt := Some now |}.

(** A record with another amount. *)
Definition with_amount (amount : JsValue) (t : Tx) : Tx :=
  {| tx_accountId := tx_accountId t; tx_type := tx_type t; tx_tokenId := tx_tokenId t;
     tx_amount := amount; tx_status := tx_status t;
     tx_transactionId := tx_transactionId t; tx_metadata := tx_metadata t;
     tx_createdAt := tx_createdAt t |}.

(** The answer of the catch branch of the transfer handler. *)
Definition transfer_failed (e : Exn) : Response :=
  res_status 500 (BErrorDetails "Transfer failed" e).

(** Every stored record of the account is older than [now]. *)
Definition all_older (a : string) (now : Z) (l : list Tx) : Prop :=
  Forall (fun t => Mongoose.accountId_is a t = true ->
                   Mongoose.createdAt_leb (Some now) (tx_createdAt t) = false) l.

(** [l1] is the beginning of [l2]. *)
Definition is_prefix {A : Type} (l1 l2 : list A) : Prop :=
  exists rest, l2 = (l1 ++ rest)%list.

(** No character of the string is a space. *)
Definition spaceless (s : string) : Prop :=
  ~ In " "%char (list_ascii_of_string s).

(** The fetched object has no [null] value. *)
Definition no_null_entry (j : list (string * CoinJson)) : Prop :=
  Forall (fun e => snd e <> DNull) j.

(** The snapshot line 474 makes of one entry. *)
Definition snapshot_of (now : Z) (e : string * CoinJson) : Price :=
  match snd e with
  | DObject u c => {| coinId := fst e; usd := u; change_24h := or_zero c; updatedAt := now |}
  | DNull => {| coinId := fst e; usd := VUndefined; change_24h := VUndefined; updatedAt := now |}
  end.

(** The user of that name in the backend in use. *)
Definition lookup_user (cfg : Config) (name : string) (w : World) : option User :=
  if nonempty (MONGO_URI cfg)
  then find (fun u => String.eqb (username u) name) (Users (mongo w))
  else users_get name (memoryStore w).

(** The user record a registration stores. *)
Definition registered (cfg : Config) (cr : Crypto) (now : Z)
    (name password phrase : string) : User :=
  {| username := name; passwordHash := hashPassword cr password;
     passphrase := phrase; accounts := [];
     user_createdAt := if nonempty (MONGO_URI cfg) then Some now else None |}.

(** The name recovery resolves a passphrase to: that of the first user, in
    the order of registration, who holds it. *)
Definition first_holder (cfg : Config) (phrase : string) (w : World) : option string :=
  if nonempty (MONGO_URI cfg)
  then option_map username
         (find (fun u => String.eqb (passphrase u) phrase) (Users (mongo w)))
  else option_map fst (users_find_passphrase phrase (memoryStore w)).

Definition invalid_credentials : Response :=
  res_status 400 (BError "Invalid credentials").

(** The events that may write each store. *)
Definition writes_users (ev : Event) : bool :=
  match ev with PostRegister _ _ => true | _ => false end.

Definition writes_txs (ev : Event) : bool :=
  match ev with
  | PostTransaction _ _ _ | PostTokenTransfer _ _ _ => true
  | _ => false
  end.

Definition writes_prices (ev : Event) : bool :=
  match ev with PriceTimer _ _ => true | _ => false end.

(** *** Further stubs *)

Module Stubs.

(** The counterpart of [Fixtures.crypto]'s hash. *)
Definition bcrypt : Bcrypt :=
  {| bcrypt_compare := fun pw hash => String.eqb hash ("$2a$12$" ++ pw) |}.

(** Tokens are "jwt." followed by the user name, and verify reads it back. *)
Definition crypto_jwt : Crypto :=
  {| bcrypt_hash := fun pw => "$2a$12$" ++ pw;
     jwt_sign := fun name _ => "jwt." ++ name;
     jwt_verify := fun t =>
       if String.prefix "jwt." t
       then Ok (String.substring 4 (String.length t - 4) t)
       else Throw (SdkError "jwt malformed") |}.

Definition hts_success : SdkHts :=
  {| freezeWith_sign_associate := fun _ _ => Ok tt;
     execute_tokenAssociate := fun _ _ => Ok {| transactionId := "0.0.7@1" |};
     execute_tokenMint := fun _ => Ok {| transactionId := "0.0.2@2" |} |}.

Definition bob : RegisterBody :=
  {| reg_username := Some "bob"; reg_password := Some "hunter2";
     reg_passphrase := Some "passphraseA" |}.

Definition mongo_down : Mongo :=
  {| readyState := 0; Users := []; Transactions := []; Prices := [] |}.

Definition world_down : World :=
  {| mongo := mongo_down; memoryStore := memory_empty; ledgerCalls := [] |}.

End Stubs.
Import Stubs.


(** ** Checks of the conversions *)

Example number_of_minus_one : Number (VString "-1") = Finite (inject_Z (-1)).
Proof. reflexivity. Qed.

Example number_of_fraction : Number (VString " 2.5e1 ") = Finite (inject_Z 25).
Proof. reflexivity. Qed.

Example number_of_half : Number (VString ".5") = Finite (Qmake 1 2).
Proof. reflexivity. Qed.

Example number_of_text : Number (VString "abc") = NaN.
Proof. reflexivity. Qed.

Example number_rounds_up_to_one : Number (VString "0.99999999999999999") = of_int 1.
Proof. reflexivity. Qed.

Example number_of_tenth :
  Number (VString "0.1") = Finite (Qmake 3602879701896397 36028797018963968).
Proof. reflexivity. Qed.

Example number_ties_to_even :
  Number (VString "9007199254740993") = of_int 9007199254740992.
Proof. reflexivity. Qed.

Example number_overflows : Number (VString "1e400") = Infinity false.
Proof. vm_compute. reflexivity. Qed.

Example number_underflows : Number (VString "2e-324") = of_int 0.
Proof. vm_compute. reflexivity. Qed.

Example cast_number_of_text :
  Mongoose.cast_number (VString "abc") = Throw (DbError "Cast to Number failed") /\
  Mongoose.cast_number (VString "10") = Ok (VNumber (of_int 10)) /\
  Mongoose.cast_number (VString "") = Ok VNull.
Proof. repeat split. Qed.

Example bigint_of_hex : BigInt (VString "0x1f") = Ok 31.
Proof. reflexivity. Qed.

Example bigint_of_fraction :
  BigInt (VNumber (Finite (Qmake 3 2))) = Throw (RangeError "not an integer").
Proof. reflexivity. Qed.

Example slice_negative : slice0 [1; 2; 3] (of_int (-1)) = [1; 2].
Proof. reflexivity. Qed.

Example split_bearer : split_space_second "Bearer abc" = Some "abc".
Proof. reflexivity. Qed.

(** ** Checks of the handlers *)

Example scenario_transfer_success :
  token_transfer cfg_memory sdk_success 1000 transfer_request world0
  = ({| mongo := mongo_up;
        memoryStore :=
          {| users := [];
             txs := [ {| tx_accountId := Some "0.0.1"; tx_type := Some "TRANSFER";
                         tx_tokenId := Some "0.0.100"; tx_amount := VNumber (of_int 10);
                         tx_status := Some "SUCCESS";
                         tx_transactionId := Some "0.0.1@123";
                         tx_metadata := VUndefined; tx_createdAt := None |} ];
             prices := None |};
        ledgerCalls :=
          let tx := {| tokenTransfers :=
                         [ {| tt_tokenId := TokId 0 0 100; tt_accountId := acct 1; tt_amount := -10 |};
                           {| tt_tokenId := TokId 0 0 100; tt_accountId := acct 2; tt_amount := 10 |} ];
                       transactionMemo := "ArthurDex token transfer" |} in
          [ FreezeWith tx; ExecuteTransfer tx (PrivKey "key");
            GetReceipt {| transactionId := "0.0.1@123" |} ] |},
     res_json (BTransfer "0.0.1@123" "SUCCESS")).
Proof. reflexivity. Qed.

(** A transfer of the amount "10", sent as a string: the memory store keeps
    the string, the Transactions collection the number 10. *)
Example scenario_transfer_amount_cast :
  let b := {| tr_tokenId := Some "0.0.100"; tr_fromAccountId := Some "0.0.1";
              tr_fromPrivateKey := Some "key"; tr_toAccountId := Some "0.0.2";
              tr_amount := VString "10" |} in
  map tx_amount (txs (memoryStore (fst (token_transfer cfg_memory sdk_success 1000 b world0))))
    = [VString "10"] /\
  map tx_amount (Transactions (mongo (fst (token_transfer cfg_durable sdk_success 1000 b world0))))
    = [VNumber (of_int 10)].
Proof. split; reflexivity. Qed.

(** ** Proof support *)

Ltac unfold_m :=
  unfold handler, protected, call, Mongoose.connected in *;
  unfold bind, ret, lift, throw, get, modify, try_catch in *;
  cbn beta iota in *.

(** Case analysis on a scrutinee of the goal that contains no other. *)
Ltac innermost scrutinee tac :=
  lazymatch scrutinee with
  | context [match ?inner with _ => _ end] => innermost inner tac
  | _ => tac scrutinee
  end.

Ltac break_match :=
  match goal with
  | |- context [match ?scrutinee with _ => _ end] =>
      innermost scrutinee ltac:(fun x => destruct x eqn:?)
  end.

Ltac destruct_outcome H :=
  match type of H with
  | context [obind ?o _] =>
      let E := fresh "E" in
      destruct o eqn:E; cbn [obind] in H; try discriminate H
  end.

Lemma hederaClient_parses (cfg : Config) (sdk : Sdk) :
  hederaClient cfg sdk = true ->
  exists op key,
    AccountId_fromString sdk (HEDERA_OPERATOR_ID cfg) = Ok op /\
    PrivateKey_fromString sdk (HEDERA_OPERATOR_KEY cfg) = Ok key.
Proof.
  unfold hederaClient.
  destruct (nonempty _ && nonempty _); [|discriminate].
  destruct (AccountId_fromString sdk _) as [op|]; [|discriminate].
  destruct (PrivateKey_fromString sdk _) as [key|]; [|discriminate].
  intros _. exists op, key. split; reflexivity.
Qed.

(** ** The legs of a transfer (C4) *)


Lemma to_int64_multiple (k : Z) : to_int64 (2 ^ 64 * k) = 0.
Proof.
  unfold to_int64.
  replace (2 ^ 64 * k + 2 ^ 63) with (2 ^ 63 + k * 2 ^ 64) by lia.
  rewrite Z.mod_add by lia. reflexivity.
Qed.

(** A debit and a credit of one amount cancel in 64 bits, whatever the
    amount. *)
Lemma to_int64_cancel (a : Z) : to_int64 (to_int64 (- a) + to_int64 a) = 0.
Proof.
  unfold to_int64 at 2 3.
  rewrite (Z.mod_eq (- a + 2 ^ 63) (2 ^ 64)), (Z.mod_eq (a + 2 ^ 63) (2 ^ 64)) by lia.
  replace (- a + 2 ^ 63 - 2 ^ 64 * ((- a + 2 ^ 63) / 2 ^ 64) - 2 ^ 63 +
           (a + 2 ^ 63 - 2 ^ 64 * ((a + 2 ^ 63) / 2 ^ 64) - 2 ^ 63))
    with (2 ^ 64 * (- ((- a + 2 ^ 63) / 2 ^ 64) - (a + 2 ^ 63) / 2 ^ 64)) by lia.
  apply to_int64_multiple.
Qed.


Lemma TokenId_eqb_refl (t : TokenId) : TokenId_eqb t t = true.
Proof. destruct t; cbn. rewrite !Z.eqb_refl. reflexivity. Qed.

(** The legs of the transfer that lines 373-376 build. *)
Lemma transferTx_legs
    (sdk : Sdk) (tokenId fromAccountId toAccountId : string) (amount : JsValue)
    (tx : TransferTransaction) :
  transferTx sdk tokenId fromAccountId toAccountId amount = Ok tx ->
  exists token from to a,
    TokenId_fromString sdk tokenId = Ok token /\
    AccountId_fromString sdk fromAccountId = Ok from /\
    AccountId_fromString sdk toAccountId = Ok to /\
    BigInt amount = Ok a /\
    tokenTransfers tx =
      if AccountId_eqb from to then
        [ {| tt_tokenId := token; tt_accountId := from; tt_amount := 0 |} ]
      else
        [ {| tt_tokenId := token; tt_accountId := from; tt_amount := to_int64 (- a) |};
          {| tt_tokenId := token; tt_accountId := to; tt_amount := to_int64 a |} ].
Proof.
  unfold transferTx, addTokenTransfer, Long_fromBigInt. intros H.
  destruct_outcome H. destruct_outcome H.
  destruct (TokenId_fromString sdk tokenId) as [token|] eqn:Etok; cbn [obind] in H;
    [|discriminate].
  destruct (bigint_amounts sdk); cbn [obind] in H; [|discriminate].
  destruct_outcome H.
  injection H as <-.
  exists token, a, a1, a0. repeat split; try assumption.
  cbn. rewrite TokenId_eqb_refl. cbn.
  destruct (AccountId_eqb a a1); cbn; [|reflexivity].
  rewrite to_int64_cancel. reflexivity.
Qed.





(** ** Defaults of token creation (C10) *)






(** ** Registration refuses a taken user name (C8) *)

Lemma find_existsb_username (name : string) (l : list User) :
  existsb (fun u => String.eqb (username u) name) l = true ->
  exists u, find (fun u => String.eqb (username u) name) l = Some u.
Proof.
  induction l as [|h r IH]; cbn; [discriminate|].
  destruct (String.eqb (username h) name); cbn; [exists h; reflexivity|exact IH].
Qed.

(** C8. Let the user name of a registration request be taken already in
    the backend in use.  The request leaves the world, so every user record,
    as it was: no record is created or overwritten.  The durable store being
    connected when it is the one in use, the answer is a 400, and for a
    request that carries the password and the passphrase too it is 400 "User
    exists". *)
Theorem register_taken_username_conflict
    (cfg : Config) (cr : Crypto) (now : Z) (b : RegisterBody) (w : World)
    (name : string) :
  required (reg_username b) = Some name ->
  user_exists cfg name w = true ->
  fst (register cfg cr now b w) = w /\
  ((nonempty (MONGO_URI cfg) = true -> readyState (mongo w) = 1) ->
   code (snd (register cfg cr now b w)) = 400 /\
   forall password passphrase,
     required (reg_password b) = Some password ->
     required (reg_passphrase b) = Some passphrase ->
     snd (register cfg cr now b w) = res_status 400 (BError "User exists")).
Proof.
  intros Hn Hex.
  unfold register, user_exists, Mongoose.User_findOne in *. unfold_m.
  rewrite Hn.
  destruct (required (reg_password b)) as [password|];
    [|split; [reflexivity|]; intros _; split; [reflexivity|discriminate]].
  destruct (required (reg_passphrase b)) as [passphrase|];
    [|split; [reflexivity|]; intros _; split; [reflexivity|discriminate]].
  destruct (nonempty (MONGO_URI cfg)).
  - destruct (Z.eqb_spec (readyState (mongo w)) 1) as [Hup|Hdown]; cbn.
    + destruct (find_existsb_username name _ Hex) as [u ->]. cbn.
      split; [reflexivity|]. intros _. split; reflexivity.
    + split; [reflexivity|]. intros Hup. specialize (Hup eq_refl). contradiction.
  - cbn. rewrite Hex. cbn.
    split; [reflexivity|]. intros _. split; reflexivity.
Qed.

(** A successful registration takes the name, in either backend. *)
Lemma register_success_takes_name
    (cfg : Config) (cr : Crypto) (now : Z) (b : RegisterBody) (w : World)
    (name token : string) :
  required (reg_username b) = Some name ->
  snd (register cfg cr now b w) = res_json (BToken token) ->
  user_exists cfg name (fst (register cfg cr now b w)) = true.
Proof.
  intros Hn.
  unfold register, user_exists, Mongoose.User_findOne, Mongoose.User_save. unfold_m.
  rewrite Hn.
  destruct (required (reg_password b)); [|discriminate].
  destruct (required (reg_passphrase b)); [|discriminate].
  destruct (nonempty (MONGO_URI cfg)) eqn:Huri; cbn.
  - repeat (break_match; cbn; try discriminate).
    intros _. rewrite existsb_app. cbn. rewrite String.eqb_refl.
    apply orb_true_iff. right. reflexivity.
  - destruct (users_has name (memoryStore w)) eqn:Hhas; cbn; [discriminate|].
    intros _. unfold users_has in *. cbn.
    induction (users (memoryStore w)) as [|kv r IH]; cbn in *.
    + rewrite String.eqb_refl. reflexivity.
    + destruct (String.eqb (fst kv) name) eqn:Ekv; cbn in *; [discriminate|].
      rewrite Ekv. apply IH. exact Hhas.
Qed.

Lemma register_taken_username_conflict_witness :
  let w1 := fst (register cfg_memory crypto 1000 alice world0) in
  let d1 := fst (register cfg_durable crypto 1000 alice world0) in
  register cfg_memory crypto 2000 alice w1 = (w1, res_status 400 (BError "User exists")) /\
  register cfg_durable crypto 2000 alice d1 = (d1, res_status 400 (BError "User exists")).
Proof.
  split.
  - destruct (register_taken_username_conflict cfg_memory crypto 2000 alice
                (fst (register cfg_memory crypto 1000 alice world0)) "alice"
                eq_refl eq_refl) as [Hw Hr].
    rewrite (surjective_pairing (register _ _ _ _ _)), Hw.
    rewrite (proj2 (Hr (fun _ => eq_refl)) "pw123" "passphraseA" eq_refl eq_refl).
    reflexivity.
  - destruct (register_taken_username_conflict cfg_durable crypto 2000 alice
                (fst (register cfg_durable crypto 1000 alice world0)) "alice"
                eq_refl eq_refl) as [Hw Hr].
    rewrite (surjective_pairing (register _ _ _ _ _)), Hw.
    rewrite (proj2 (Hr (fun _ => eq_refl)) "pw123" "passphraseA" eq_refl eq_refl).
    reflexivity.
Defined.

(** ** The transfer handler and its local record (C1, C2, C3) *)

(** C1, as the specification states it, fails: the submission goes through
    (it is in the log of ledger calls), the wait for the receipt times out,
    and neither store holds a Transaction record afterwards. *)
Lemma transfer_receipt_timeout_not_recorded :
  let w' := fst (token_transfer cfg_memory sdk_receipt_timeout 1000 transfer_request world0) in
  (exists tx k, In (ExecuteTransfer tx k) (ledgerCalls w')) /\
  txs (memoryStore w') = [] /\
  Transactions (mongo w') = [] /\
  snd (token_transfer cfg_memory sdk_receipt_timeout 1000 transfer_request world0)
    = res_status 500 (BErrorDetails "Transfer failed" (SdkError "timeout")).
Proof.
  cbn. split; [|repeat split].
  do 2 eexists. right. left. reflexivity.
Qed.

(** C1, amended. A Transaction record is stored exactly for the transfers
    answered with the success response: when the answer is
    [{ transactionId, status }], the backend in use has received, before the
    answer, one new record with the sender, token, amount, that status and
    that transaction id (at the front of [memoryStore.txs], or created in the
    Transactions collection as the document mongoose makes of it); with any
    other answer both stores hold the records they held before. *)
Theorem transfer_recorded_exactly_on_success
    (cfg : Config) (sdk : Sdk) (now : Z) (b : TransferBody) (w : World) :
  let w' := fst (token_transfer cfg sdk now b w) in
  let r := snd (token_transfer cfg sdk now b w) in
  (forall id st, r = res_json (BTransfer id st) ->
     exists from tokenId,
       required (tr_fromAccountId b) = Some from /\
       required (tr_tokenId b) = Some tokenId /\
       if nonempty (MONGO_URI cfg) then
         exists doc,
           Mongoose.cast_tx (txDoc b from tokenId st id) = Ok doc /\
           Transactions (mongo w') =
             (Transactions (mongo w) ++ [Mongoose.with_createdAt now doc])%list /\
           txs (memoryStore w') = txs (memoryStore w)
       else
         txs (memoryStore w') = txDoc b from tokenId st id :: txs (memoryStore w) /\
         Transactions (mongo w') = Transactions (mongo w)) /\
  ((forall id st, r <> res_json (BTransfer id st)) ->
     Transactions (mongo w') = Transactions (mongo w) /\
     txs (memoryStore w') = txs (memoryStore w)).
Proof.
  unfold token_transfer, Mongoose.Transaction_create. unfold_m.
  repeat break_match; cbn; split;
    try (intros id st [=]); subst;
    try (intros _; split; reflexivity);
    try (do 2 eexists; split; [reflexivity|]; split; [reflexivity|];
         first [ split; reflexivity
               | eexists; split; [eassumption|]; split; reflexivity ]);
    try (intros Hne; exfalso; eapply Hne; reflexivity).
Qed.

Lemma transfer_recorded_exactly_on_success_witness :
  txs (memoryStore (fst (token_transfer cfg_memory sdk_success 1000 transfer_request world0)))
    = [txDoc transfer_request "0.0.1" "0.0.100" "SUCCESS" "0.0.1@123"] /\
  Transactions (mongo (fst (token_transfer cfg_durable sdk_rejects 1000 transfer_request world0)))
    = [].
Proof.
  split.
  - destruct (proj1 (transfer_recorded_exactly_on_success cfg_memory sdk_success 1000
                       transfer_request world0) "0.0.1@123" "SUCCESS" eq_refl)
      as (from & tokenId & Hf & Ht & Hrec).
    injection Hf as <-. injection Ht as <-.
    exact (proj1 Hrec).
  - apply (proj2 (transfer_recorded_exactly_on_success cfg_durable sdk_rejects 1000
                    transfer_request world0)).
    intros id st H. discriminate H.
Defined.

(** C2, as the specification states it, fails: a receipt wait that times
    out after a successful submission and a submission the ledger refuses
    are answered with the same error kind, status 500 and "Transfer failed";
    only the text carried along as [details] differs. *)
Lemma transfer_timeout_same_kind_as_rejection :
  let ambiguous :=
    snd (token_transfer cfg_memory sdk_receipt_timeout 1000 transfer_request world0) in
  let rejected :=
    snd (token_transfer cfg_memory sdk_rejects 1000 transfer_request world0) in
  ambiguous = res_status 500 (BErrorDetails "Transfer failed" (SdkError "timeout")) /\
  rejected =
    res_status 500 (BErrorDetails "Transfer failed" (SdkError "INSUFFICIENT_TOKEN_BALANCE")) /\
  error_kind ambiguous = error_kind rejected.
Proof. repeat split. Qed.

(** C2, amended. For a validated, signed transfer: when the submission
    succeeds and the wait for the receipt throws [e], the answer is status
    500 with error "Transfer failed" and details [e]; when the submission
    itself throws [e], the answer is the same.  The two cases share one error
    kind. *)
Theorem transfer_receipt_failure_is_transfer_failed
    (cfg : Config) (sdk : Sdk) (now : Z) (b : TransferBody) (w : World)
    (tokenId from to key : string) (tx : TransferTransaction) (k : PrivateKey) :
  hederaClient cfg sdk = true ->
  required (tr_tokenId b) = Some tokenId ->
  required (tr_fromAccountId b) = Some from ->
  required (tr_toAccountId b) = Some to ->
  loosely_null (tr_amount b) = false ->
  transferTx sdk tokenId from to (tr_amount b) = Ok tx ->
  required (tr_fromPrivateKey b) = Some key ->
  PrivateKey_fromString sdk key = Ok k ->
  freezeWith_sign sdk tx k = Ok tt ->
  (forall resp e,
     execute_transfer sdk tx k = Ok resp -> getReceipt sdk resp = Throw e ->
     snd (token_transfer cfg sdk now b w)
       = res_status 500 (BErrorDetails "Transfer failed" e)) /\
  (forall e,
     execute_transfer sdk tx k = Throw e ->
     snd (token_transfer cfg sdk now b w)
       = res_status 500 (BErrorDetails "Transfer failed" e)).
Proof.
  intros Hc Ht Hf Hto Ha Htx Hk Hpk Hfz.
  unfold token_transfer. unfold_m.
  rewrite Hc, Ht, Hf, Hto, Ha, Htx, Hk, Hpk. cbn. rewrite Hfz. cbn.
  split.
  - intros resp e He Hr. rewrite He. cbn. rewrite Hr. reflexivity.
  - intros e He. rewrite He. reflexivity.
Qed.

Lemma transfer_receipt_failure_is_transfer_failed_witness :
  snd (token_transfer cfg_memory sdk_receipt_timeout 1000 transfer_request world0)
    = res_status 500 (BErrorDetails "Transfer failed" (SdkError "timeout")).
Proof.
  refine (proj1 (transfer_receipt_failure_is_transfer_failed cfg_memory sdk_receipt_timeout
                   1000 transfer_request world0 "0.0.100" "0.0.1" "0.0.2" "key"
                   _ (PrivKey "key") eq_refl eq_refl eq_refl eq_refl eq_refl _ eq_refl
                   eq_refl eq_refl)
                {| transactionId := "0.0.1@123" |} (SdkError "timeout") eq_refl eq_refl).
  reflexivity.
Defined.

(** C3, as the specification states it, fails: without [fromPrivateKey] the
    answer is not always the 400 of an invalid request.  With no operator
    configured it is 500 "Hedera client not configured"; with an amount
    that [BigInt] refuses it is 500 "Transfer failed". *)
Lemma transfer_unsigned_not_always_400 :
  let bad_amount :=
    {| tr_tokenId := Some "0.0.100"; tr_fromAccountId := Some "0.0.1";
       tr_fromPrivateKey := None; tr_toAccountId := Some "0.0.2";
       tr_amount := VString "abc" |} in
  snd (token_transfer cfg_no_operator sdk_success 1000 transfer_request_unsigned world0)
    = res_status 500 (BError "Hedera client not configured") /\
  snd (token_transfer cfg_memory sdk_success 1000 bad_amount world0)
    = res_status 500 (BErrorDetails "Transfer failed"
                        (SyntaxError "Cannot convert string to a BigInt")).
Proof. split; reflexivity. Qed.

(** C3, amended. A transfer request without [fromPrivateKey] makes no ledger
    call, creates no Transaction record and changes nothing: the world is
    the same afterwards.  It is answered 400 or 500, never with success.
    Without a configured Hedera client the answer is 500 "Hedera client not
    configured".  With one, it is 400 "Missing fields" when the token id, an
    account id or the amount is missing; otherwise it is the 400 that asks
    for [fromPrivateKey] when the transfer can be built from the request, and
    500 "Transfer failed", with what was thrown, when building it throws. *)
Theorem transfer_without_key_changes_nothing
    (cfg : Config) (sdk : Sdk) (now : Z) (b : TransferBody) (w : World) :
  required (tr_fromPrivateKey b) = None ->
  fst (token_transfer cfg sdk now b w) = w /\
  (code (snd (token_transfer cfg sdk now b w)) = 400 \/
   code (snd (token_transfer cfg sdk now b w)) = 500) /\
  (hederaClient cfg sdk = false ->
   snd (token_transfer cfg sdk now b w)
     = res_status 500 (BError "Hedera client not configured")) /\
  (hederaClient cfg sdk = true ->
   match required (tr_tokenId b), required (tr_fromAccountId b),
         required (tr_toAccountId b), loosely_null (tr_amount b) with
   | Some tokenId, Some from, Some to, false =>
       (forall tx, transferTx sdk tokenId from to (tr_amount b) = Ok tx ->
          snd (token_transfer cfg sdk now b w)
            = res_status 400 (BError
                "fromPrivateKey required for server-side transfer. Use client-side signing for non-custodial flows.")) /\
       (forall e, transferTx sdk tokenId from to (tr_amount b) = Throw e ->
          snd (token_transfer cfg sdk now b w)
            = res_status 500 (BErrorDetails "Transfer failed" e))
   | _, _, _, _ =>
       snd (token_transfer cfg sdk now b w) = res_status 400 (BError "Missing fields")
   end).
Proof.
  intros Hk. unfold token_transfer. unfold_m. rewrite Hk.
  destruct (hederaClient cfg sdk); cbn.
  2:{ split; [reflexivity|]. split; [right; reflexivity|].
      split; [reflexivity|discriminate]. }
  repeat break_match; cbn; (split; [reflexivity|]); (split; [auto|]);
    (split; [discriminate|]); intros _; try reflexivity;
    split; intros ? [=]; subst; reflexivity.
Qed.

Lemma transfer_without_key_changes_nothing_witness :
  token_transfer cfg_memory sdk_success 1000 transfer_request_unsigned world0
    = (world0,
       res_status 400 (BError
         "fromPrivateKey required for server-side transfer. Use client-side signing for non-custodial flows.")) /\
  token_transfer cfg_no_operator sdk_success 1000 transfer_request_unsigned world0
    = (world0, res_status 500 (BError "Hedera client not configured")).
Proof.
  split.
  - destruct (transfer_without_key_changes_nothing cfg_memory sdk_success 1000
                transfer_request_unsigned world0 eq_refl) as (Hw & _ & _ & Hr).
    rewrite (surjective_pairing (token_transfer _ _ _ _ _)).
    rewrite Hw, (proj1 (Hr eq_refl) _ eq_refl). reflexivity.
  - destruct (transfer_without_key_changes_nothing cfg_no_operator sdk_success 1000
                transfer_request_unsigned world0 eq_refl) as (Hw & _ & Hr & _).
    rewrite (surjective_pairing (token_transfer _ _ _ _ _)).
    rewrite Hw, (Hr eq_refl). reflexivity.
Defined.

(** ** Reading prices (C5) *)

(** C5, as the specification states it, fails: in memory mode, after a
    refresh that succeeded and left x at 1.23 in [memoryStore.prices], a read
    still fetches on demand; it answers 502 when that fetch fails and the
    freshly fetched set when it succeeds, never the set in memory. *)
Lemma get_prices_memory_ignores_cached_set :
  prices (memoryStore world_cached) = Some [snapshot "x" 123 1000] /\
  get_prices cfg_memory oracle_down 2000 world_cached
    = (world_cached, res_status 502 (BError "Coingecko fetch failed")) /\
  get_prices cfg_memory (oracle_up "x" 200) 2000 world_cached
    = (world_cached, res_json (BPrices [snapshot "x" 200 2000])).
Proof. repeat split. Qed.

(** In durable mode, the store being connected, the read answers with the
    Prices collection. *)
Lemma get_prices_durable_connected
    (cfg : Config) (reply : FetchReply) (now : Z) (w : World) :
  nonempty (MONGO_URI cfg) = true -> readyState (mongo w) = 1 ->
  get_prices cfg reply now w = (w, res_json (BPrices (Prices (mongo w)))).
Proof.
  intros Huri Hup. unfold get_prices, Mongoose.Price_find. unfold_m.
  rewrite Huri, Hup. reflexivity.
Qed.

(** C5, amended. A price read changes nothing.  In memory mode it fetches
    from the oracle on every request and answers with the fetched set, or
    with 502 when the fetch fails, whatever [memoryStore] holds; in durable
    mode, the store being connected, it answers with the Prices
    collection. *)
Theorem get_prices_reads_store_or_fetches
    (cfg : Config) (reply : FetchReply) (now : Z) (w : World) :
  fst (get_prices cfg reply now w) = w /\
  (nonempty (MONGO_URI cfg) = false ->
   snd (get_prices cfg reply now w) =
     match fetchCoinGecko reply now with
     | FetchOk data => res_json (BPrices data)
     | _ => res_status 502 (BError "Coingecko fetch failed")
     end) /\
  (nonempty (MONGO_URI cfg) = true -> readyState (mongo w) = 1 ->
   snd (get_prices cfg reply now w) = res_json (BPrices (Prices (mongo w)))).
Proof.
  unfold get_prices, Mongoose.Price_find. unfold_m.
  destruct (nonempty (MONGO_URI cfg)); cbn.
  - destruct (readyState (mongo w) =? 1) eqn:Hup; cbn;
      (split; [reflexivity|]); (split; [discriminate|]); intros _ Hr.
    + reflexivity.
    + rewrite Hr in Hup. discriminate Hup.
  - destruct (fetchCoinGecko reply now); cbn;
      (split; [reflexivity|]); (split; [reflexivity|]); discriminate.
Qed.

Lemma get_prices_reads_store_or_fetches_witness :
  snd (get_prices cfg_memory oracle_down 2000 world_cached)
    = res_status 502 (BError "Coingecko fetch failed") /\
  snd (get_prices cfg_durable oracle_down 2000 world0) = res_json (BPrices []).
Proof.
  split.
  - exact (proj1 (proj2 (get_prices_reads_store_or_fetches cfg_memory oracle_down 2000
                           world_cached)) eq_refl).
  - exact (proj2 (proj2 (get_prices_reads_store_or_fetches cfg_durable oracle_down 2000
                           world0)) eq_refl eq_refl).
Defined.

(** ** A failed refresh (C6) *)

(** A transport error and a non-success response both make the fetch fail. *)
Lemma fetchCoinGecko_failures (now : Z) :
  (forall e, failed (fetchCoinGecko (FetchThrows e) now) = true) /\
  (forall status text json,
     failed (fetchCoinGecko (FetchResponse false status text json) now) = true).
Proof.
  split; [reflexivity|].
  intros status text json. cbn. destruct text; reflexivity.
Qed.

(** C6, as the specification states it, fails: in memory mode, x is cached
    at 1.23, a refresh fails and leaves the store as it was, and the next
    price read, the oracle still being down, answers 502 and not the cached
    set. *)
Lemma failed_refresh_then_read_memory :
  let w := fst (priceUpdaterOnce cfg_memory oracle_down 2000 world_cached) in
  prices (memoryStore world_cached) = Some [snapshot "x" 123 1000] /\
  w = world_cached /\
  snd (get_prices cfg_memory oracle_down 3000 w)
    = res_status 502 (BError "Coingecko fetch failed") /\
  snd (get_prices cfg_memory oracle_down 3000 w)
    <> res_json (BPrices [snapshot "x" 123 1000]).
Proof. repeat split. cbn. discriminate. Qed.

(** C6, amended. [priceUpdaterOnce] never throws, whatever the oracle
    answers.  When the fetch fails, the world, so the stored snapshot set of
    either backend, is exactly what it was; in durable mode, the store being
    connected, a price read after the failed refresh answers with the set
    stored before it. *)
Theorem failed_refresh_leaves_store
    (cfg : Config) (reply : FetchReply) (now : Z) (w : World) :
  snd (priceUpdaterOnce cfg reply now w) = Ok tt /\
  (failed (fetchCoinGecko reply now) = true ->
   fst (priceUpdaterOnce cfg reply now w) = w /\
   (nonempty (MONGO_URI cfg) = true -> readyState (mongo w) = 1 ->
    forall reply' now',
      snd (get_prices cfg reply' now' (fst (priceUpdaterOnce cfg reply now w)))
        = res_json (BPrices (Prices (mongo w))))).
Proof.
  split.
  - unfold priceUpdaterOnce. unfold_m.
    destruct (fetchCoinGecko reply now); try reflexivity.
    destruct (nonempty (MONGO_URI cfg)); [|reflexivity].
    destruct (for_of _ _ w) as [w' [[]|e]]; reflexivity.
  - intros Hf.
    assert (Hw : fst (priceUpdaterOnce cfg reply now w) = w).
    { unfold priceUpdaterOnce. unfold_m.
      destruct (fetchCoinGecko reply now); try discriminate Hf; reflexivity. }
    split; [exact Hw|].
    intros Huri Hup reply' now'. rewrite Hw.
    rewrite (get_prices_durable_connected cfg reply' now' w Huri Hup). reflexivity.
Qed.

Lemma failed_refresh_leaves_store_witness :
  fst (priceUpdaterOnce cfg_memory oracle_down 2000 world_cached) = world_cached /\
  snd (get_prices cfg_durable (oracle_up "x" 200) 3000
         (fst (priceUpdaterOnce cfg_durable oracle_down 2000 world0)))
    = res_json (BPrices (Prices (mongo world0))).
Proof.
  split.
  - exact (proj1 (proj2 (failed_refresh_leaves_store cfg_memory oracle_down 2000
                           world_cached) eq_refl)).
  - exact (proj2 (proj2 (failed_refresh_leaves_store cfg_durable oracle_down 2000
                           world0) eq_refl) eq_refl eq_refl (oracle_up "x" 200) 3000).
Defined.

(** ** One snapshot per asset (C9) *)

Lemma findOneAndUpdate_connected (p : Price) (w : World) :
  readyState (mongo w) = 1 ->
  Mongoose.Price_findOneAndUpdate p w =
    (set_mongo (fun m =>
       {| readyState := readyState m; Users := Users m;
          Transactions := Transactions m;
          Prices := Mongoose.upsert p (Prices m) |}) w, Ok tt).
Proof.
  intros Hup. unfold Mongoose.Price_findOneAndUpdate. unfold_m.
  rewrite Hup. reflexivity.
Qed.

Section Upsert.

Variable f : Price -> Price.




Lemma upsert_keeps_others (p q : Price) (l : list Price) :
  coinId q <> coinId p -> In q l -> In q (Mongoose.upsert p l).
Proof.
  intros Hne. induction l as [|h r IH]; cbn; [intros []|].
  intros [<-|Hin].
  - destruct (String.eqb_spec (coinId h) (coinId p)); [contradiction|left; reflexivity].
  - destruct (String.eqb (coinId h) (coinId p)); right; [exact Hin|exact (IH Hin)].
Qed.

Hypothesis f_keeps_id : forall p, coinId (f p) = coinId p.

Lemma upsert_all_keeps (q : Price) (data l : list Price) :
  ~ In (coinId q) (map coinId data) -> In q l -> In q (upsert_all f data l).
Proof.
  unfold upsert_all. revert l.
  induction data as [|p r IH]; intros l Hnot Hin; cbn; [exact Hin|].
  apply IH.
  - intros H. apply Hnot. right. exact H.
  - apply upsert_keeps_others; [|exact Hin].
    rewrite f_keeps_id. intros H. apply Hnot. left. symmetry. exact H.
Qed.


(** The loop of lines 487-489 with the store connected. *)
Lemma for_of_upsert_connected (data : list Price) (w : World) :
  readyState (mongo w) = 1 ->
  let r := for_of data (fun p => Mongoose.Price_findOneAndUpdate (f p)) w in
  snd r = Ok tt /\
  Prices (mongo (fst r)) = upsert_all f data (Prices (mongo w)) /\
  memoryStore (fst r) = memoryStore w.
Proof.
  unfold upsert_all. revert w.
  induction data as [|p r IH]; intros w Hup; cbn.
  - repeat split.
  - unfold bind. rewrite (findOneAndUpdate_connected (f p) w Hup).
    destruct (IH (set_mongo (fun m =>
                {| readyState := readyState m; Users := Users m;
                   Transactions := Transactions m;
                   Prices := Mongoose.upsert (f p) (Prices m) |}) w) Hup)
      as (Hok & Hprices & Hmem).
    repeat split; assumption.
Qed.

(** The same loop with the store not connected: the first update throws. *)
Lemma for_of_upsert_disconnected (data : list Price) (w : World) :
  readyState (mongo w) <> 1 ->
  fst (for_of data (fun p => Mongoose.Price_findOneAndUpdate (f p)) w) = w.
Proof.
  intros Hdown. destruct data as [|p r]; cbn; [reflexivity|].
  unfold Mongoose.Price_findOneAndUpdate. unfold_m.
  destruct (Z.eqb_spec (readyState (mongo w)) 1); [contradiction|reflexivity].
Qed.

End Upsert.


Lemma transform_ids (now : Z) (j : list (string * CoinJson)) (data : list Price) :
  map_outcome (transform now) j = Ok data -> map coinId data = map fst j.
Proof.
  revert data. induction j as [|e r IH]; intros data; cbn.
  - intros [= <-]. reflexivity.
  - unfold transform at 1. destruct (snd e); cbn; [discriminate|].
    destruct (map_outcome (transform now) r) as [bs|]; cbn; [|discriminate].
    intros [= <-]. cbn. rewrite (IH bs eq_refl). reflexivity.
Qed.

Lemma fetchCoinGecko_ids_distinct (reply : FetchReply) (now : Z) (data : list Price) :
  keys_distinct reply -> fetchCoinGecko reply now = FetchOk data ->
  NoDup (map coinId data).
Proof.
  unfold fetchCoinGecko, keys_distinct.
  destruct reply as [e|ok status text json]; cbn; [intros _ H; discriminate H|].
  destruct ok; cbn.
  - destruct json as [j|e]; cbn; [|intros _ H; discriminate H].
    destruct (map_outcome (transform now) j) as [out|] eqn:Eout; cbn;
      [|intros _ H; discriminate H].
    intros Hnd [= <-]. rewrite (transform_ids now j out Eout). exact Hnd.
  - destruct text; cbn; intros _ H; discriminate H.
Qed.

(** The world [priceUpdaterOnce] leaves, by cases. *)
Lemma priceUpdaterOnce_world (cfg : Config) (reply : FetchReply) (now : Z) (w : World) :
  fst (priceUpdaterOnce cfg reply now w) =
    match fetchCoinGecko reply now with
    | FetchOk data =>
        if nonempty (MONGO_URI cfg) then
          fst (for_of data
                 (fun p => Mongoose.Price_findOneAndUpdate (with_updatedAt now p)) w)
        else set_memory (prices_assign data) w
    | _ => w
    end.
Proof.
  unfold priceUpdaterOnce. unfold_m.
  destruct (fetchCoinGecko reply now); try reflexivity.
  destruct (nonempty (MONGO_URI cfg)); [|reflexivity].
  destruct (for_of _ _ w) as [w' [[]|e]]; reflexivity.
Qed.



(** ** Listing transactions (C7) *)

Lemma createdAt_leb_total (a b : option Z) :
  Mongoose.createdAt_leb a b = false -> Mongoose.createdAt_leb b a = true.
Proof.
  destruct a as [x|], b as [y|]; cbn; try discriminate; try reflexivity.
  intros H. apply Z.leb_le. apply Z.leb_gt in H. lia.
Qed.

Lemma createdAt_leb_trans (a b c : option Z) :
  Mongoose.createdAt_leb a b = true -> Mongoose.createdAt_leb b c = true ->
  Mongoose.createdAt_leb a c = true.
Proof.
  destruct a as [x|], b as [y|], c as [z|]; cbn; try discriminate; try reflexivity.
  rewrite !Z.leb_le. lia.
Qed.

Lemma insert_desc_in (t x : Tx) (l : list Tx) :
  In x (Mongoose.insert_desc t l) -> x = t \/ In x l.
Proof.
  induction l as [|h r IH]; cbn.
  - intros [<-|[]]. left. reflexivity.
  - destruct (Mongoose.createdAt_leb _ _); cbn.
    + intros [<-|Hin]; [right; left; reflexivity|].
      destruct (IH Hin); [left|right; right]; assumption.
    + intros [<-|Hin]; [left; reflexivity|right; exact Hin].
Qed.

Lemma insert_desc_sorted (t : Tx) (l : list Tx) :
  StronglySorted newer_or_same l -> StronglySorted newer_or_same (Mongoose.insert_desc t l).
Proof.
  induction 1 as [|h r Hs IH Hall]; cbn.
  - constructor; constructor.
  - destruct (Mongoose.createdAt_leb (tx_createdAt t) (tx_createdAt h)) eqn:Hle.
    + constructor; [exact IH|].
      rewrite Forall_forall. intros x Hin.
      destruct (insert_desc_in t x r Hin) as [->|Hx]; [exact Hle|].
      rewrite Forall_forall in Hall. exact (Hall x Hx).
    + constructor; [constructor; assumption|].
      assert (Hth : newer_or_same t h) by (apply createdAt_leb_total; exact Hle).
      constructor; [exact Hth|].
      rewrite Forall_forall in *. intros x Hx.
      unfold newer_or_same in *.
      eapply createdAt_leb_trans; [exact (Hall x Hx)|exact Hth].
Qed.

Lemma sort_desc_from (l acc : list Tx) :
  StronglySorted newer_or_same acc ->
  StronglySorted newer_or_same (fold_left (fun a t => Mongoose.insert_desc t a) l acc) /\
  forall x, In x (fold_left (fun a t => Mongoose.insert_desc t a) l acc) ->
            In x l \/ In x acc.
Proof.
  revert acc. induction l as [|t r IH]; intros acc Hs; cbn.
  - split; [exact Hs|]. intros x Hx. right. exact Hx.
  - destruct (IH (Mongoose.insert_desc t acc) (insert_desc_sorted t acc Hs)) as [Hs' Hin'].
    split; [exact Hs'|].
    intros x Hx. destruct (Hin' x Hx) as [Hr|Hi]; [left; right; exact Hr|].
    destruct (insert_desc_in t x acc Hi) as [->|Ha]; [left; left; reflexivity|right; exact Ha].
Qed.

Lemma sort_desc_sorted (l : list Tx) :
  StronglySorted newer_or_same (Mongoose.sort_desc l) /\
  forall x, In x (Mongoose.sort_desc l) -> In x l.
Proof.
  destruct (sort_desc_from l [] (SSorted_nil _)) as [Hs Hin].
  split; [exact Hs|].
  intros x Hx. destruct (Hin x Hx) as [H|[]]. exact H.
Qed.




Lemma integer_part_nonneg (q : Q) : 0 <= Qnum q -> 0 <= integer_part q.
Proof.
  intros H. unfold integer_part. apply Z.quot_pos; [exact H|reflexivity].
Qed.

(** [slice(0, n)] for a number that is not negative keeps the first
    [trunc(n)] elements. *)
Lemma slice0_nonneg {A : Type} (l : list A) (q : Q) :
  0 <= Qnum q ->
  slice0 l (Finite q) = firstn (Z.to_nat (integer_part q)) l.
Proof.
  intros H. pose proof (integer_part_nonneg q H) as Hk.
  unfold slice0. cbn [to_integer_or_infinity].
  destruct (Z.ltb_spec (integer_part q) 0) as [Hneg|_]; [lia|].
  destruct (Z.le_ge_cases (integer_part q) (Z.of_nat (List.length l))) as [Hle|Hge].
  - rewrite Z.min_l by exact Hle. reflexivity.
  - rewrite Z.min_r by exact Hge. rewrite Nat2Z.id.
    rewrite firstn_all. symmetry. apply firstn_all2. lia.
Qed.


(** Serving any event leaves the records of [memoryStore.txs] in place and
    puts what it records in front of them. *)
Lemma step_unshifts (cfg : Config) (sdk : Sdk) (cr : Crypto) (ev : Event) (w : World) :
  exists new : list Tx,
    txs (memoryStore (fst (step cfg sdk cr ev w))) = (new ++ txs (memoryStore w))%list.
Proof.
  destruct ev; cbn [step fst snd].
  - unfold register, Mongoose.User_findOne, Mongoose.User_save. unfold_m.
    repeat break_match; cbn; exists []; reflexivity.
  - unfold list_transactions, Mongoose.Transaction_find_sort_limit. unfold_m.
    repeat break_match; cbn; exists []; reflexivity.
  - unfold post_transaction, Mongoose.Transaction_create. unfold_m.
    repeat break_match; cbn; solve [exists []; reflexivity | eexists [_]; reflexivity].
  - unfold token_create. unfold_m.
    repeat break_match; cbn; exists []; reflexivity.
  - unfold token_transfer, Mongoose.Transaction_create. unfold_m.
    repeat break_match; cbn; solve [exists []; reflexivity | eexists [_]; reflexivity].
  - unfold get_prices, Mongoose.Price_find. unfold_m.
    repeat break_match; cbn; exists []; reflexivity.
  - exists []. cbn [app]. rewrite priceUpdaterOnce_world.
    destruct (fetchCoinGecko reply now); try reflexivity.
    destruct (nonempty (MONGO_URI cfg)); [|reflexivity].
    destruct (Z.eq_dec (readyState (mongo w)) 1) as [Hup|Hdown].
    + destruct (for_of_upsert_connected (with_updatedAt now) data w Hup) as (_ & _ & ->).
      reflexivity.
    + rewrite (for_of_upsert_disconnected (with_updatedAt now) data w Hdown). reflexivity.
Qed.




(** ** Accounts: registration, login, recovery *)

Lemma entries_set_absent (name : string) (u : User) (l : list (string * User)) :
  existsb (fun kv => String.eqb (fst kv) name) l = false ->
  entries_set name u l = (l ++ [(name, u)])%list.
Proof.
  induction l as [|kv r IH]; cbn; [reflexivity|].
  destruct (String.eqb (fst kv) name); cbn; [discriminate|].
  intros H. rewrite (IH H). reflexivity.
Qed.

Lemma find_app_absent {A : Type} (f : A -> bool) (l : list A) (a : A) :
  existsb f l = false -> f a = true -> find f (l ++ [a]) = Some a.
Proof.
  induction l as [|h r IH]; cbn.
  - intros _ ->. reflexivity.
  - destruct (f h); cbn; [discriminate|]. exact IH.
Qed.

(** What a registration that goes through does, in one equation. *)
Lemma register_new_equation
    (cfg : Config) (cr : Crypto) (now : Z) (b : RegisterBody) (w : World)
    (name password phrase : string) :
  required (reg_username b) = Some name ->
  required (reg_password b) = Some password ->
  required (reg_passphrase b) = Some phrase ->
  user_exists cfg name w = false ->
  (nonempty (MONGO_URI cfg) = true -> readyState (mongo w) = 1) ->
  register cfg cr now b w =
    ((if nonempty (MONGO_URI cfg) then
        set_mongo (fun m =>
          {| readyState := readyState m;
             Users := Users m ++ [registered cfg cr now name password phrase];
             Transactions := Transactions m; Prices := Prices m |}) w
      else
        set_memory (fun m =>
          {| users := users m ++ [(name, registered cfg cr now name password phrase)];
             txs := txs m; prices := prices m |}) w),
     res_json (BToken (genToken cr now name))).
Proof.
  intros Hn Hp Hph Hex Hup.
  unfold register, user_exists, registered, Mongoose.User_findOne, Mongoose.User_save in *.
  unfold_m. rewrite Hn, Hp, Hph.
  destruct (nonempty (MONGO_URI cfg)).
  - rewrite (Hup eq_refl). cbn.
    assert (Hfind : find (fun u => String.eqb (username u) name) (Users (mongo w)) = None).
    { clear - Hex. induction (Users (mongo w)) as [|h r IH]; cbn in *; [reflexivity|].
      destruct (String.eqb (username h) name); cbn in *; [discriminate|exact (IH Hex)]. }
    rewrite Hfind. cbn. rewrite (Hup eq_refl). cbn. rewrite Hex. reflexivity.
  - cbn. unfold users_has in *. rewrite Hex. cbn.
    unfold set_memory, users_set. cbn.
    rewrite (entries_set_absent name _ _ Hex). reflexivity.
Qed.

(** X1. A registration with the three fields, for a user name that is not
    taken (the durable store being connected when it is the one in use), is
    answered with a token for that name and adds exactly one user record at
    the end of the users of the backend: the name, the bcrypt hash of the
    password, and the passphrase as it was sent. *)
Theorem register_new_user_stored
    (cfg : Config) (cr : Crypto) (now : Z) (b : RegisterBody) (w : World)
    (name password phrase : string) :
  required (reg_username b) = Some name ->
  required (reg_password b) = Some password ->
  required (reg_passphrase b) = Some phrase ->
  user_exists cfg name w = false ->
  (nonempty (MONGO_URI cfg) = true -> readyState (mongo w) = 1) ->
  snd (register cfg cr now b w) = res_json (BToken (genToken cr now name)) /\
  stored_users cfg (fst (register cfg cr now b w)) =
    (stored_users cfg w ++ [registered cfg cr now name password phrase])%list /\
  lookup_user cfg name (fst (register cfg cr now b w)) =
    Some (registered cfg cr now name password phrase).
Proof.
  intros Hn Hp Hph Hex Hup.
  rewrite (register_new_equation cfg cr now b w name password phrase Hn Hp Hph Hex Hup).
  cbn [fst snd]. split; [reflexivity|].
  unfold stored_users, lookup_user, user_exists, users_get, users_has in *.
  destruct (nonempty (MONGO_URI cfg)); cbn.
  - split; [reflexivity|].
    apply find_app_absent; [exact Hex|]. cbn. apply String.eqb_refl.
  - rewrite map_app. split; [reflexivity|].
    rewrite (find_app_absent _ _ (name, _) Hex); [reflexivity|].
    cbn. apply String.eqb_refl.
Qed.

Lemma register_new_user_stored_witness :
  stored_users cfg_memory (fst (register cfg_memory crypto 1000 alice world0))
    = [registered cfg_memory crypto 1000 "alice" "pw123" "passphraseA"] /\
  stored_users cfg_durable (fst (register cfg_durable crypto 1000 alice world0))
    = [registered cfg_durable crypto 1000 "alice" "pw123" "passphraseA"].
Proof.
  split.
  - exact (proj1 (proj2 (register_new_user_stored cfg_memory crypto 1000 alice world0
                           "alice" "pw123" "passphraseA" eq_refl eq_refl eq_refl eq_refl
                           (fun _ => eq_refl)))).
  - exact (proj1 (proj2 (register_new_user_stored cfg_durable crypto 1000 alice world0
                           "alice" "pw123" "passphraseA" eq_refl eq_refl eq_refl eq_refl
                           (fun _ => eq_refl)))).
Defined.

(** What login answers, the store being reachable. *)
Lemma login_equation
    (cfg : Config) (cr : Crypto) (bc : Bcrypt) (now : Z) (b : LoginBody) (w : World) :
  (nonempty (MONGO_URI cfg) = true -> readyState (mongo w) = 1) ->
  login cfg cr bc now b w =
    (w,
     match lookup_user cfg (lg_username b) w with
     | None => invalid_credentials
     | Some u =>
         match comparePassword bc (lg_password b) (passwordHash u) with
         | Ok true => res_json (BToken (genToken cr now (lg_username b)))
         | Ok false => invalid_credentials
         | Throw _ => res_status 500 (BError "Server error")
         end
     end).
Proof.
  intros Hup. unfold login, lookup_user, Mongoose.User_findOne. unfold_m.
  destruct (nonempty (MONGO_URI cfg)).
  - rewrite (Hup eq_refl). cbn.
    destruct (find _ _) as [u|]; cbn; [|reflexivity].
    destruct (comparePassword bc _ _) as [[]|]; reflexivity.
  - cbn. destruct (users_get _ _) as [u|]; cbn; [|reflexivity].
    destruct (comparePassword bc _ _) as [[]|]; reflexivity.
Qed.

(** X2. After a registration that went through, logging in under the same
    name changes nothing and is answered with a token exactly when bcrypt
    accepts the password given against the hash of the password registered;
    otherwise with 400 "Invalid credentials". *)
Theorem login_after_register
    (cfg : Config) (cr : Crypto) (bc : Bcrypt) (now later : Z) (b : RegisterBody)
    (w : World) (name password phrase attempt : string) :
  required (reg_username b) = Some name ->
  required (reg_password b) = Some password ->
  required (reg_passphrase b) = Some phrase ->
  user_exists cfg name w = false ->
  (nonempty (MONGO_URI cfg) = true -> readyState (mongo w) = 1) ->
  let w' := fst (register cfg cr now b w) in
  login cfg cr bc later {| lg_username := name; lg_password := Some attempt |} w' =
    (w',
     if bcrypt_compare bc attempt (hashPassword cr password)
     then res_json (BToken (genToken cr later name))
     else invalid_credentials).
Proof.
  intros Hn Hp Hph Hex Hup w'.
  assert (Hlook : lookup_user cfg name w' = Some (registered cfg cr now name password phrase)).
  { unfold w'. rewrite (register_new_equation cfg cr now b w name password phrase
                          Hn Hp Hph Hex Hup). cbn [fst].
    unfold lookup_user, user_exists, users_get, users_has in *.
    destruct (nonempty (MONGO_URI cfg)); cbn.
    - apply find_app_absent; [exact Hex|]. cbn. apply String.eqb_refl.
    - rewrite (find_app_absent _ _ (name, _) Hex); [reflexivity|].
      cbn. apply String.eqb_refl. }
  rewrite login_equation.
  - cbn [lg_username lg_password]. rewrite Hlook. cbn.
    destruct (bcrypt_compare bc attempt (hashPassword cr password)); reflexivity.
  - intros Huri. unfold w'.
    rewrite (register_new_equation cfg cr now b w name password phrase Hn Hp Hph Hex Hup).
    rewrite Huri. cbn. exact (Hup Huri).
Qed.

Lemma login_after_register_witness :
  snd (login cfg_memory crypto bcrypt 2000
         {| lg_username := "alice"; lg_password := Some "pw123" |}
         (fst (register cfg_memory crypto 1000 alice world0)))
    = res_json (BToken "jwt.alice") /\
  snd (login cfg_durable crypto bcrypt 2000
         {| lg_username := "alice"; lg_password := Some "pw124" |}
         (fst (register cfg_durable crypto 1000 alice world0)))
    = invalid_credentials.
Proof.
  split.
  - rewrite (login_after_register cfg_memory crypto bcrypt 1000 2000 alice world0
               "alice" "pw123" "passphraseA" "pw123" eq_refl eq_refl eq_refl eq_refl
               (fun _ => eq_refl)).
    reflexivity.
  - rewrite (login_after_register cfg_durable crypto bcrypt 1000 2000 alice world0
               "alice" "pw123" "passphraseA" "pw124" eq_refl eq_refl eq_refl eq_refl
               (fun _ => eq_refl)).
    reflexivity.
Defined.

(** X3. Login never changes the world.  With a password in the request and
    the store reachable, it is answered with a token when the user name is
    known and bcrypt accepts the password against the stored hash, and with
    one and the same 400 "Invalid credentials" both when the name is
    unknown and when the password is wrong. *)
Theorem login_with_password
    (cfg : Config) (cr : Crypto) (bc : Bcrypt) (now : Z) (name password : string)
    (w : World) :
  let r := login cfg cr bc now {| lg_username := name; lg_password := Some password |} w in
  fst r = w /\
  ((nonempty (MONGO_URI cfg) = true -> readyState (mongo w) = 1) ->
   (forall u, lookup_user cfg name w = Some u ->
      bcrypt_compare bc password (passwordHash u) = true ->
      snd r = res_json (BToken (genToken cr now name))) /\
   (forall u, lookup_user cfg name w = Some u ->
      bcrypt_compare bc password (passwordHash u) = false ->
      snd r = invalid_credentials) /\
   (lookup_user cfg name w = None -> snd r = invalid_credentials)).
Proof.
  cbv zeta. split.
  - unfold login, Mongoose.User_findOne. unfold_m.
    repeat (break_match; cbn); reflexivity.
  - intros Hup. rewrite (login_equation _ _ _ _ _ _ Hup). cbn.
    repeat split.
    + intros u -> ->. reflexivity.
    + intros u -> ->. reflexivity.
    + intros ->. reflexivity.
Qed.

Lemma login_with_password_witness :
  snd (login cfg_memory crypto bcrypt 2000
         {| lg_username := "mallory"; lg_password := Some "pw123" |}
         (fst (register cfg_memory crypto 1000 alice world0)))
    = invalid_credentials.
Proof.
  exact (proj2 (proj2 (proj2 (login_with_password cfg_memory crypto bcrypt 2000
                                "mallory" "pw123"
                                (fst (register cfg_memory crypto 1000 alice world0)))
                         (fun _ => eq_refl))) eq_refl).
Defined.

(** X4. A login request without a password tells a taken user name from a
    free one: the store being reachable, it is answered 500 "Server error"
    when the name is known (bcrypt throws on the missing password) and 400
    "Invalid credentials" when it is not. *)
Theorem login_without_password_tells_names
    (cfg : Config) (cr : Crypto) (bc : Bcrypt) (now : Z) (name : string) (w : World) :
  (nonempty (MONGO_URI cfg) = true -> readyState (mongo w) = 1) ->
  snd (login cfg cr bc now {| lg_username := name; lg_password := None |} w) =
    match lookup_user cfg name w with
    | Some _ => res_status 500 (BError "Server error")
    | None => invalid_credentials
    end.
Proof.
  intros Hup. rewrite (login_equation _ _ _ _ _ _ Hup). cbn.
  destruct (lookup_user cfg name w); reflexivity.
Qed.

Lemma login_without_password_tells_names_witness :
  let w := fst (register cfg_memory crypto 1000 alice world0) in
  snd (login cfg_memory crypto bcrypt 2000
         {| lg_username := "alice"; lg_password := None |} w)
    = res_status 500 (BError "Server error") /\
  snd (login cfg_memory crypto bcrypt 2000
         {| lg_username := "mallory"; lg_password := None |} w)
    = invalid_credentials.
Proof.
  split.
  - exact (login_without_password_tells_names cfg_memory crypto bcrypt 2000 "alice"
             (fst (register cfg_memory crypto 1000 alice world0)) (fun _ => eq_refl)).
  - exact (login_without_password_tells_names cfg_memory crypto bcrypt 2000 "mallory"
             (fst (register cfg_memory crypto 1000 alice world0)) (fun _ => eq_refl)).
Defined.

Lemma required_again (s : option string) (t : string) :
  required s = Some t -> required (Some t) = Some t.
Proof.
  destruct s as [u|]; cbn; [|discriminate].
  destruct (nonempty u) eqn:Hu; [|discriminate].
  intros [= <-]. rewrite Hu. reflexivity.
Qed.

Lemma find_app_last {A : Type} (f : A -> bool) (l : list A) (a : A) :
  find f (l ++ [a]) =
    match find f l with
    | Some x => Some x
    | None => if f a then Some a else None
    end.
Proof.
  induction l as [|h r IH]; cbn; [reflexivity|].
  destruct (f h); [reflexivity|exact IH].
Qed.

(** What recovery answers, the store being reachable. *)
Lemma recover_equation
    (cfg : Config) (cr : Crypto) (now : Z) (phrase : string) (w : World) :
  required (Some phrase) = Some phrase ->
  (nonempty (MONGO_URI cfg) = true -> readyState (mongo w) = 1) ->
  recover cfg cr now {| rc_passphrase := Some phrase |} w =
    (w,
     match first_holder cfg phrase w with
     | Some name => res_json (BToken (genToken cr now name))
     | None => res_status 400 (BError "Invalid passphrase")
     end).
Proof.
  intros Hreq Hup.
  unfold recover, first_holder, User_findOne_passphrase. unfold_m.
  cbn [rc_passphrase]. rewrite Hreq.
  destruct (nonempty (MONGO_URI cfg)).
  - rewrite (Hup eq_refl). cbn. destruct (find _ _); reflexivity.
  - cbn. destruct (users_find_passphrase _ _) as [[k v]|]; reflexivity.
Qed.

(** X5. Recovery resolves a passphrase to the first user registered with
    it and asks for no password.  After a registration that went through,
    recovery with the passphrase just registered changes nothing and is
    answered with a token: for the new user when nobody held that passphrase
    before, and otherwise for the earliest user who holds it, not for the
    new one. *)
Theorem recover_after_register
    (cfg : Config) (cr : Crypto) (now later : Z) (b : RegisterBody) (w : World)
    (name password phrase : string) :
  required (reg_username b) = Some name ->
  required (reg_password b) = Some password ->
  required (reg_passphrase b) = Some phrase ->
  user_exists cfg name w = false ->
  (nonempty (MONGO_URI cfg) = true -> readyState (mongo w) = 1) ->
  let w' := fst (register cfg cr now b w) in
  recover cfg cr later {| rc_passphrase := Some phrase |} w' =
    (w',
     res_json (BToken (genToken cr later
       match first_holder cfg phrase w with
       | Some earlier => earlier
       | None => name
       end))).
Proof.
  intros Hn Hp Hph Hex Hup w'.
  assert (Hfirst : first_holder cfg phrase w' =
                   Some match first_holder cfg phrase w with
                        | Some earlier => earlier
                        | None => name
                        end).
  { unfold w'. rewrite (register_new_equation cfg cr now b w name password phrase
                          Hn Hp Hph Hex Hup). cbn [fst].
    unfold first_holder, users_find_passphrase, registered.
    destruct (nonempty (MONGO_URI cfg)); cbn; rewrite find_app_last; cbn;
      rewrite String.eqb_refl; destruct (find _ _); reflexivity. }
  rewrite recover_equation.
  - rewrite Hfirst. reflexivity.
  - exact (required_again _ _ Hph).
  - intros Huri. unfold w'.
    rewrite (register_new_equation cfg cr now b w name password phrase Hn Hp Hph Hex Hup).
    rewrite Huri. cbn. exact (Hup Huri).
Qed.

Lemma recover_after_register_witness :
  let w1 := fst (register cfg_memory crypto 1000 alice world0) in
  let w2 := fst (register cfg_memory crypto 2000 bob w1) in
  snd (recover cfg_memory crypto 3000 {| rc_passphrase := Some "passphraseA" |} w1)
    = res_json (BToken "jwt.alice") /\
  snd (recover cfg_memory crypto 3000 {| rc_passphrase := Some "passphraseA" |} w2)
    = res_json (BToken "jwt.alice").
Proof.
  split.
  - rewrite (recover_after_register cfg_memory crypto 1000 3000 alice world0
               "alice" "pw123" "passphraseA" eq_refl eq_refl eq_refl eq_refl
               (fun _ => eq_refl)).
    reflexivity.
  - rewrite (recover_after_register cfg_memory crypto 2000 3000 bob
               (fst (register cfg_memory crypto 1000 alice world0))
               "bob" "hunter2" "passphraseA" eq_refl eq_refl eq_refl eq_refl
               (fun _ => eq_refl)).
    reflexivity.
Defined.

(** ** The Authorization header *)

Lemma list_ascii_of_string_app (a b : string) :
  list_ascii_of_string (a ++ b) = (list_ascii_of_string a ++ list_ascii_of_string b)%list.
Proof.
  induction a as [|c a IH]; cbn; [reflexivity|]. rewrite IH. reflexivity.
Qed.

Lemma split_on_first (sep : ascii) (l1 l2 cur : list ascii) :
  ~ In sep l1 ->
  split_on sep (l1 ++ sep :: l2) cur = (rev cur ++ l1)%list :: split_on sep l2 [].
Proof.
  revert cur. induction l1 as [|c r IH]; intros cur Hnot; cbn.
  - rewrite Ascii.eqb_refl, app_nil_r. reflexivity.
  - destruct (Ascii.eqb_spec c sep) as [->|_].
    + exfalso. apply Hnot. left. reflexivity.
    + rewrite IH by (intros H; apply Hnot; right; exact H).
      cbn. rewrite <- app_assoc. reflexivity.
Qed.

Lemma split_on_whole (sep : ascii) (l cur : list ascii) :
  ~ In sep l -> split_on sep l cur = [(rev cur ++ l)%list].
Proof.
  revert cur. induction l as [|c r IH]; intros cur Hnot; cbn.
  - rewrite app_nil_r. reflexivity.
  - destruct (Ascii.eqb_spec c sep) as [->|_].
    + exfalso. apply Hnot. left. reflexivity.
    + rewrite IH by (intros H; apply Hnot; right; exact H).
      cbn. rewrite <- app_assoc. reflexivity.
Qed.

Lemma split_on_nonempty (sep : ascii) (l cur : list ascii) :
  exists h t, split_on sep l cur = h :: t.
Proof.
  revert cur. induction l as [|c r IH]; intros cur; cbn.
  - eexists. eexists. reflexivity.
  - destruct (Ascii.eqb c sep); [eexists; eexists; reflexivity|apply IH].
Qed.

(** The second piece of a header is the first piece of what follows the
    first space. *)
Lemma split_space_second_after (scheme rest : string) :
  spaceless scheme ->
  split_space_second (scheme ++ " " ++ rest) =
    Some (string_of_list_ascii (hd [] (split_on " " (list_ascii_of_string rest) []))).
Proof.
  intros Hs. unfold split_space_second.
  rewrite list_ascii_of_string_app. cbn [append list_ascii_of_string].
  rewrite (split_on_first " " _ _ [] Hs).
  destruct (split_on_nonempty " " (list_ascii_of_string rest) []) as (h & t & ->).
  reflexivity.
Qed.

Lemma header_nonempty (scheme rest : string) :
  required (Some (scheme ++ " " ++ rest)) = Some (scheme ++ " " ++ rest).
Proof.
  destruct scheme; reflexivity.
Qed.

(** X6. [authMiddleware] never looks at the scheme of the Authorization
    header: two headers that differ only in the word before the first space
    (which may be "Bearer", anything else, or empty) are treated alike. *)
Theorem authMiddleware_ignores_scheme
    (cr : Crypto) (scheme1 scheme2 rest : string) :
  spaceless scheme1 -> spaceless scheme2 ->
  authMiddleware cr (Some (scheme1 ++ " " ++ rest)) =
  authMiddleware cr (Some (scheme2 ++ " " ++ rest)).
Proof.
  intros H1 H2. unfold authMiddleware.
  rewrite !header_nonempty.
  rewrite (split_space_second_after scheme1 rest H1).
  rewrite (split_space_second_after scheme2 rest H2).
  reflexivity.
Qed.

Lemma authMiddleware_ignores_scheme_witness :
  authMiddleware crypto (Some "Basic token") = authMiddleware crypto (Some "Bearer token") /\
  authMiddleware crypto (Some "Basic token") = inr "token".
Proof.
  split; [|reflexivity].
  apply (authMiddleware_ignores_scheme crypto "Basic" "Bearer" "token").
  - unfold spaceless. cbn. intros H.
    repeat (destruct H as [H|H]; [discriminate H|]). exact H.
  - unfold spaceless. cbn. intros H.
    repeat (destruct H as [H|H]; [discriminate H|]). exact H.
Defined.

Lemma nonempty_required (t : string) : t <> "" -> required (Some t) = Some t.
Proof.
  intros Ht. cbn. unfold nonempty.
  destruct (String.eqb_spec t ""); [contradiction|reflexivity].
Qed.

Lemma spaceless_Bearer : spaceless "Bearer".
Proof.
  unfold spaceless. cbn. intros H.
  repeat (destruct H as [H|H]; [discriminate H|]). exact H.
Qed.

(** A well-formed bearer header authenticates as the user of its token. *)
Lemma authMiddleware_bearer (cr : Crypto) (token user : string) :
  spaceless token -> token <> "" -> jwt_verify cr token = Ok user ->
  authMiddleware cr (Some ("Bearer " ++ token)) = inr user.
Proof.
  intros Hs Hne Hv. unfold authMiddleware.
  change ("Bearer " ++ token) with ("Bearer" ++ " " ++ token).
  rewrite header_nonempty.
  rewrite (split_space_second_after "Bearer" token spaceless_Bearer).
  rewrite (split_on_whole " " _ [] Hs). cbn [rev app hd].
  rewrite string_of_list_ascii_of_string.
  rewrite (nonempty_required token Hne), Hv. reflexivity.
Qed.

(** What verify-password answers for a verified user, the store being
    reachable. *)
Lemma verify_password_equation
    (cfg : Config) (bc : Bcrypt) (user : string) (password : option string) (w : World) :
  required (Some user) = Some user ->
  (nonempty (MONGO_URI cfg) = true -> readyState (mongo w) = 1) ->
  verify_password cfg bc user password w =
    (w,
     match lookup_user cfg user w with
     | None => more (res_status 400 (BError "User not found"))
     | Some u =>
         match comparePassword bc password (passwordHash u) with
         | Ok ok => {| m_code := 200; m_body := MSuccess ok |}
         | Throw _ => more (res_status 500 (BError "Server error"))
         end
     end).
Proof.
  intros Hreq Hup.
  unfold verify_password, handler_of, lookup_user, Mongoose.User_findOne. unfold_m.
  rewrite Hreq.
  destruct (nonempty (MONGO_URI cfg)).
  - rewrite (Hup eq_refl). cbn.
    destruct (find _ _) as [u|]; cbn; [|reflexivity].
    destruct (comparePassword bc _ _); reflexivity.
  - cbn. destruct (users_get _ _) as [u|]; cbn; [|reflexivity].
    destruct (comparePassword bc _ _); reflexivity.
Qed.

(** X7. The token a registration answers with, sent back as
    [Bearer <token>], authenticates verify-password as the registered user:
    given that [jwt.verify] reads the user name back from that token and that
    the token has no space in it, the request changes nothing and is answered
    200 with [success] being bcrypt's verdict on the password tried against
    the hash of the password registered; a wrong password is [success: false],
    not an error. *)
Theorem verify_password_with_registration_token
    (cfg : Config) (cr : Crypto) (bc : Bcrypt) (now : Z) (b : RegisterBody) (w : World)
    (name password phrase attempt : string) :
  required (reg_username b) = Some name ->
  required (reg_password b) = Some password ->
  required (reg_passphrase b) = Some phrase ->
  user_exists cfg name w = false ->
  (nonempty (MONGO_URI cfg) = true -> readyState (mongo w) = 1) ->
  jwt_verify cr (genToken cr now name) = Ok name ->
  spaceless (genToken cr now name) ->
  genToken cr now name <> "" ->
  let w' := fst (register cfg cr now b w) in
  post_verify_password cfg cr bc (Some ("Bearer " ++ genToken cr now name))
    (Some attempt) w' =
    (w', {| m_code := 200;
            m_body := MSuccess (bcrypt_compare bc attempt (hashPassword cr password)) |}).
Proof.
  intros Hn Hp Hph Hex Hup Hjwt Hsp Hne w'.
  unfold post_verify_password.
  rewrite (authMiddleware_bearer cr _ name Hsp Hne Hjwt).
  assert (Hw' : w' = fst (register cfg cr now b w)) by reflexivity.
  rewrite (register_new_equation cfg cr now b w name password phrase Hn Hp Hph Hex Hup)
    in Hw'. cbn [fst] in Hw'.
  rewrite verify_password_equation.
  - assert (Hlook : lookup_user cfg name w'
                    = Some (registered cfg cr now name password phrase)).
    { rewrite Hw'. unfold lookup_user, user_exists, users_get, users_has in *.
      destruct (nonempty (MONGO_URI cfg)); cbn.
      - apply find_app_absent; [exact Hex|]. cbn. apply String.eqb_refl.
      - rewrite (find_app_absent _ _ (name, _) Hex); [reflexivity|].
        cbn. apply String.eqb_refl. }
    rewrite Hlook. reflexivity.
  - exact (required_again _ _ Hn).
  - intros Huri. rewrite Hw', Huri. cbn. exact (Hup Huri).
Qed.

Lemma verify_password_with_registration_token_witness :
  snd (post_verify_password cfg_memory crypto_jwt bcrypt (Some "Bearer jwt.alice")
         (Some "wrong") (fst (register cfg_memory crypto_jwt 1000 alice world0)))
    = {| m_code := 200; m_body := MSuccess false |}.
Proof.
  assert (Hsp : spaceless (genToken crypto_jwt 1000 "alice")).
  { unfold spaceless. cbn. intros H.
    repeat (destruct H as [H|H]; [discriminate H|]). exact H. }
  assert (Hne : genToken crypto_jwt 1000 "alice" <> "") by discriminate.
  exact (f_equal snd
           (verify_password_with_registration_token cfg_memory crypto_jwt bcrypt 1000
              alice world0 "alice" "pw123" "passphraseA" "wrong"
              eq_refl eq_refl eq_refl eq_refl (fun _ => eq_refl) eq_refl Hsp Hne)).
Defined.

(** ** What each event may write *)

(** The update loop of [priceUpdaterOnce] writes the Prices collection
    only. *)
Lemma for_of_upsert_frame (f : Price -> Price) (data : list Price) (w : World) :
  let w' := fst (for_of data (fun p => Mongoose.Price_findOneAndUpdate (f p)) w) in
  readyState (mongo w') = readyState (mongo w) /\
  Users (mongo w') = Users (mongo w) /\
  Transactions (mongo w') = Transactions (mongo w) /\
  memoryStore w' = memoryStore w /\
  ledgerCalls w' = ledgerCalls w.
Proof.
  destruct (Z.eq_dec (readyState (mongo w)) 1) as [Hup|Hdown].
  - revert w Hup. induction data as [|p r IH]; intros w Hup; cbn.
    + repeat split.
    + unfold bind. rewrite (findOneAndUpdate_connected (f p) w Hup).
      destruct (IH (set_mongo (fun m =>
                  {| readyState := readyState m; Users := Users m;
                     Transactions := Transactions m;
                     Prices := Mongoose.upsert (f p) (Prices m) |}) w) Hup)
        as (H1 & H2 & H3 & H4 & H5).
      repeat split; assumption.
  - cbv zeta. rewrite (for_of_upsert_disconnected f data w Hdown). repeat split.
Qed.

Lemma priceUpdaterOnce_frame (cfg : Config) (reply : FetchReply) (now : Z) (w : World) :
  let w' := fst (priceUpdaterOnce cfg reply now w) in
  readyState (mongo w') = readyState (mongo w) /\
  Users (mongo w') = Users (mongo w) /\
  Transactions (mongo w') = Transactions (mongo w) /\
  users (memoryStore w') = users (memoryStore w) /\
  txs (memoryStore w') = txs (memoryStore w) /\
  ledgerCalls w' = ledgerCalls w /\
  (if nonempty (MONGO_URI cfg) then memoryStore w' = memoryStore w
   else mongo w' = mongo w).
Proof.
  cbv zeta. rewrite priceUpdaterOnce_world.
  destruct (fetchCoinGecko reply now) as [data| |];
    try (destruct (nonempty (MONGO_URI cfg)); repeat split; reflexivity).
  destruct (nonempty (MONGO_URI cfg)).
  - destruct (for_of_upsert_frame (with_updatedAt now) data w)
      as (H1 & H2 & H3 & H4 & H5).
    rewrite H4. repeat split; assumption.
  - repeat split.
Qed.

(** The frame of every event. *)
Lemma step_frame
    (cfg : Config) (sdk : Sdk) (cr : Crypto) (ev : Event) (w : World) :
  let w' := fst (step cfg sdk cr ev w) in
  readyState (mongo w') = readyState (mongo w) /\
  (writes_users ev = false ->
   Users (mongo w') = Users (mongo w) /\
   users (memoryStore w') = users (memoryStore w)) /\
  (writes_txs ev = false ->
   Transactions (mongo w') = Transactions (mongo w) /\
   txs (memoryStore w') = txs (memoryStore w)) /\
  (writes_prices ev = false ->
   Prices (mongo w') = Prices (mongo w) /\
   prices (memoryStore w') = prices (memoryStore w)).
Proof.
  destruct ev; cbn [step fst snd writes_users writes_txs writes_prices].
  - unfold register, Mongoose.User_findOne, Mongoose.User_save. unfold_m.
    repeat (break_match; cbn); repeat split; intros; try discriminate; reflexivity.
  - unfold list_transactions, Mongoose.Transaction_find_sort_limit. unfold_m.
    repeat (break_match; cbn); repeat split; intros; try discriminate; reflexivity.
  - unfold post_transaction, Mongoose.Transaction_create. unfold_m.
    repeat (break_match; cbn); repeat split; intros; try discriminate; reflexivity.
  - unfold token_create. unfold_m.
    repeat (break_match; cbn); repeat split; intros; try discriminate; reflexivity.
  - unfold token_transfer, Mongoose.Transaction_create. unfold_m.
    repeat (break_match; cbn); repeat split; intros; try discriminate; reflexivity.
  - unfold get_prices, Mongoose.Price_find. unfold_m.
    repeat (break_match; cbn); repeat split; intros; try discriminate; reflexivity.
  - destruct (priceUpdaterOnce_frame cfg reply now w) as (H1 & H2 & H3 & H4 & H5 & H6 & _).
    repeat split; intros; try discriminate; assumption.
Qed.

(** The log of calls kept in the world is that of token creation and of
    the transfer: no other event adds to it. *)
Lemma step_log_frame
    (cfg : Config) (sdk : Sdk) (cr : Crypto) (ev : Event) (w : World) :
  match ev with
  | PostTokenCreate _ _ | PostTokenTransfer _ _ _ => True
  | _ => ledgerCalls (fst (step cfg sdk cr ev w)) = ledgerCalls w
  end.
Proof.
  destruct ev; cbn [step fst snd]; try exact I.
  - unfold register, Mongoose.User_findOne, Mongoose.User_save. unfold_m.
    repeat (break_match; cbn); reflexivity.
  - unfold list_transactions, Mongoose.Transaction_find_sort_limit. unfold_m.
    repeat (break_match; cbn); reflexivity.
  - unfold post_transaction, Mongoose.Transaction_create. unfold_m.
    repeat (break_match; cbn); reflexivity.
  - unfold get_prices, Mongoose.Price_find. unfold_m.
    repeat (break_match; cbn); reflexivity.
  - destruct (priceUpdaterOnce_frame cfg reply now w) as (_ & _ & _ & _ & _ & H & _).
    exact H.
Qed.

(** The routes that are not events: login, recovery and the password check
    read the user records and change nothing. *)
Lemma reading_routes_frame
    (cfg : Config) (cr : Crypto) (bc : Bcrypt) (now : Z) (w : World) :
  (forall b, fst (login cfg cr bc now b w) = w) /\
  (forall b, fst (recover cfg cr now b w) = w) /\
  (forall authorization password,
     fst (post_verify_password cfg cr bc authorization password w) = w).
Proof.
  split; [|split].
  - intros b. unfold login, Mongoose.User_findOne. unfold_m.
    repeat (break_match; cbn); reflexivity.
  - intros b. unfold recover, User_findOne_passphrase. unfold_m.
    repeat (break_match; cbn); reflexivity.
  - intros authorization password.
    unfold post_verify_password, verify_password, handler_of, Mongoose.User_findOne.
    unfold_m.
    repeat (break_match; cbn); reflexivity.
Qed.

(** X8. Each store has its own writers.  Of the events (registration, the
    listing, the transaction report, token creation, the transfer, the price
    read and the price timer), only registration changes the user records,
    only the transaction report and the transfer change the Transaction
    records, only the price timer changes the price snapshots, and none
    changes the state of the database connection; login, recovery and the
    password check change nothing at all. *)
Theorem step_writes_its_own_part
    (cfg : Config) (sdk : Sdk) (cr : Crypto) (bc : Bcrypt) (ev : Event) (w : World) :
  let w' := fst (step cfg sdk cr ev w) in
  readyState (mongo w') = readyState (mongo w) /\
  (writes_users ev = false ->
   Users (mongo w') = Users (mongo w) /\
   users (memoryStore w') = users (memoryStore w)) /\
  (writes_txs ev = false ->
   Transactions (mongo w') = Transactions (mongo w) /\
   txs (memoryStore w') = txs (memoryStore w)) /\
  (writes_prices ev = false ->
   Prices (mongo w') = Prices (mongo w) /\
   prices (memoryStore w') = prices (memoryStore w)) /\
  (forall now b, fst (login cfg cr bc now b w) = w) /\
  (forall now b, fst (recover cfg cr now b w) = w) /\
  (forall authorization password,
     fst (post_verify_password cfg cr bc authorization password w) = w).
Proof.
  cbv zeta.
  destruct (step_frame cfg sdk cr ev w) as (H1 & H2 & H3 & H4).
  split; [exact H1|]. split; [exact H2|]. split; [exact H3|]. split; [exact H4|].
  split; [|split].
  - intros now b. exact (proj1 (reading_routes_frame cfg cr bc now w) b).
  - intros now b. exact (proj1 (proj2 (reading_routes_frame cfg cr bc now w)) b).
  - exact (proj2 (proj2 (reading_routes_frame cfg cr bc 0 w))).
Qed.

Lemma step_writes_its_own_part_witness :
  let w' := fst (step cfg_memory sdk_success crypto
                   (PostTokenTransfer bearer 1000 transfer_request) world_cached) in
  users (memoryStore w') = users (memoryStore world_cached) /\
  prices (memoryStore w') = prices (memoryStore world_cached).
Proof.
  destruct (step_writes_its_own_part cfg_memory sdk_success crypto bcrypt
              (PostTokenTransfer bearer 1000 transfer_request) world_cached)
    as (_ & Hu & _ & Hp & _).
  split; [exact (proj2 (Hu eq_refl))|exact (proj2 (Hp eq_refl))].
Defined.

(** X9. The two backends are never mixed: with [MONGO_URI] set no event
    writes [memoryStore], and without it no event writes a mongoose
    collection. *)
Theorem step_keeps_to_one_backend
    (cfg : Config) (sdk : Sdk) (cr : Crypto) (ev : Event) (w : World) :
  let w' := fst (step cfg sdk cr ev w) in
  if nonempty (MONGO_URI cfg) then memoryStore w' = memoryStore w
  else mongo w' = mongo w.
Proof.
  destruct ev; cbn [step fst snd].
  - unfold register, Mongoose.User_findOne, Mongoose.User_save. unfold_m.
    repeat (break_match; cbn); try reflexivity; discriminate.
  - unfold list_transactions, Mongoose.Transaction_find_sort_limit. unfold_m.
    repeat (break_match; cbn); try reflexivity; discriminate.
  - unfold post_transaction, Mongoose.Transaction_create. unfold_m.
    repeat (break_match; cbn); try reflexivity; discriminate.
  - unfold token_create. unfold_m.
    repeat (break_match; cbn); try reflexivity; discriminate.
  - unfold token_transfer, Mongoose.Transaction_create. unfold_m.
    repeat (break_match; cbn); try reflexivity; discriminate.
  - unfold get_prices, Mongoose.Price_find. unfold_m.
    repeat (break_match; cbn); try reflexivity; discriminate.
  - destruct (priceUpdaterOnce_frame cfg reply now w) as (_ & _ & _ & _ & _ & _ & H).
    exact H.
Qed.

(** ** Records are only ever added *)

(** A registration leaves the world as it is, or adds one user under a name
    that was free. *)
Lemma register_world
    (cfg : Config) (cr : Crypto) (now : Z) (b : RegisterBody) (w : World) :
  fst (register cfg cr now b w) = w \/
  exists name password phrase,
    user_exists cfg name w = false /\
    register cfg cr now b w =
      ((if nonempty (MONGO_URI cfg) then
          set_mongo (fun m =>
            {| readyState := readyState m;
               Users := Users m ++ [registered cfg cr now name password phrase];
               Transactions := Transactions m; Prices := Prices m |}) w
        else
          set_memory (fun m =>
            {| users := users m ++ [(name, registered cfg cr now name password phrase)];
               txs := txs m; prices := prices m |}) w),
       res_json (BToken (genToken cr now name))).
Proof.
  destruct (required (reg_username b)) as [name|] eqn:Hn.
  2:{ left. unfold register. unfold_m. rewrite Hn. reflexivity. }
  destruct (required (reg_password b)) as [password|] eqn:Hp.
  2:{ left. unfold register. unfold_m. rewrite Hn, Hp. reflexivity. }
  destruct (required (reg_passphrase b)) as [phrase|] eqn:Hph.
  2:{ left. unfold register. unfold_m. rewrite Hn, Hp, Hph. reflexivity. }
  destruct (user_exists cfg name w) eqn:Hex.
  - left. unfold register, user_exists, Mongoose.User_findOne in *. unfold_m.
    rewrite Hn, Hp, Hph.
    destruct (nonempty (MONGO_URI cfg)).
    + destruct (readyState (mongo w) =? 1); cbn; [|reflexivity].
      destruct (find_existsb_username name _ Hex) as [u ->]. reflexivity.
    + cbn. rewrite Hex. reflexivity.
  - destruct (nonempty (MONGO_URI cfg)) eqn:Huri.
    + destruct (Z.eq_dec (readyState (mongo w)) 1) as [Hup|Hdown].
      * right. exists name, password, phrase. split; [exact Hex|].
        rewrite (register_new_equation cfg cr now b w name password phrase Hn Hp Hph Hex
                   (fun _ => Hup)).
        rewrite Huri. reflexivity.
      * left. unfold register, Mongoose.User_findOne. unfold_m.
        rewrite Hn, Hp, Hph, Huri.
        destruct (Z.eqb_spec (readyState (mongo w)) 1); [contradiction|reflexivity].
    + right. exists name, password, phrase. split; [exact Hex|].
      rewrite (register_new_equation cfg cr now b w name password phrase Hn Hp Hph Hex).
      * rewrite Huri. reflexivity.
      * rewrite Huri. discriminate.
Qed.

Lemma is_prefix_refl {A : Type} (l : list A) : is_prefix l l.
Proof. exists []. rewrite app_nil_r. reflexivity. Qed.

Lemma is_prefix_trans {A : Type} (l1 l2 l3 : list A) :
  is_prefix l1 l2 -> is_prefix l2 l3 -> is_prefix l1 l3.
Proof.
  intros [r1 ->] [r2 ->]. exists (r1 ++ r2)%list. rewrite app_assoc. reflexivity.
Qed.

Lemma is_prefix_app {A : Type} (l r : list A) : is_prefix l (l ++ r).
Proof. exists r. reflexivity. Qed.

(** One event: the user records, the Transaction records and the log of
    ledger calls keep what they had. *)
Lemma step_append_only (cfg : Config) (sdk : Sdk) (cr : Crypto) (ev : Event) (w : World) :
  let w' := fst (step cfg sdk cr ev w) in
  is_prefix (Users (mongo w)) (Users (mongo w')) /\
  is_prefix (users (memoryStore w)) (users (memoryStore w')) /\
  is_prefix (Transactions (mongo w)) (Transactions (mongo w')) /\
  (exists new : list Tx, txs (memoryStore w') = (new ++ txs (memoryStore w))%list) /\
  is_prefix (ledgerCalls w) (ledgerCalls w').
Proof.
  cbv zeta.
  pose proof (step_frame cfg sdk cr ev w) as (_ & Hu & Ht & _).
  pose proof (step_log_frame cfg sdk cr ev w) as Hl.
  split; [|split; [|split; [|split]]].
  - destruct ev; try (rewrite (proj1 (Hu eq_refl)); apply is_prefix_refl).
    cbn [step fst snd].
    destruct (register_world cfg cr now b w) as [->|(n & p & ph & _ & ->)];
      [apply is_prefix_refl|].
    destruct (nonempty (MONGO_URI cfg)); cbn;
      [apply is_prefix_app|apply is_prefix_refl].
  - destruct ev; try (rewrite (proj2 (Hu eq_refl)); apply is_prefix_refl).
    cbn [step fst snd].
    destruct (register_world cfg cr now b w) as [->|(n & p & ph & _ & ->)];
      [apply is_prefix_refl|].
    destruct (nonempty (MONGO_URI cfg)); cbn;
      [apply is_prefix_refl|apply is_prefix_app].
  - destruct ev; try (rewrite (proj1 (Ht eq_refl)); apply is_prefix_refl);
      cbn [step fst snd]; clear Hu Ht Hl.
    + unfold post_transaction, Mongoose.Transaction_create. unfold_m.
      repeat (break_match; cbn);
        first [apply is_prefix_refl | apply is_prefix_app].
    + unfold token_transfer, Mongoose.Transaction_create. unfold_m.
      repeat (break_match; cbn);
        first [apply is_prefix_refl | apply is_prefix_app].
  - apply step_unshifts.
  - destruct ev; try (rewrite Hl; apply is_prefix_refl);
      cbn [step fst snd]; clear Hu Ht Hl.
    + unfold token_create. unfold_m.
      repeat (break_match; cbn); rewrite <- ?app_assoc;
        first [apply is_prefix_refl | apply is_prefix_app].
    + unfold token_transfer, Mongoose.Transaction_create. unfold_m.
      repeat (break_match; cbn); rewrite <- ?app_assoc;
        first [apply is_prefix_refl | apply is_prefix_app].
Qed.

(** X10. No sequence of events alters or removes a record: after any run,
    the user records of both backends, the Transactions collection and the
    log of ledger calls begin with what they held before, and
    [memoryStore.txs] ends with what it held before. *)
Theorem run_append_only
    (cfg : Config) (sdk : Sdk) (cr : Crypto) (evs : list Event) (w : World) :
  let w' := run cfg sdk cr evs w in
  is_prefix (Users (mongo w)) (Users (mongo w')) /\
  is_prefix (users (memoryStore w)) (users (memoryStore w')) /\
  is_prefix (Transactions (mongo w)) (Transactions (mongo w')) /\
  (exists new : list Tx, txs (memoryStore w') = (new ++ txs (memoryStore w))%list) /\
  is_prefix (ledgerCalls w) (ledgerCalls w').
Proof.
  cbv zeta. revert w. induction evs as [|ev r IH]; intros w; cbn [run].
  - repeat split; try apply is_prefix_refl. exists []. reflexivity.
  - destruct (step_append_only cfg sdk cr ev w) as (H1 & H2 & H3 & [n4 H4] & H5).
    destruct (IH (fst (step cfg sdk cr ev w))) as (I1 & I2 & I3 & [m4 I4] & I5).
    repeat split; try (eapply is_prefix_trans; eassumption).
    exists (m4 ++ n4)%list. rewrite I4, H4, app_assoc. reflexivity.
Qed.

(** ** User names stay unique *)

Lemma existsb_false_not_in {A : Type} (g : A -> string) (name : string) (l : list A) :
  existsb (fun a => String.eqb (g a) name) l = false -> ~ In name (map g l).
Proof.
  induction l as [|h r IH]; cbn; [intros _ []|].
  destruct (String.eqb_spec (g h) name) as [Heq|Hne]; cbn; [discriminate|].
  intros H [Hh|Hr]; [exact (Hne Hh)|exact (IH H Hr)].
Qed.

Lemma NoDup_app_last {A : Type} (l : list A) (x : A) :
  NoDup l -> ~ In x l -> NoDup (l ++ [x]).
Proof.
  induction l as [|h r IH]; cbn; intros Hnd Hnot.
  - constructor; [intros []|constructor].
  - inversion Hnd as [|? ? Hh Hr]; subst. constructor.
    + rewrite in_app_iff. intros [H|[H|[]]]; [exact (Hh H)|].
      apply Hnot. left. symmetry. exact H.
    + apply IH; [exact Hr|]. intros H. apply Hnot. right. exact H.
Qed.

Lemma step_usernames_unique
    (cfg : Config) (sdk : Sdk) (cr : Crypto) (ev : Event) (w : World) :
  usernames_unique w -> usernames_unique (fst (step cfg sdk cr ev w)).
Proof.
  intros (Hd & Hm & Hk).
  pose proof (step_frame cfg sdk cr ev w) as (_ & Hu & _).
  destruct ev; try (unfold usernames_unique;
                    rewrite (proj1 (Hu eq_refl)), (proj2 (Hu eq_refl));
                    repeat split; assumption).
  clear Hu. cbn [step fst snd].
  destruct (register_world cfg cr now b w) as [->|(n & p & ph & Hex & ->)];
    [repeat split; assumption|].
  unfold usernames_unique, user_exists, users_has in *.
  destruct (nonempty (MONGO_URI cfg)); cbn.
  - split; [|split; assumption].
    rewrite map_app. cbn. apply NoDup_app_last; [exact Hd|].
    exact (existsb_false_not_in username n _ Hex).
  - split; [exact Hd|]. split.
    + rewrite map_app. cbn. apply NoDup_app_last; [exact Hm|].
      exact (existsb_false_not_in fst n _ Hex).
    + apply Forall_app. split; [exact Hk|]. constructor; [reflexivity|constructor].
Qed.

(** X11. User names are unique, and stay so: from a world in which no two
    users of a backend share a name (and every entry of [memoryStore.users]
    is filed under its user's name), any run of events leads to such a
    world. *)
Theorem run_usernames_unique
    (cfg : Config) (sdk : Sdk) (cr : Crypto) (evs : list Event) (w : World) :
  usernames_unique w -> usernames_unique (run cfg sdk cr evs w).
Proof.
  revert w. induction evs as [|ev r IH]; intros w Hw; cbn [run]; [exact Hw|].
  apply IH. apply step_usernames_unique. exact Hw.
Qed.

Lemma run_usernames_unique_witness :
  usernames_unique
    (run cfg_memory sdk_success crypto
       [PostRegister 1000 alice; PostRegister 2000 bob; PostRegister 3000 alice] world0).
Proof.
  apply (run_usernames_unique cfg_memory sdk_success crypto _ world0).
  repeat split; constructor.
Defined.

(** ** Transaction history *)

Lemma integer_part_pos_num (q : Q) : 1 <= integer_part q -> 0 <= Qnum q.
Proof.
  unfold integer_part. intros H.
  destruct (Z.lt_ge_cases (Qnum q) 0) as [Hneg|Hpos]; [|exact Hpos].
  assert (Z.quot (Qnum q) (Z.pos (Qden q)) <= 0).
  { rewrite <- (Z.opp_involutive (Qnum q)), Z.quot_opp_l by discriminate.
    assert (0 <= Z.quot (- Qnum q) (Z.pos (Qden q))) by (apply Z.quot_pos; lia).
    lia. }
  lia.
Qed.

Lemma firstn_head {A : Type} (k : Z) (x : A) (l : list A) :
  1 <= k -> exists rest, firstn (Z.to_nat k) (x :: l) = x :: rest.
Proof.
  intros Hk. destruct (Z.to_nat k) as [|n] eqn:Hn; [lia|].
  cbn. eexists. reflexivity.
Qed.

Lemma insert_desc_newest (t : Tx) (l : list Tx) :
  (forall h, In h l ->
     Mongoose.createdAt_leb (tx_createdAt t) (tx_createdAt h) = false) ->
  Mongoose.insert_desc t l = t :: l.
Proof.
  destruct l as [|h r]; cbn; [reflexivity|].
  intros H. rewrite (H h (or_introl eq_refl)). reflexivity.
Qed.

(** The memory listing for an account whose newest record is [doc]. *)
Lemma list_head_memory
    (cfg : Config) (a : string) (limit : option string) (lim : Q) (w : World)
    (doc : Tx) (old : list Tx) :
  nonempty (MONGO_URI cfg) = false ->
  query_limit limit = Finite lim -> 1 <= integer_part lim ->
  txs (memoryStore w) = doc :: old ->
  tx_accountId doc = Some a ->
  exists rest,
    snd (list_transactions cfg a limit w) = res_json (BTransactions a (doc :: rest)).
Proof.
  intros Huri Hlim Hk Htxs Hacc.
  unfold list_transactions. unfold_m. rewrite Huri, Hlim, Htxs. cbn.
  unfold Mongoose.accountId_is at 1. rewrite Hacc, String.eqb_refl.
  rewrite (slice0_nonneg _ lim (integer_part_pos_num lim Hk)).
  destruct (firstn_head (integer_part lim) doc
              (filter (Mongoose.accountId_is a) old) Hk) as [rest ->].
  exists rest. reflexivity.
Qed.

(** The durable listing for an account whose newest document, later than
    all its others, is [doc]. *)
Lemma list_head_durable
    (cfg : Config) (a : string) (limit : option string) (lim : Q) (w : World)
    (doc : Tx) (old : list Tx) (now : Z) :
  nonempty (MONGO_URI cfg) = true -> readyState (mongo w) = 1 ->
  query_limit limit = Finite lim -> integral lim = true -> 1 <= integer_part lim ->
  Transactions (mongo w) = (old ++ [doc])%list ->
  tx_accountId doc = Some a -> tx_createdAt doc = Some now ->
  all_older a now old ->
  exists rest,
    snd (list_transactions cfg a limit w) = res_json (BTransactions a (doc :: rest)).
Proof.
  intros Huri Hup Hlim Hint Hk Htxs Hacc Hat Hold.
  assert (Hdoc : Mongoose.accountId_is a doc = true).
  { unfold Mongoose.accountId_is. rewrite Hacc. apply String.eqb_refl. }
  assert (Hsort : Mongoose.sort_desc (filter (Mongoose.accountId_is a) (old ++ [doc]))
                  = doc :: Mongoose.sort_desc (filter (Mongoose.accountId_is a) old)).
  { rewrite filter_app. cbn [filter]. rewrite Hdoc.
    unfold Mongoose.sort_desc. rewrite fold_left_app. cbn [fold_left].
    apply insert_desc_newest.
    intros h Hh. rewrite Hat.
    apply (proj2 (sort_desc_sorted _)) in Hh. apply filter_In in Hh.
    unfold all_older in Hold. rewrite Forall_forall in Hold.
    exact (Hold h (proj1 Hh) (proj2 Hh)). }
  assert (Hlimit : exists rest,
            Mongoose.limit (Finite lim)
              (Mongoose.sort_desc (filter (Mongoose.accountId_is a) (old ++ [doc])))
            = Ok (doc :: rest)).
  { rewrite Hsort. unfold Mongoose.limit. rewrite Hint.
    destruct (Z.eqb_spec (integer_part lim) 0) as [Hz|_]; [lia|].
    rewrite Z.abs_eq by lia.
    destruct (firstn_head (integer_part lim) doc
                (Mongoose.sort_desc (filter (Mongoose.accountId_is a) old)) Hk)
      as [rest ->].
    exists rest. reflexivity. }
  destruct Hlimit as [rest Hrest]. exists rest.
  unfold list_transactions, Mongoose.Transaction_find_sort_limit. unfold_m.
  rewrite Huri, Hlim, Hup. cbn -[Mongoose.limit Mongoose.sort_desc filter].
  rewrite Htxs, Hrest. reflexivity.
Qed.

(** The schema cast of a record whose amount casts. *)
Lemma cast_tx_ok (t : Tx) (amount : JsValue) :
  Mongoose.cast_number (tx_amount t) = Ok amount ->
  Mongoose.cast_tx t = Ok (with_amount amount t).
Proof. intros H. unfold Mongoose.cast_tx. rewrite H. reflexivity. Qed.

(** The report handler on the durable backend, the store connected. *)
Lemma post_transaction_durable
    (cfg : Config) (now : Z) (b : TxBody) (w : World) :
  nonempty (MONGO_URI cfg) = true ->
  post_transaction cfg now b w =
    match Mongoose.cast_number (txb_amount b) with
    | Throw _ => (w, res_status 500 (BError "Server error"))
    | Ok amount =>
        if readyState (mongo w) =? 1 then
          (set_mongo (fun m =>
             {| readyState := readyState m; Users := Users m;
                Transactions := Transactions m ++ [with_amount amount (reported now b)];
                Prices := Prices m |}) w,
           res_json (BTx (with_amount amount (reported now b))))
        else (w, res_status 500 (BError "Server error"))
    end.
Proof.
  intros Huri.
  unfold post_transaction, Mongoose.Transaction_create, Mongoose.cast_tx. unfold_m.
  rewrite Huri. cbn [tx_amount].
  destruct (Mongoose.cast_number (txb_amount b)); cbn; [|reflexivity].
  destruct (readyState (mongo w) =? 1); reflexivity.
Qed.

(** X12. A transaction report is the first record of the account's history
    afterwards: after [POST /api/transactions] for account [a], the listing
    for [a] with a limit of at least one starts with the record that was
    stored.  This holds on the memory backend always, the amount being kept
    as it was sent, and on the durable backend (the store connected, the
    limit an integer below 2^31) when the account's other documents are older
    than the report and the amount casts to the Number of the schema, which
    is then the amount of the record.  A report whose amount does not cast is
    answered 500 on the durable backend, and nothing is stored. *)
Theorem post_transaction_then_listed_first
    (cfg : Config) (now : Z) (b : TxBody) (w : World) (a : string)
    (limit : option string) (lim : Q) :
  txb_accountId b = Some a ->
  query_limit limit = Finite lim -> 1 <= integer_part lim ->
  (nonempty (MONGO_URI cfg) = true ->
   forall e, Mongoose.cast_number (txb_amount b) = Throw e ->
     post_transaction cfg now b w = (w, res_status 500 (BError "Server error"))) /\
  ((if nonempty (MONGO_URI cfg)
    then readyState (mongo w) = 1 /\ integral lim = true /\ integer_part lim < 2 ^ 31 /\
         all_older a now (Transactions (mongo w)) /\
         exists amount, Mongoose.cast_number (txb_amount b) = Ok amount
    else True) ->
   exists posted rest,
     snd (post_transaction cfg now b w) = res_json (BTx posted) /\
     tx_accountId posted = Some a /\ tx_createdAt posted = Some now /\
     (if nonempty (MONGO_URI cfg)
      then Mongoose.cast_number (txb_amount b) = Ok (tx_amount posted)
      else tx_amount posted = txb_amount b) /\
     snd (list_transactions cfg a limit (fst (post_transaction cfg now b w)))
       = res_json (BTransactions a (posted :: rest))).
Proof.
  intros Hacc Hlim Hk. split.
  { intros Huri e He. rewrite (post_transaction_durable cfg now b w Huri), He.
    reflexivity. }
  intros Hback.
  destruct (nonempty (MONGO_URI cfg)) eqn:Huri.
  - destruct Hback as (Hup & Hint & _ & Hold & amount & Hcast).
    rewrite (post_transaction_durable cfg now b w Huri), Hcast, Hup.
    cbn [Z.eqb Pos.eqb fst snd].
    exists (with_amount amount (reported now b)).
    destruct (list_head_durable cfg a limit lim
                (set_mongo (fun m =>
                   {| readyState := readyState m; Users := Users m;
                      Transactions :=
                        Transactions m ++ [with_amount amount (reported now b)];
                      Prices := Prices m |}) w)
                _ (Transactions (mongo w)) now Huri Hup Hlim Hint Hk eq_refl Hacc eq_refl Hold)
      as [rest Hrest].
    exists rest. split; [reflexivity|]. split; [exact Hacc|]. split; [reflexivity|].
    split; [reflexivity|exact Hrest].
  - assert (Hpost : post_transaction cfg now b w =
      (set_memory (txs_unshift (reported now b)) w, res_json (BTx (reported now b)))).
    { unfold post_transaction. unfold_m. rewrite Huri. reflexivity. }
    rewrite Hpost. cbn [fst snd].
    exists (reported now b).
    destruct (list_head_memory cfg a limit lim
                (set_memory (txs_unshift (reported now b)) w)
                _ (txs (memoryStore w)) Huri Hlim Hk eq_refl Hacc)
      as [rest Hrest].
    exists rest. split; [reflexivity|]. split; [exact Hacc|]. split; [reflexivity|].
    split; [reflexivity|exact Hrest].
Qed.

Lemma post_transaction_then_listed_first_witness :
  (exists rest,
     snd (list_transactions cfg_durable "0.0.1" None
            (fst (post_transaction cfg_durable 4000 (report "tx4")
                    world_three_reports_durable)))
       = res_json (BTransactions "0.0.1" (tx_of "0.0.1" "tx4" (Some 4000) :: rest))) /\
  post_transaction cfg_durable 5000
    {| txb_accountId := Some "0.0.1"; txb_type := Some "TRANSFER";
       txb_tokenId := Some "0.0.100"; txb_amount := VString "abc";
       txb_status := Some "SUCCESS"; txb_transactionId := Some "tx5";
       txb_metadata := VUndefined |} world_three_reports_durable
    = (world_three_reports_durable, res_status 500 (BError "Server error")).
Proof.
  split.
  - destruct (proj2 (post_transaction_then_listed_first cfg_durable 4000 (report "tx4")
                       world_three_reports_durable "0.0.1" None (inject_Z 50)
                       eq_refl eq_refl ltac:(cbn; lia)))
      as (posted & rest & Hp & _ & _ & _ & Hl).
    + cbn. repeat split; try lia.
      * repeat constructor.
      * eexists. reflexivity.
    + exists rest. injection Hp as <-. exact Hl.
  - exact (proj1 (post_transaction_then_listed_first cfg_durable 5000
                    {| txb_accountId := Some "0.0.1"; txb_type := Some "TRANSFER";
                       txb_tokenId := Some "0.0.100"; txb_amount := VString "abc";
                       txb_status := Some "SUCCESS"; txb_transactionId := Some "tx5";
                       txb_metadata := VUndefined |}
                    world_three_reports_durable "0.0.1" None (inject_Z 50)
                    eq_refl eq_refl ltac:(cbn; lia))
             eq_refl _ eq_refl).
Defined.

(** X13. Listing transactions never changes the world, whatever the limit
    and the state of the store.  On the memory backend a limit that is not
    a number ([?limit=abc]) lists nothing: it is answered 200 with an empty
    list, not with the default of 50. *)
Theorem list_transactions_reads_only
    (cfg : Config) (a : string) (limit : option string) (w : World) :
  fst (list_transactions cfg a limit w) = w /\
  (nonempty (MONGO_URI cfg) = false -> query_limit limit = NaN ->
   snd (list_transactions cfg a limit w) = res_json (BTransactions a [])).
Proof.
  unfold list_transactions, Mongoose.Transaction_find_sort_limit. unfold_m.
  destruct (nonempty (MONGO_URI cfg)).
  - split; [|discriminate].
    repeat (break_match; cbn); reflexivity.
  - cbn. split; [reflexivity|]. intros _ ->.
    unfold slice0. cbn [to_integer_or_infinity]. cbn [Z.ltb Z.compare].
    rewrite Z.min_l by lia. reflexivity.
Qed.

Lemma list_transactions_reads_only_witness :
  list_transactions cfg_memory "0.0.1" (Some "abc") world_three_reports
    = (world_three_reports, res_json (BTransactions "0.0.1" [])).
Proof.
  destruct (list_transactions_reads_only cfg_memory "0.0.1" (Some "abc")
              world_three_reports) as [Hw Hr].
  rewrite (surjective_pairing (list_transactions _ _ _ _)), Hw, (Hr eq_refl eq_refl).
  reflexivity.
Defined.

(** ** The transfer, step by step *)

Lemma logged_logged (a b : list LedgerCall) (w : World) :
  logged b (logged a w) = logged (a ++ b) w.
Proof. unfold logged. cbn. rewrite app_assoc. reflexivity. Qed.

(** *** An amount that [BigInt] takes casts to a Number *)

Lemma span_digits_all (l : list ascii) (acc z : Z) :
  digits_from 10 acc l = Some z -> span_digits l = (l, []).
Proof.
  revert acc. induction l as [|c r IH]; intros acc; cbn [digits_from span_digits];
    [reflexivity|].
  destruct (digit_of 10 c); [|discriminate].
  intros H. rewrite (IH _ H). reflexivity.
Qed.

Lemma nearest_double_number (n : Z) (d : positive) : nearest_double n d <> NaN.
Proof.
  unfold nearest_double. cbv zeta.
  destruct (0 <=? _); [|discriminate].
  destruct (2 ^ 1024 <=? _); discriminate.
Qed.

Lemma to_double_number (q : Q) : to_double q <> NaN.
Proof.
  unfold to_double. destruct (Qnum q) as [|p|p].
  - discriminate.
  - apply nearest_double_number.
  - pose proof (nearest_double_number (Z.pos p) (Qden q)) as H.
    destruct (nearest_double (Z.pos p) (Qden q)); cbn; congruence.
Qed.

Lemma digits_unsigned_decimal (r : list ascii) (z : Z) :
  digits 10 r = Some z ->
  exists n, unsigned_decimal r = Some n /\ n <> NaN.
Proof.
  unfold digits, unsigned_decimal. destruct r as [|c r']; [discriminate|]. intros H.
  destruct (ascii_list_eqb (c :: r') infinity_text);
    [eexists; split; [reflexivity|discriminate]|].
  rewrite (span_digits_all _ _ _ H). cbv beta iota.
  rewrite app_nil_r, H. cbn [exponent].
  eexists. split; [reflexivity|apply to_double_number].
Qed.

Lemma bigint_string_is_number (s : string) (z : Z) :
  string_to_bigint s = Some z -> string_to_number s <> NaN.
Proof.
  unfold string_to_bigint, string_to_number.
  destruct (trim (list_ascii_of_string s)) as [|c l]; [intros _; discriminate|].
  destruct (non_decimal (c :: l)) as [[z'|]|];
    [intros _; apply to_double_number|discriminate|].
  destruct (split_sign (c :: l)) as [neg r].
  destruct (digits 10 r) as [z'|] eqn:Ed; [|discriminate]. intros _.
  destruct (digits_unsigned_decimal r z' Ed) as (n & -> & Hn).
  destruct neg; [|exact Hn]. destruct n; cbn; congruence.
Qed.

Lemma BigInt_castable (v : JsValue) (a : Z) :
  BigInt v = Ok a -> exists amount, Mongoose.cast_number v = Ok amount.
Proof.
  destruct v as [| |b0|n|s]; cbn [BigInt]; try discriminate.
  - intros _. eexists. reflexivity.
  - destruct n; try discriminate. intros _. eexists. reflexivity.
  - destruct (string_to_bigint s) eqn:E; [|discriminate]. intros _.
    unfold Mongoose.cast_number. destruct (String.eqb s ""); [eexists; reflexivity|].
    pose proof (bigint_string_is_number s _ E) as Hn. cbn [Number].
    destruct (string_to_number s); [congruence|eexists; reflexivity..].
Qed.

(** The record of a transfer that could be built passes the schema cast. *)
Lemma transfer_record_casts
    (sdk : Sdk) (tokenId from to : string) (b : TransferBody) (tx : TransferTransaction)
    (st id : string) :
  transferTx sdk tokenId from to (tr_amount b) = Ok tx ->
  exists amount,
    Mongoose.cast_number (tr_amount b) = Ok amount /\
    Mongoose.cast_tx (txDoc b from tokenId st id)
      = Ok (with_amount amount (txDoc b from tokenId st id)).
Proof.
  intros Htx.
  destruct (transferTx_legs sdk tokenId from to (tr_amount b) tx Htx)
    as (_ & _ & _ & a & _ & _ & _ & Ha & _).
  destruct (BigInt_castable (tr_amount b) a Ha) as [amount Hcast].
  exists amount. split; [exact Hcast|].
  apply cast_tx_ok. exact Hcast.
Qed.

(** What a validated and signed transfer does, by the answers of the
    ledger. *)
Lemma token_transfer_equation
    (cfg : Config) (sdk : Sdk) (now : Z) (b : TransferBody) (w : World)
    (tokenId from to key : string) (tx : TransferTransaction) (k : PrivateKey) :
  hederaClient cfg sdk = true ->
  required (tr_tokenId b) = Some tokenId ->
  required (tr_fromAccountId b) = Some from ->
  required (tr_toAccountId b) = Some to ->
  loosely_null (tr_amount b) = false ->
  transferTx sdk tokenId from to (tr_amount b) = Ok tx ->
  required (tr_fromPrivateKey b) = Some key ->
  PrivateKey_fromString sdk key = Ok k ->
  token_transfer cfg sdk now b w =
    match freezeWith_sign sdk tx k with
    | Throw e => (logged [FreezeWith tx] w, transfer_failed e)
    | Ok _ =>
        match execute_transfer sdk tx k with
        | Throw e => (logged [FreezeWith tx; ExecuteTransfer tx k] w, transfer_failed e)
        | Ok resp =>
            let w3 := logged (transfer_calls tx k resp) w in
            match getReceipt sdk resp with
            | Throw e => (w3, transfer_failed e)
            | Ok receipt =>
                let doc := txDoc b from tokenId (status receipt) (transactionId resp) in
                let ok := res_json (BTransfer (transactionId resp) (status receipt)) in
                if nonempty (MONGO_URI cfg) then
                  match Mongoose.cast_tx doc with
                  | Throw e => (w3, transfer_failed e)
                  | Ok cast =>
                      if readyState (mongo w) =? 1 then
                        (set_mongo (fun m =>
                           {| readyState := readyState m; Users := Users m;
                              Transactions :=
                                Transactions m ++ [Mongoose.with_createdAt now cast];
                              Prices := Prices m |}) w3, ok)
                      else (w3, transfer_failed (DbError "not connected"))
                  end
                else (set_memory (txs_unshift doc) w3, ok)
            end
        end
    end.
Proof.
  intros Hc Ht Hf Hto Ha Htx Hk Hpk.
  unfold token_transfer, Mongoose.Transaction_create, transfer_failed, transfer_calls,
    txDoc, logged.
  unfold_m. rewrite Hc, Ht, Hf, Hto, Ha, Htx, Hk, Hpk. cbn.
  destruct (freezeWith_sign sdk tx k); cbn; [|reflexivity].
  destruct (execute_transfer sdk tx k) as [resp|]; cbn;
    [|rewrite <- app_assoc; reflexivity].
  destruct (getReceipt sdk resp) as [receipt|]; cbn;
    [|rewrite <- !app_assoc; reflexivity].
  destruct (nonempty (MONGO_URI cfg)); cbn.
  - destruct (Mongoose.cast_tx _); cbn; [|rewrite <- !app_assoc; reflexivity].
    destruct (readyState (mongo w) =? 1); cbn; rewrite <- !app_assoc; reflexivity.
  - rewrite <- !app_assoc. reflexivity.
Qed.

(** X14. A validated and signed transfer that the ledger accepts and
    confirms (the durable store being connected when it is the one in use) is
    answered 200 with the transaction id of the submission and the status of
    the receipt, after exactly three calls through the client, in this
    order: freeze and sign, execute, get the receipt. *)
Theorem transfer_success_answer
    (cfg : Config) (sdk : Sdk) (now : Z) (b : TransferBody) (w : World)
    (tokenId from to key : string) (tx : TransferTransaction) (k : PrivateKey)
    (resp : TransactionResponse) (receipt : TransactionReceipt) :
  hederaClient cfg sdk = true ->
  required (tr_tokenId b) = Some tokenId ->
  required (tr_fromAccountId b) = Some from ->
  required (tr_toAccountId b) = Some to ->
  loosely_null (tr_amount b) = false ->
  transferTx sdk tokenId from to (tr_amount b) = Ok tx ->
  required (tr_fromPrivateKey b) = Some key ->
  PrivateKey_fromString sdk key = Ok k ->
  freezeWith_sign sdk tx k = Ok tt ->
  execute_transfer sdk tx k = Ok resp ->
  getReceipt sdk resp = Ok receipt ->
  (nonempty (MONGO_URI cfg) = true -> readyState (mongo w) = 1) ->
  snd (token_transfer cfg sdk now b w)
    = res_json (BTransfer (transactionId resp) (status receipt)) /\
  ledgerCalls (fst (token_transfer cfg sdk now b w))
    = (ledgerCalls w ++ transfer_calls tx k resp)%list.
Proof.
  intros Hc Ht Hf Hto Ha Htx Hk Hpk Hfz Hex Hre Hup.
  rewrite (token_transfer_equation cfg sdk now b w tokenId from to key tx k
             Hc Ht Hf Hto Ha Htx Hk Hpk).
  rewrite Hfz, Hex. cbv zeta. rewrite Hre.
  destruct (nonempty (MONGO_URI cfg)).
  - destruct (transfer_record_casts sdk tokenId from to b tx (status receipt)
                (transactionId resp) Htx) as (amount & _ & ->).
    rewrite (Hup eq_refl). cbn. split; reflexivity.
  - cbn. split; reflexivity.
Qed.

Lemma transfer_success_answer_witness :
  snd (token_transfer cfg_durable sdk_success 1000 transfer_request world0)
    = res_json (BTransfer "0.0.1@123" "SUCCESS") /\
  List.length
    (ledgerCalls (fst (token_transfer cfg_durable sdk_success 1000 transfer_request world0)))
    = 3%nat.
Proof.
  destruct (transfer_success_answer cfg_durable sdk_success 1000 transfer_request world0
              "0.0.100" "0.0.1" "0.0.2" "key" _ (PrivKey "key")
              {| transactionId := "0.0.1@123" |}
              {| status := "SUCCESS"; tokenId := Some "0.0.100" |}
              eq_refl eq_refl eq_refl eq_refl eq_refl eq_refl eq_refl eq_refl
              eq_refl eq_refl eq_refl (fun _ => eq_refl)) as [Hr Hl].
  split; [exact Hr|]. rewrite Hl. reflexivity.
Defined.

(** X15. A transfer that went through heads the sender's history: under
    the conditions of a successful transfer, the listing for the sending
    account with a limit of at least one starts with the record of the
    transfer, carrying the status of the receipt and the transaction id; on
    the durable backend provided the limit is an integer below 2^31 and the
    sender's other documents are older.  The amount of the record is the
    amount as it was sent on the memory backend, and what the schema's Number
    cast makes of it on the durable backend. *)
Theorem transfer_then_listed_first
    (cfg : Config) (sdk : Sdk) (now : Z) (b : TransferBody) (w : World)
    (tokenId from to key : string) (tx : TransferTransaction) (k : PrivateKey)
    (resp : TransactionResponse) (receipt : TransactionReceipt)
    (limit : option string) (lim : Q) :
  hederaClient cfg sdk = true ->
  required (tr_tokenId b) = Some tokenId ->
  required (tr_fromAccountId b) = Some from ->
  required (tr_toAccountId b) = Some to ->
  loosely_null (tr_amount b) = false ->
  transferTx sdk tokenId from to (tr_amount b) = Ok tx ->
  required (tr_fromPrivateKey b) = Some key ->
  PrivateKey_fromString sdk key = Ok k ->
  freezeWith_sign sdk tx k = Ok tt ->
  execute_transfer sdk tx k = Ok resp ->
  getReceipt sdk resp = Ok receipt ->
  query_limit limit = Finite lim -> 1 <= integer_part lim ->
  (if nonempty (MONGO_URI cfg)
   then readyState (mongo w) = 1 /\ integral lim = true /\ integer_part lim < 2 ^ 31 /\
        all_older from now (Transactions (mongo w))
   else True) ->
  exists record rest,
    snd (list_transactions cfg from limit (fst (token_transfer cfg sdk now b w)))
      = res_json (BTransactions from (record :: rest)) /\
    tx_type record = Some "TRANSFER" /\
    tx_status record = Some (status receipt) /\
    tx_transactionId record = Some (transactionId resp) /\
    (if nonempty (MONGO_URI cfg)
     then Mongoose.cast_number (tr_amount b) = Ok (tx_amount record)
     else tx_amount record = tr_amount b).
Proof.
  intros Hc Ht Hf Hto Ha Htx Hk Hpk Hfz Hex Hre Hlim Hone Hback.
  rewrite (token_transfer_equation cfg sdk now b w tokenId from to key tx k
             Hc Ht Hf Hto Ha Htx Hk Hpk).
  rewrite Hfz, Hex. cbv zeta. rewrite Hre.
  destruct (nonempty (MONGO_URI cfg)) eqn:Huri.
  - destruct Hback as (Hup & Hint & _ & Hold).
    destruct (transfer_record_casts sdk tokenId from to b tx (status receipt)
                (transactionId resp) Htx) as (amount & Hcast & ->).
    rewrite Hup. cbn [Z.eqb Pos.eqb fst].
    eexists.
    destruct (list_head_durable cfg from limit lim
                (set_mongo (fun m =>
                   {| readyState := readyState m; Users := Users m;
                      Transactions := Transactions m ++
                        [Mongoose.with_createdAt now
                           (with_amount amount
                              (txDoc b from tokenId (status receipt) (transactionId resp)))];
                      Prices := Prices m |})
                   (logged (transfer_calls tx k resp) w))
                _ (Transactions (mongo w)) now Huri Hup Hlim Hint Hone
                eq_refl eq_refl eq_refl Hold) as [rest Hrest].
    exists rest. split; [exact Hrest|]. repeat split. exact Hcast.
  - cbn [fst]. eexists.
    destruct (list_head_memory cfg from limit lim
                (set_memory
                   (txs_unshift (txDoc b from tokenId (status receipt) (transactionId resp)))
                   (logged (transfer_calls tx k resp) w))
                _ (txs (memoryStore w)) Huri Hlim Hone eq_refl eq_refl) as [rest Hrest].
    exists rest. split; [exact Hrest|]. repeat split.
Qed.

Lemma transfer_then_listed_first_witness :
  exists rest,
    snd (list_transactions cfg_memory "0.0.1" (Some "50")
           (fst (token_transfer cfg_memory sdk_success 4000 transfer_request
                   world_three_reports)))
      = res_json (BTransactions "0.0.1"
          (txDoc transfer_request "0.0.1" "0.0.100" "SUCCESS" "0.0.1@123" :: rest)).
Proof.
  destruct (transfer_then_listed_first cfg_memory sdk_success 4000 transfer_request
              world_three_reports "0.0.100" "0.0.1" "0.0.2" "key" _ (PrivKey "key")
              {| transactionId := "0.0.1@123" |}
              {| status := "SUCCESS"; tokenId := Some "0.0.100" |}
              (Some "50") (inject_Z 50)
              eq_refl eq_refl eq_refl eq_refl eq_refl eq_refl eq_refl eq_refl
              eq_refl eq_refl eq_refl eq_refl)
    as (record & rest & Hl & _).
  - cbn. lia.
  - exact I.
  - exists rest. rewrite Hl. f_equal. f_equal. f_equal.
    cbn in Hl. injection Hl as <- _. reflexivity.
Defined.

(** X16. When the durable store is not connected, a transfer that the
    ledger accepted and confirmed is still answered 500 "Transfer failed":
    the three ledger calls have been made, and neither store holds a record
    of the transfer. *)
Theorem transfer_storage_failure
    (cfg : Config) (sdk : Sdk) (now : Z) (b : TransferBody) (w : World)
    (tokenId from to key : string) (tx : TransferTransaction) (k : PrivateKey)
    (resp : TransactionResponse) (receipt : TransactionReceipt) :
  hederaClient cfg sdk = true ->
  required (tr_tokenId b) = Some tokenId ->
  required (tr_fromAccountId b) = Some from ->
  required (tr_toAccountId b) = Some to ->
  loosely_null (tr_amount b) = false ->
  transferTx sdk tokenId from to (tr_amount b) = Ok tx ->
  required (tr_fromPrivateKey b) = Some key ->
  PrivateKey_fromString sdk key = Ok k ->
  freezeWith_sign sdk tx k = Ok tt ->
  execute_transfer sdk tx k = Ok resp ->
  getReceipt sdk resp = Ok receipt ->
  nonempty (MONGO_URI cfg) = true -> readyState (mongo w) <> 1 ->
  error_kind (snd (token_transfer cfg sdk now b w)) = Some (500, "Transfer failed") /\
  fst (token_transfer cfg sdk now b w) = logged (transfer_calls tx k resp) w.
Proof.
  intros Hc Ht Hf Hto Ha Htx Hk Hpk Hfz Hex Hre Huri Hdown.
  rewrite (token_transfer_equation cfg sdk now b w tokenId from to key tx k
             Hc Ht Hf Hto Ha Htx Hk Hpk).
  rewrite Hfz, Hex. cbv zeta. rewrite Hre, Huri.
  destruct (transfer_record_casts sdk tokenId from to b tx (status receipt)
              (transactionId resp) Htx) as (amount & _ & ->).
  destruct (Z.eqb_spec (readyState (mongo w)) 1); [contradiction|].
  split; reflexivity.
Qed.

Lemma transfer_storage_failure_witness :
  token_transfer cfg_durable sdk_success 1000 transfer_request world_down
    = (logged (transfer_calls
                 {| tokenTransfers :=
                      [ {| tt_tokenId := TokId 0 0 100; tt_accountId := acct 1;
                           tt_amount := -10 |};
                        {| tt_tokenId := TokId 0 0 100; tt_accountId := acct 2;
                           tt_amount := 10 |} ];
                    transactionMemo := "ArthurDex token transfer" |}
                 (PrivKey "key") {| transactionId := "0.0.1@123" |}) world_down,
       transfer_failed (DbError "not connected")).
Proof.
  destruct (transfer_storage_failure cfg_durable sdk_success 1000 transfer_request
              world_down "0.0.100" "0.0.1" "0.0.2" "key" _ (PrivKey "key")
              {| transactionId := "0.0.1@123" |}
              {| status := "SUCCESS"; tokenId := Some "0.0.100" |}
              eq_refl eq_refl eq_refl eq_refl eq_refl eq_refl eq_refl eq_refl
              eq_refl eq_refl eq_refl eq_refl) as [_ Hw].
  - discriminate.
  - rewrite (surjective_pairing (token_transfer _ _ _ _ _)), Hw. reflexivity.
Defined.

(** X17. Whatever the request, the transfer handler goes through the
    client in a fixed order and stops at the first failure: it makes no
    call, or freezes and signs only, or also executes after the signing
    succeeded, or also asks for the receipt of the response that the
    execution returned.  It never executes an unsigned transfer and never
    asks for a receipt of a transaction that was not accepted. *)
Theorem transfer_calls_in_order
    (cfg : Config) (sdk : Sdk) (now : Z) (b : TransferBody) (w : World) :
  exists new : list LedgerCall,
    ledgerCalls (fst (token_transfer cfg sdk now b w)) = (ledgerCalls w ++ new)%list /\
    (new = [] \/
     exists tx k,
       new = [FreezeWith tx] \/
       (new = [FreezeWith tx; ExecuteTransfer tx k] /\
        freezeWith_sign sdk tx k = Ok tt) \/
       (exists resp,
          new = transfer_calls tx k resp /\
          freezeWith_sign sdk tx k = Ok tt /\
          execute_transfer sdk tx k = Ok resp)).
Proof.
  unfold token_transfer, Mongoose.Transaction_create, transfer_calls. unfold_m.
  repeat (break_match; cbn [fst snd ledgerCalls set_mongo set_memory]);
    repeat match goal with u : unit |- _ => destruct u end;
    try (exists []; split; [rewrite app_nil_r; reflexivity|left; reflexivity]);
    (eexists; split; [rewrite <- ?app_assoc; reflexivity|]);
    right; eexists;
    match goal with key : PrivateKey |- _ => exists key end;
    first [ left; reflexivity
          | right; left; split; [reflexivity|eassumption]
          | right; right; eexists; split; [reflexivity|split; eassumption] ].
Qed.

(** ** Token creation, minting, association *)

(** X18. An explicit [initialSupply: null] is not replaced by the default:
    such a token-create request is never submitted and leaves the world as
    it is, where the same request with [initialSupply] left out would be
    submitted with a supply of 0.  With the client configured, name and
    symbol given and the treasury left out, it is answered 500 "Token
    creation failed". *)
Theorem token_create_null_supply_refused
    (cfg : Config) (sdk : Sdk) (b : TokenCreateBody) (w : World) :
  tc_initialSupply b = VNull ->
  fst (token_create cfg sdk b w) = w /\
  (forall name symbol,
     hederaClient cfg sdk = true ->
     required (tc_name b) = Some name ->
     required (tc_symbol b) = Some symbol ->
     required (tc_treasuryAccountId b) = None ->
     error_kind (snd (token_create cfg sdk b w)) = Some (500, "Token creation failed")).
Proof.
  intros Hnull. split.
  - unfold token_create, tokenCreate. unfold_m. rewrite Hnull. cbn [default_to].
    destruct (hederaClient cfg sdk); cbn; [|reflexivity].
    destruct (required (tc_name b)); [|reflexivity].
    destruct (required (tc_symbol b)); [|reflexivity].
    destruct (match required (tc_treasuryAccountId b) with
              | Some t => AccountId_fromString sdk t
              | None => AccountId_fromString sdk (HEDERA_OPERATOR_ID cfg)
              end); cbn; [|reflexivity].
    destruct (PrivateKey_fromString sdk (HEDERA_OPERATOR_KEY cfg)); reflexivity.
  - intros name symbol Hc Hn Hs Ht.
    destruct (hederaClient_parses cfg sdk Hc) as (op & key & Hop & Hkey).
    unfold token_create, tokenCreate. unfold_m.
    rewrite Hc, Hn, Hs, Ht, Hop, Hkey, Hnull. reflexivity.
Qed.

Lemma token_create_null_supply_refused_witness :
  token_create cfg_memory sdk_success
    {| tc_name := Some "Arthur"; tc_symbol := Some "ART"; tc_decimals := VUndefined;
       tc_initialSupply := VNull; tc_treasuryAccountId := None |} world0
  = (world0,
     res_status 500 (BErrorDetails "Token creation failed"
                       (TypeError "Cannot convert null to a BigInt"))).
Proof.
  destruct (token_create_null_supply_refused cfg_memory sdk_success
              {| tc_name := Some "Arthur"; tc_symbol := Some "ART";
                 tc_decimals := VUndefined; tc_initialSupply := VNull;
                 tc_treasuryAccountId := None |} world0 eq_refl) as [Hw _].
  rewrite (surjective_pairing (token_create _ _ _ _)), Hw. reflexivity.
Defined.

(** X19. With the client configured, a mint request is refused as 400
    "Missing tokenId or amount" exactly when the token id is missing or
    empty, or the amount is [null] or absent; an amount of 0, [false] or
    the empty string passes the check.  A refused request makes no call
    through the client. *)
Theorem token_mint_400_iff
    (cfg : Config) (sdk : Sdk) (hts : SdkHts) (b : MintBody) :
  hederaClient cfg sdk = true ->
  (code (snd (token_mint cfg sdk hts b)) = 400 <->
   required (mt_tokenId b) = None \/ loosely_null (mt_amount b) = true) /\
  (code (snd (token_mint cfg sdk hts b)) = 400 -> fst (token_mint cfg sdk hts b) = []).
Proof.
  intros Hc. unfold token_mint, handler_t, tbind, tlift, tcall, tret. rewrite Hc.
  cbn [negb].
  destruct (required (mt_tokenId b)) as [tokenId|];
    [|split; [split; [left; reflexivity|reflexivity]|reflexivity]].
  destruct (loosely_null (mt_amount b));
    [split; [split; [right; reflexivity|reflexivity]|reflexivity]|].
  assert (Hno : forall P : Prop, Some tokenId = None \/ false = true -> P).
  { intros P [H|H]; discriminate H. }
  destruct (TokenId_fromString sdk tokenId); cbn;
    [|split; [split; [discriminate|apply Hno]|discriminate]].
  destruct (BigInt (mt_amount b)); cbn;
    [|split; [split; [discriminate|apply Hno]|discriminate]].
  destruct (execute_tokenMint hts _); cbn;
    [|split; [split; [discriminate|apply Hno]|discriminate]].
  destruct (getReceipt sdk _); cbn;
    split; try discriminate; split; try discriminate; apply Hno.
Qed.

Lemma token_mint_400_iff_witness :
  code (snd (token_mint cfg_memory sdk_success hts_success
               {| mt_tokenId := Some "0.0.100"; mt_amount := VNumber (of_int 0) |}))
    <> 400 /\
  token_mint cfg_memory sdk_success hts_success
    {| mt_tokenId := Some "0.0.100"; mt_amount := VNull |}
    = ([], res_status 400 (BError "Missing tokenId or amount")).
Proof.
  split.
  - intros H.
    apply (proj1 (proj1 (token_mint_400_iff cfg_memory sdk_success hts_success
                           {| mt_tokenId := Some "0.0.100";
                              mt_amount := VNumber (of_int 0) |} eq_refl))) in H.
    destruct H as [H|H]; discriminate H.
  - reflexivity.
Defined.

(** X20. A mint is answered with success only after the ledger executed it
    and returned a receipt: then exactly two calls were made, the execution
    of a mint of [BigInt(amount)] of the parsed token and the request for
    its receipt, and the answer carries the token id of the request and the
    status of that receipt. *)
Theorem token_mint_success_means_minted
    (cfg : Config) (sdk : Sdk) (hts : SdkHts) (b : MintBody)
    (answered : option string) (st : string) :
  snd (token_mint cfg sdk hts b) = res_json (BTokenCreated answered st) ->
  exists token amount resp receipt,
    required (mt_tokenId b) = answered /\
    TokenId_fromString sdk (match answered with Some t => t | None => "" end) = Ok token /\
    BigInt (mt_amount b) = Ok amount /\
    execute_tokenMint hts {| mint_tokenId := token; mint_amount := amount |} = Ok resp /\
    getReceipt sdk resp = Ok receipt /\
    st = status receipt /\
    fst (token_mint cfg sdk hts b) =
      [ExecuteTokenMint {| mint_tokenId := token; mint_amount := amount |}; ReceiptOf resp].
Proof.
  unfold token_mint, handler_t, tbind, tlift, tcall, tret.
  destruct (hederaClient cfg sdk); cbn [negb]; [|discriminate].
  destruct (required (mt_tokenId b)) as [tokenId|]; [|discriminate].
  destruct (loosely_null (mt_amount b)); [discriminate|].
  destruct (TokenId_fromString sdk tokenId) as [token|] eqn:Etok; cbn; [|discriminate].
  destruct (BigInt (mt_amount b)) as [amount|] eqn:Eamt; cbn; [|discriminate].
  destruct (execute_tokenMint hts _) as [resp|] eqn:Eex; cbn; [|discriminate].
  destruct (getReceipt sdk resp) as [receipt|] eqn:Ere; cbn; [|discriminate].
  intros [= <- <-].
  exists token, amount, resp, receipt. repeat split; assumption.
Qed.

Lemma token_mint_success_means_minted_witness :
  fst (token_mint cfg_memory sdk_success hts_success
         {| mt_tokenId := Some "0.0.100"; mt_amount := VString "25" |})
    = [ExecuteTokenMint {| mint_tokenId := TokId 0 0 100; mint_amount := 25 |};
       ReceiptOf {| transactionId := "0.0.2@2" |}].
Proof.
  destruct (token_mint_success_means_minted cfg_memory sdk_success hts_success
              {| mt_tokenId := Some "0.0.100"; mt_amount := VString "25" |}
              (Some "0.0.100") "SUCCESS" eq_refl)
    as (token & amount & resp & receipt & _ & Ht & Ha & Hx & _ & _ & Hc).
  injection Ht as <-. injection Ha as <-. injection Hx as <-. exact Hc.
Defined.

(** X21. An association is answered with success only when it was signed
    with the key the request supplied for the account, not with the
    operator's: then exactly three calls were made, in order: freeze and
    sign with that key, execute, get the receipt; the transaction
    associates the one token of the request to the account of the
    request. *)
Theorem token_associate_success_signed_by_account
    (cfg : Config) (sdk : Sdk) (hts : SdkHts) (b : AssociateBody)
    (answered : option string) (st : string) :
  snd (token_associate cfg sdk hts b) = res_json (BTokenCreated answered st) ->
  exists accountId accountPrivateKey tokenId acctKey acctId token resp receipt,
    required (as_accountId b) = Some accountId /\
    required (as_accountPrivateKey b) = Some accountPrivateKey /\
    required (as_tokenId b) = Some tokenId /\ answered = Some tokenId /\
    PrivateKey_fromString sdk accountPrivateKey = Ok acctKey /\
    AccountId_fromString sdk accountId = Ok acctId /\
    TokenId_fromString sdk tokenId = Ok token /\
    getReceipt sdk resp = Ok receipt /\ st = status receipt /\
    let tx := {| assoc_accountId := acctId; assoc_tokenIds := [token] |} in
    fst (token_associate cfg sdk hts b) =
      [FreezeAssociate tx; ExecuteTokenAssociate tx acctKey; ReceiptOf resp].
Proof.
  unfold token_associate, handler_t, tbind, tlift, tcall, tret.
  destruct (hederaClient cfg sdk); cbn [negb]; [|discriminate].
  destruct (required (as_accountId b)) as [accountId|]; [|discriminate].
  destruct (required (as_accountPrivateKey b)) as [accountPrivateKey|]; [|discriminate].
  destruct (required (as_tokenId b)) as [tokenId|]; [|discriminate].
  destruct (PrivateKey_fromString sdk accountPrivateKey) as [acctKey|] eqn:Ek; cbn;
    [|discriminate].
  destruct (AccountId_fromString sdk accountId) as [acctId|] eqn:Ea; cbn; [|discriminate].
  destruct (TokenId_fromString sdk tokenId) as [token|] eqn:Et; cbn; [|discriminate].
  destruct (freezeWith_sign_associate hts _ acctKey); cbn; [|discriminate].
  destruct (execute_tokenAssociate hts _ acctKey) as [resp|]; cbn; [|discriminate].
  destruct (getReceipt sdk resp) as [receipt|] eqn:Ere; cbn; [|discriminate].
  intros [= <- <-].
  exists accountId, accountPrivateKey, tokenId, acctKey, acctId, token, resp, receipt.
  repeat split; assumption.
Qed.

Lemma token_associate_success_signed_by_account_witness :
  fst (token_associate cfg_memory sdk_success hts_success
         {| as_accountId := Some "0.0.7"; as_accountPrivateKey := Some "key7";
            as_tokenId := Some "0.0.100" |})
    = [FreezeAssociate {| assoc_accountId := acct 7; assoc_tokenIds := [TokId 0 0 100] |};
       ExecuteTokenAssociate
         {| assoc_accountId := acct 7; assoc_tokenIds := [TokId 0 0 100] |} (PrivKey "key7");
       ReceiptOf {| transactionId := "0.0.7@1" |}].
Proof.
  destruct (token_associate_success_signed_by_account cfg_memory sdk_success hts_success
              {| as_accountId := Some "0.0.7"; as_accountPrivateKey := Some "key7";
                 as_tokenId := Some "0.0.100" |} (Some "0.0.100") "SUCCESS" eq_refl)
    as (a & pk & t & k & i & tok & resp & receipt
        & Ha & Hpk & Ht & _ & Hk & Hi & Htok & _ & _ & Hc).
  injection Ha as <-. injection Hpk as <-. injection Ht as <-.
  injection Hk as <-. injection Hi as <-. injection Htok as <-.
  cbv zeta in Hc. rewrite Hc. cbn in Hc. injection Hc as <-. reflexivity.
Defined.

(** ** The price oracle and the refresh *)

Lemma map_outcome_transform_ok (now : Z) (j : list (string * CoinJson)) :
  no_null_entry j -> map_outcome (transform now) j = Ok (map (snapshot_of now) j).
Proof.
  unfold no_null_entry. induction 1 as [|e r He Hr IH]; cbn; [reflexivity|].
  rewrite IH. unfold transform, snapshot_of.
  destruct (snd e); [contradiction|reflexivity].
Qed.

Lemma map_outcome_transform_inv (now : Z) (j : list (string * CoinJson))
    (data : list Price) :
  map_outcome (transform now) j = Ok data ->
  no_null_entry j /\ data = map (snapshot_of now) j.
Proof.
  unfold no_null_entry. revert data. induction j as [|e r IH]; intros data; cbn.
  - intros [= <-]. split; [constructor|reflexivity].
  - unfold transform at 1, snapshot_of at 1.
    destruct (snd e) as [|u c] eqn:He; cbn; [discriminate|].
    destruct (map_outcome (transform now) r) as [bs|err]; cbn; [|discriminate].
    intros [= <-]. destruct (IH bs eq_refl) as [Hr ->].
    split; [|reflexivity]. constructor; [rewrite He; discriminate|exact Hr].
Qed.

Lemma map_outcome_transform_iff (now : Z) (j : list (string * CoinJson)) (data : list Price) :
  map_outcome (transform now) j = Ok data <->
  no_null_entry j /\ data = map (snapshot_of now) j.
Proof.
  split; [apply map_outcome_transform_inv|].
  intros [Hnn ->]. apply map_outcome_transform_ok. exact Hnn.
Qed.

(** X22. [fetchCoinGecko] gives a snapshot set exactly when the oracle
    answered with a success status and an object none of whose values is
    [null]; the set then has one snapshot per property, in order, with the
    property name as asset id, [usd] as sent, the 24 hour change or 0 when it
    is missing, and the time of the fetch.  One [null] value makes the whole
    fetch fail: no partial set is produced. *)
Theorem fetchCoinGecko_ok_iff (reply : FetchReply) (now : Z) (data : list Price) :
  fetchCoinGecko reply now = FetchOk data <->
  exists status text j,
    reply = FetchResponse true status text (Ok j) /\
    no_null_entry j /\ data = map (snapshot_of now) j.
Proof.
  unfold fetchCoinGecko. split.
  - destruct reply as [e|ok status text json]; cbn; [discriminate|].
    destruct ok; cbn.
    + destruct json as [j|e]; cbn; [|discriminate].
      destruct (map_outcome (transform now) j) as [out|e] eqn:Eout; cbn; [|discriminate].
      intros [= <-]. exists status, text, j. split; [reflexivity|].
      apply map_outcome_transform_iff. exact Eout.
    + destruct text; cbn; discriminate.
  - intros (status & text & j & -> & Hnn & ->). cbn.
    rewrite (proj2 (map_outcome_transform_iff now j _) (conj Hnn eq_refl)).
    reflexivity.
Qed.

Lemma fetchCoinGecko_ok_iff_witness :
  fetchCoinGecko (oracle_up "x" 123) 1000 = FetchOk [snapshot "x" 123 1000] /\
  forall data,
    fetchCoinGecko
      (FetchResponse true 200 (Ok "")
         (Ok [("x", DObject (VNumber (of_int 1)) VUndefined); ("y", DNull)])) 1000
    <> FetchOk data.
Proof.
  split.
  - apply (proj2 (fetchCoinGecko_ok_iff (oracle_up "x" 123) 1000 _)).
    eexists. eexists. eexists. split; [reflexivity|].
    split; [|reflexivity]. constructor; [discriminate|constructor].
  - intros data H.
    apply (proj1 (fetchCoinGecko_ok_iff _ 1000 data)) in H.
    destruct H as (status & text & j & Hr & Hnn & _).
    injection Hr as _ _ <-.
    inversion Hnn as [|? ? _ Hrest]; subst.
    inversion Hrest as [|? ? Hy _]; subst. apply Hy. reflexivity.
Defined.


(** X23. On the durable backend a refresh never removes a snapshot: a
    stored snapshot whose asset id is not among the fetched ones is still
    in the Prices collection afterwards, whether the refresh went through
    or not. *)
Theorem refresh_keeps_untracked_snapshots
    (cfg : Config) (reply : FetchReply) (now : Z) (w : World) (q : Price) :
  In q (Prices (mongo w)) ->
  (forall data, fetchCoinGecko reply now = FetchOk data ->
                ~ In (coinId q) (map coinId data)) ->
  In q (Prices (mongo (fst (priceUpdaterOnce cfg reply now w)))).
Proof.
  intros Hin Hnot. rewrite priceUpdaterOnce_world.
  destruct (fetchCoinGecko reply now) as [data|st msg|e]; try exact Hin.
  destruct (nonempty (MONGO_URI cfg)); [|exact Hin].
  destruct (Z.eq_dec (readyState (mongo w)) 1) as [Hup|Hdown].
  - destruct (for_of_upsert_connected (with_updatedAt now) data w Hup) as (_ & -> & _).
    apply upsert_all_keeps; [reflexivity|exact (Hnot data eq_refl)|exact Hin].
  - rewrite (for_of_upsert_disconnected (with_updatedAt now) data w Hdown). exact Hin.
Qed.

Lemma refresh_keeps_untracked_snapshots_witness :
  let w1 := fst (priceUpdaterOnce cfg_durable (oracle_up "x" 123) 1000 world0) in
  In (snapshot "x" 123 1000)
     (Prices (mongo (fst (priceUpdaterOnce cfg_durable (oracle_up "y" 200) 2000 w1)))).
Proof.
  apply (refresh_keeps_untracked_snapshots cfg_durable (oracle_up "y" 200) 2000 _
           (snapshot "x" 123 1000)).
  - left. reflexivity.
  - intros data [= <-]. cbn. intros [H|[]]. discriminate H.
Defined.





Lemma find_upsert_same (p : Price) (l : list Price) :
  find (fun h => String.eqb (coinId h) (coinId p)) (Mongoose.upsert p l) = Some p.
Proof.
  induction l as [|h r IH]; cbn.
  - rewrite String.eqb_refl. reflexivity.
  - destruct (String.eqb (coinId h) (coinId p)) eqn:E; cbn.
    + rewrite String.eqb_refl. reflexivity.
    + rewrite E. exact IH.
Qed.

Lemma find_upsert_other (p : Price) (id : string) (l : list Price) :
  coinId p <> id ->
  find (fun h => String.eqb (coinId h) id) (Mongoose.upsert p l) =
  find (fun h => String.eqb (coinId h) id) l.
Proof.
  intros Hne. induction l as [|h r IH]; cbn.
  - destruct (String.eqb_spec (coinId p) id); [contradiction|reflexivity].
  - destruct (String.eqb_spec (coinId h) (coinId p)) as [Heq|Hd]; cbn.
    + destruct (String.eqb_spec (coinId p) id); [contradiction|].
      destruct (String.eqb_spec (coinId h) id) as [Hh|_]; [congruence|reflexivity].
    + destruct (String.eqb (coinId h) id); [reflexivity|exact IH].
Qed.

Lemma upsert_fixed (p : Price) (l : list Price) :
  find (fun h => String.eqb (coinId h) (coinId p)) l = Some p ->
  Mongoose.upsert p l = l.
Proof.
  induction l as [|h r IH]; cbn; [discriminate|].
  destruct (String.eqb (coinId h) (coinId p)).
  - intros [= ->]. reflexivity.
  - intros H. rewrite (IH H). reflexivity.
Qed.

Lemma upsert_all_keeps_find (f : Price -> Price) (data l : list Price) (id : string) :
  (forall x, coinId (f x) = coinId x) ->
  ~ In id (map coinId data) ->
  find (fun h => String.eqb (coinId h) id) (upsert_all f data l) =
  find (fun h => String.eqb (coinId h) id) l.
Proof.
  intros Hf. unfold upsert_all. revert l.
  induction data as [|a r IH]; intros l Hnot; cbn [fold_left]; [reflexivity|].
  rewrite IH by (intros H; apply Hnot; right; exact H).
  apply find_upsert_other. rewrite Hf. intros H. apply Hnot. left. exact H.
Qed.

Lemma upsert_all_first (f : Price -> Price) (data l : list Price) (p : Price) :
  (forall x, coinId (f x) = coinId x) ->
  NoDup (map coinId data) -> In p data ->
  find (fun h => String.eqb (coinId h) (coinId p)) (upsert_all f data l) = Some (f p).
Proof.
  intros Hf. revert l.
  induction data as [|a r IH]; intros l Hnd Hin; [destruct Hin|].
  cbn in Hnd. inversion Hnd as [|? ? Ha Hr]; subst.
  change (upsert_all f (a :: r) l) with (upsert_all f r (Mongoose.upsert (f a) l)).
  destruct Hin as [->|Hin]; [|apply IH; assumption].
  rewrite (upsert_all_keeps_find f r _ (coinId p) Hf Ha).
  rewrite <- (Hf p). apply find_upsert_same.
Qed.

Lemma upsert_all_fixed (f : Price -> Price) (data l : list Price) :
  (forall p, In p data -> Mongoose.upsert (f p) l = l) ->
  upsert_all f data l = l.
Proof.
  unfold upsert_all. induction data as [|p r IH]; intros Hfix; cbn [fold_left];
    [reflexivity|].
  rewrite (Hfix p (or_introl eq_refl)).
  apply IH. intros x Hx. apply Hfix. right. exact Hx.
Qed.

(** X25. On the durable backend a refresh is idempotent: running
    [priceUpdaterOnce] a second time with the same answer of the oracle at the
    same time leaves the Prices collection as the first run left it. *)
Theorem refresh_twice_is_once
    (cfg : Config) (reply : FetchReply) (now : Z) (w : World) :
  keys_distinct reply ->
  let w1 := fst (priceUpdaterOnce cfg reply now w) in
  Prices (mongo (fst (priceUpdaterOnce cfg reply now w1))) = Prices (mongo w1).
Proof.
  intros Hkeys. cbv zeta.
  pose proof (priceUpdaterOnce_frame cfg reply now w) as (Hrs & _).
  rewrite (priceUpdaterOnce_world cfg reply now (fst (priceUpdaterOnce cfg reply now w))).
  destruct (fetchCoinGecko reply now) as [data|st msg|e] eqn:Hfetch; try reflexivity.
  destruct (nonempty (MONGO_URI cfg)) eqn:Huri; [|reflexivity].
  destruct (Z.eq_dec (readyState (mongo w)) 1) as [Hup|Hdown].
  - destruct (for_of_upsert_connected (with_updatedAt now) data
                (fst (priceUpdaterOnce cfg reply now w))) as (_ & -> & _);
      [rewrite Hrs; exact Hup|].
    rewrite priceUpdaterOnce_world, Hfetch, Huri.
    destruct (for_of_upsert_connected (with_updatedAt now) data w Hup) as (_ & -> & _).
    pose proof (fetchCoinGecko_ids_distinct reply now data Hkeys Hfetch) as Hnd.
    apply upsert_all_fixed. intros p Hp. apply upsert_fixed.
    change (coinId (with_updatedAt now p)) with (coinId p).
    apply upsert_all_first; [reflexivity|exact Hnd|exact Hp].
  - rewrite for_of_upsert_disconnected by (rewrite Hrs; exact Hdown). reflexivity.
Qed.

Lemma refresh_twice_is_once_witness :
  let w1 := fst (priceUpdaterOnce cfg_durable (oracle_up "x" 123) 1000 world0) in
  Prices (mongo (fst (priceUpdaterOnce cfg_durable (oracle_up "x" 123) 1000 w1)))
    = [snapshot "x" 123 1000].
Proof.
  cbv zeta.
  rewrite (refresh_twice_is_once cfg_durable (oracle_up "x" 123) 1000 world0).
  - reflexivity.
  - cbn. constructor; [intros []|constructor].
Defined.

(** [priceUpdaterOnce] catches whatever is thrown inside it. *)
Lemma priceUpdaterOnce_never_throws
    (cfg : Config) (reply : FetchReply) (now : Z) (w : World) :
  snd (priceUpdaterOnce cfg reply now w) = Ok tt.
Proof.
  unfold priceUpdaterOnce. unfold_m.
  destruct (fetchCoinGecko reply now); try reflexivity.
  destruct (nonempty (MONGO_URI cfg)); [|reflexivity].
  destruct (for_of _ _ w) as [w' [[]|e]]; reflexivity.
Qed.

(** ** Start-up and health *)

(** X26. [startServer] leaves a listening server exactly when the database
    is not configured or [mongoose.connect] succeeds, [PORT] is an integer
    from 0 to 65535, and the port can be bound, whatever the price oracle
    answers to the first refresh.  The process exits exactly when a
    configured database cannot be reached or [PORT] is not such an integer;
    otherwise it stays up with the price timer scheduled, also when the port
    cannot be bound and nothing listens.  When the connection fails the
    world is as it was, and nothing falls back to the memory store; when the
    server listens with [MONGO_URI] set, the connection is open. *)
Theorem startServer_listens_iff
    (cfg : Config) (port : option string) (connect : outcome unit) (reply : FetchReply)
    (bound : outcome unit) (now : Z) (w : World) :
  let r := startServer cfg port connect reply bound now w in
  (listening (snd r) = true <->
     (nonempty (MONGO_URI cfg) = false \/ connect = Ok tt) /\
     valid_port (PORT port) = true /\ bound = Ok tt) /\
  (exited (snd r) = true <->
     (nonempty (MONGO_URI cfg) = true /\ connect <> Ok tt) \/
     valid_port (PORT port) = false) /\
  interval (snd r) = negb (exited (snd r)) /\
  (nonempty (MONGO_URI cfg) = true -> connect <> Ok tt -> fst r = w) /\
  (listening (snd r) = true -> nonempty (MONGO_URI cfg) = true ->
   readyState (mongo (fst r)) = 1).
Proof.
  cbv zeta. unfold startServer, handler_of, mongoConnect, listen. unfold_m.
  destruct (nonempty (MONGO_URI cfg)) eqn:Huri; cbn [negb].
  - destruct connect as [[]|e]; cbn.
    + pose proof (priceUpdaterOnce_never_throws cfg reply now
                    (set_mongo (fun m =>
                       {| readyState := 1; Users := Users m;
                          Transactions := Transactions m; Prices := Prices m |}) w))
        as Hok.
      pose proof (priceUpdaterOnce_frame cfg reply now
                    (set_mongo (fun m =>
                       {| readyState := 1; Users := Users m;
                          Transactions := Transactions m; Prices := Prices m |}) w))
        as (Hrs & _).
      destruct (priceUpdaterOnce cfg reply now _) as [w' o]. cbn in Hok, Hrs. subst o.
      destruct (valid_port (PORT port)); destruct bound as [[]|e]; cbn;
        repeat split; try discriminate; auto;
        try (intros (_ & H & _); discriminate H);
        try (intros (_ & _ & H); discriminate H);
        try (intros [[_ H]|H]; [exfalso; apply H; reflexivity|discriminate H]);
        try (intros _ H; exfalso; apply H; reflexivity).
    + repeat split; try discriminate; try reflexivity; auto.
      * intros ([H|H] & _); discriminate H.
      * intros _. left. split; [reflexivity|discriminate].
  - pose proof (priceUpdaterOnce_never_throws cfg reply now w) as Hok.
    destruct (priceUpdaterOnce cfg reply now w) as [w' o]. cbn in Hok. subst o.
    destruct (valid_port (PORT port)); destruct bound as [[]|e]; cbn;
      repeat split; try discriminate; auto;
      try (intros (_ & H & _); discriminate H);
      try (intros (_ & _ & H); discriminate H);
      try (intros [[H _]|H]; discriminate H).
Qed.

Lemma startServer_listens_iff_witness :
  listening (snd (startServer cfg_memory None (Throw (DbError "unreachable")) oracle_down
                    (Ok tt) 1000 world0)) = true /\
  startServer cfg_durable None (Throw (DbError "unreachable")) (oracle_up "x" 123)
    (Ok tt) 1000 world_down
    = (world_down, {| exited := true; interval := false; listening := false |}) /\
  exited (snd (startServer cfg_memory (Some "65536") (Ok tt) oracle_down (Ok tt) 1000
                 world0)) = true /\
  snd (startServer cfg_memory (Some "8080") (Ok tt) oracle_down
         (Throw (SdkError "EADDRINUSE")) 1000 world0)
    = {| exited := false; interval := true; listening := false |}.
Proof.
  split; [|split; [|split]].
  - apply (proj1 (startServer_listens_iff cfg_memory None (Throw (DbError "unreachable"))
                    oracle_down (Ok tt) 1000 world0)).
    split; [left; reflexivity|]. split; reflexivity.
  - pose proof (startServer_listens_iff cfg_durable None (Throw (DbError "unreachable"))
                  (oracle_up "x" 123) (Ok tt) 1000 world_down) as (_ & _ & _ & Hw & _).
    rewrite (surjective_pairing (startServer _ _ _ _ _ _ _)).
    rewrite (Hw eq_refl ltac:(discriminate)). reflexivity.
  - apply (proj1 (proj2 (startServer_listens_iff cfg_memory (Some "65536") (Ok tt)
                           oracle_down (Ok tt) 1000 world0))).
    right. reflexivity.
  - pose proof (startServer_listens_iff cfg_memory (Some "8080") (Ok tt) oracle_down
                  (Throw (SdkError "EADDRINUSE")) 1000 world0) as (Hl & He & Hi & _).
    destruct (snd (startServer cfg_memory (Some "8080") (Ok tt) oracle_down
                     (Throw (SdkError "EADDRINUSE")) 1000 world0))
      as [ex iv ls].
    cbn [listening exited interval] in Hl, He, Hi.
    destruct ls.
    { destruct (proj1 Hl eq_refl) as (_ & _ & H). discriminate H. }
    destruct ex.
    { destruct (proj1 He eq_refl) as [[H _]|H]; discriminate H. }
    rewrite Hi. reflexivity.
Defined.

(** X27. The health route tells whether the token routes can be used: when
    it reports [hedera: "disabled"], token creation, transfer, minting and
    association all answer 500 "Hedera client not configured" without a call
    through the client and without a change to the world; when it reports
    "enabled", none of them gives that answer. *)
Theorem health_tells_hedera_routes
    (cfg : Config) (sdk : Sdk) (hts : SdkHts) (now : Z) (w : World)
    (st sv flag db : string) (ts : Z) :
  m_body (health cfg sdk now w) = MHealth st sv flag db ts ->
  (flag = "disabled" ->
   (forall b, token_create cfg sdk b w =
      (w, res_status 500 (BError "Hedera client not configured on server"))) /\
   (forall t b, token_transfer cfg sdk t b w =
      (w, res_status 500 (BError "Hedera client not configured"))) /\
   (forall b, token_mint cfg sdk hts b =
      ([], res_status 500 (BError "Hedera client not configured"))) /\
   (forall b, token_associate cfg sdk hts b =
      ([], res_status 500 (BError "Hedera client not configured")))) /\
  (flag = "enabled" ->
   (forall b, snd (token_create cfg sdk b w) <>
      res_status 500 (BError "Hedera client not configured on server")) /\
   (forall t b, snd (token_transfer cfg sdk t b w) <>
      res_status 500 (BError "Hedera client not configured")) /\
   (forall b, snd (token_mint cfg sdk hts b) <>
      res_status 500 (BError "Hedera client not configured")) /\
   (forall b, snd (token_associate cfg sdk hts b) <>
      res_status 500 (BError "Hedera client not configured"))).
Proof.
  unfold health. cbn [m_body]. intros [= _ _ Hflag _ _].
  destruct (hederaClient cfg sdk) eqn:Hc; subst flag; split; try discriminate; intros _.
  - split; [|split; [|split]]; intros.
    + unfold token_create, tokenCreate, obind. unfold_m. rewrite Hc.
      repeat (break_match; cbn); try discriminate.
      all: repeat match goal with H : Ok _ = Ok _ |- _ => inversion H; clear H end;
        subst; discriminate.
    + unfold token_transfer, Mongoose.Transaction_create. unfold_m. rewrite Hc.
      repeat (break_match; cbn); discriminate.
    + unfold token_mint, handler_t, tbind, tlift, tcall, tret. rewrite Hc.
      repeat (break_match; cbn); discriminate.
    + unfold token_associate, handler_t, tbind, tlift, tcall, tret. rewrite Hc.
      repeat (break_match; cbn); discriminate.
  - split; [|split; [|split]]; intros.
    + unfold token_create. unfold_m. rewrite Hc. reflexivity.
    + unfold token_transfer. unfold_m. rewrite Hc. reflexivity.
    + unfold token_mint. rewrite Hc. reflexivity.
    + unfold token_associate. rewrite Hc. reflexivity.
Qed.

Lemma health_tells_hedera_routes_witness :
  token_transfer cfg_no_operator sdk_success 1000 transfer_request world0
    = (world0, res_status 500 (BError "Hedera client not configured")).
Proof.
  exact (proj1 (proj2 (proj1 (health_tells_hedera_routes cfg_no_operator sdk_success
                                hts_success 1000 world0 _ _ "disabled" _ _ eq_refl)
                         eq_refl)) 1000 transfer_request).
Defined.
